(* ===== verification/_CoqProject ===== *)
-Q . S2P
Prelude.v
Frame.v
Imputer.v
Encoder.v
Scaler.v
Pipeline.v
ColumnTransformer.v
Preprocessor.v
RowSpec.v
Store.v
DataTransformation.v
DataIngestion.v
PredictPipeline.v
Training.v
PyFloat.v
App.v
Server.v
Examples.v
