(* ===== verification/Prelude.v ===== *)
(** * A verification development of the student-score prediction service

    The program (repository lulu3202/e2emlproject) is a batch training
    script and a Flask service.  Training: [DataIngestion] reads
    [notebook/data/stud.csv], writes a raw copy and an 80/20 train/test
    split; [DataTransformation] fits a preprocessing [ColumnTransformer] on
    the training inputs, transforms both partitions, appends the
    [math_score] target and pickles the fitted preprocessor; [ModelTrainer]
    fits a regressor and pickles it.  Serving: the Flask handler builds a
    one-row frame from the form ([CustomData]) and [PredictPipeline.predict]
    loads both pickles, transforms the row and predicts.  The spec's central
    contract is train/serve symmetry: the transformation fitted once is
    replayed unmodified at inference.

    ** Files and what they model (sources under src/)

    - Prelude.v: Python exceptions ([exn]), the error monad [result] with
      [let*], [try_custom] (the [except Exception: raise CustomException]
      blocks), [mapM], and the generic lemmas and hint database [pyml].
    - Frame.v: pandas cells and frames; [df[col]], [df.drop(columns=...)],
      by-label column selection, [pd.DataFrame(dict)].
    - Imputer.v, Encoder.v, Scaler.v: [SimpleImputer] (median and
      most_frequent), [OneHotEncoder()], [StandardScaler()] and
      [StandardScaler(with_mean=False)] as sklearn computes them, in binary64
      ([PrimFloat]); data_transformation.py lines 47-48, 55-57.
    - Pipeline.v: the transformer interface (a [Record] of [fit],
      [transform], [fit_transform] with the laws [ft_law], [rowwise]) and
      [Pipeline] as [pipe]; lines 45-59.
    - ColumnTransformer.v: the two-branch [ColumnTransformer] (a [Section]
      over two transformers satisfying the interface), with the sparse
      output decision; lines 66-71.
    - Preprocessor.v: [get_data_transformer_object] (lines 29-77) as an
      instance, its fitted state, invariant [state_wf] and output width.
    - RowSpec.v: the closed form of one transformed row (standardized
      scores, then scaled category indicators) that [transform] refines.
    - Store.v: the artifact files as a [gmap] from paths, the state and
      error monad [io], [to_csv]/[read_csv], and [save_object]/[load_object]
      (src/utils.py is not in the repository: modelled from the spec).
    - DataTransformation.v: [DataTransformationConfig] and [__init__]
      (lines 19-27; the path is a class attribute) and
      [initiate_data_transformation] (lines 79-134).
    - DataIngestion.v: [DataIngestionConfig] with its defaults, the
      constructor, [initiate_data_ingestion] (data_ingestion.py lines
      17-62) and sklearn's [train_test_split] sizes.  The paths of all
      three files are built by [os_path_join] (Store.v) as the code does.
    - PredictPipeline.v: [PredictPipeline.predict] and [CustomData]
      (src/src/pipeline/predict_pipeline.py).
    - Training.v: [ModelTrainer] (src/components/model_trainer.py, not in
      the repository: modelled from the spec), the script of
      data_ingestion.py lines 65-79, and the end-to-end train/serve
      theorem.
    - PyFloat.v: CPython's [float()] on strings (app.py lines 33-34).
    - App.v: the Flask handlers [index] and [predict_datapoint] of
      src/app.py.
    - Server.v: Flask's url map of the two routes (automatic HEAD and
      OPTIONS, 404, 405, uncaught exceptions as 500) and [app.run] as a
      step relation serving the pending requests in any order.
    - Examples.v: concrete runs, the reading/writing swap on the spec's
      example submission, and an instance of every theorem with hypotheses.

    ** What the theorems show

    - Train/serve symmetry (Training.v): after a successful training run,
      serving any training record returns the model's value on exactly the
      row it was trained on; [fit_transform] is [fit] then [transform]
      (Preprocessor.v); [transform] is row-wise, so one record transforms
      as it does inside a batch (ColumnTransformer.v, proved against the
      interface); the pickled preprocessor loads back and replays the
      training output, and what is fitted and pickled does not depend on
      the test file (DataTransformation.v).
    - The fitted state: [fit] freezes a well-formed state and every output
      row has the fixed width [out_width] (numeric columns first, then the
      one-hot blocks in vocabulary order); [transform] never fails on a
      frame with rows whose rows have known categories, and imputes a
      missing score with the median.  Every estimator's [transform]
      validates its batch as sklearn's [check_array] does: a frame without
      rows raises (Pipeline.v, [check_samples]).
    - The estimators: the vocabulary the one-hot encoder learns for a
      column is sorted, duplicate-free and exactly the column's training
      strings, and it encodes a row as one block per column, placed after
      the earlier columns' blocks, with 1 at the category's place in that
      vocabulary and 0 elsewhere (Encoder.v);
      the most_frequent imputer keeps an observed value of maximal count,
      the least in string order among ties (Imputer.v).
    - Failures, each as a value of [result]: an unseen category raises
      (the spec asks for no crash), a missing column raises, a frame with
      no rows raises, a sparse preprocessor output makes [np.c_] raise,
      missing files (wrapped once by [predict]), columns or form fields,
      too few rows.
    - Data ingestion: the split keeps the columns, partitions the rows and
      has [ceil(0.2 n)] test rows.
    - Refinement (RowSpec.v): on rows the state knows, [transform] returns
      the closed-form row of the spec: median-imputed scores standardized
      by the fitted mean and scale, then one indicator per category of
      each kept column (the mode for a gap) times the inverse scale.
    - The web handler swaps the reading and writing scores (app.py lines
      33-34), shown in general and on the spec's example submission; a
      valid submission is answered with the model's value on the
      closed-form row of the (swapped) record.
    - The server (Server.v): every run of the request loop that has
      served all arrived requests, in whatever order it took them, has
      answered each valid POST to [/predictdata] with a 200 page showing
      the model's value on the closed-form row of the (swapped) record.
      Its supporting lemmas: the loop keeps the artifacts (invariant by
      induction on [rtc step]), terminates (well-founded on the pending
      count) and can always progress.
    - Frames: [drop_column] keeps a frame well formed and every other
      column's values unchanged.
    - [float()] (PyFloat.v): printing then parsing an integer below [2^53]
      gives back its exact binary64 value.

    ** Bounds and parameters

    - [ceil(0.2 * n)] is checked against [(n + 4) / 5] for [n <= 5000] by
      evaluation (the data set has 1000 rows).  [float()] is proved exact
      on the decimal printing of every integer below [2^53] (through the
      [SpecFloat] specification of [PrimFloat]).
    - [float_of_nat] goes through [Uint63]; the counts it converts (rows,
      non-zero entries) are far below [2^63], where it rounds as Python's
      [float(int)] does.
    - numpy's [RandomState(42).permutation] is a parameter [perm]: the
      theorems assume only that it returns a permutation.  The model search
      of [ModelTrainer] is a parameter [learn].
    - No fuel is needed: every loop of the program is structural.

    ** Not modelled

    Logging, printing, [os.makedirs], template rendering, HTTP parsing and
    the WSGI layer under [app.run] (pure I/O); the message formatting of [CustomException]; CSV text (a
    CSV written by pandas reads back as the frame itself); numpy's pairwise
    summation order (sums are left folds); Unicode whitespace in
    [float()].  [get_data_transformer_object] is modelled by the constant
    configuration of Preprocessor.v: the statements of lines 35-71 only
    build estimator objects and cannot raise, so its [try]/[except] (lines
    33 and 75-77) has no path to model.  [model_trainer.py] and
    [src/utils.py] are not in the repository: ModelTrainer, [save_object]
    and [load_object] follow the spec, which gives them no exception
    handling of their own (the error a missing artifact causes is wrapped
    once, by [predict]), and the model search is a parameter. *)

From stdpp Require Export base list strings gmap sorting.
From Stdlib Require Export Floats.
From Stdlib Require Uint63.

Declare Scope py_scope.
Delimit Scope py_scope with py.

(** ** Python exceptions

    The exceptions the modelled code raises or lets escape.  [CustomException]
    is [src.exception.CustomException]: every [try ... except Exception as e:
    raise CustomException(e, sys)] block of the sources wraps the exception it
    caught, so nesting of [CustomException] records how many such blocks an
    error crossed. *)
Inductive exn : Type :=
  | KeyError (key : string)
  | ValueError (msg : string)
  | TypeError (msg : string)
  | FileNotFoundError (path : string)
  | AttributeError (msg : string)
  | IndexError (msg : string)
  | CustomException (inner : exn).

(** ** The error monad

    A Python call either returns a value or raises; [result] is that sum. *)
Inductive result (A : Type) : Type :=
  | Ok (a : A)
  | Err (e : exn).
Arguments Ok {A} a.
Arguments Err {A} e.

Definition rbind {A B} (r : result A) (k : A -> result B) : result B :=
  match r with
  | Ok a => k a
  | Err e => Err e
  end.

Notation "'let*' x ':=' c 'in' k" := (rbind c (fun x => k))
  (at level 10, x name, c at level 100, k at level 200,
   format "'[v' 'let*'  x  ':='  c  'in' '/' k ']'") : py_scope.
Notation "'let*' ' p ':=' c 'in' k" := (rbind c (fun p => k))
  (at level 10, p pattern, c at level 100, k at level 200,
   format "'[v' 'let*'  ' p  ':='  c  'in' '/' k ']'") : py_scope.

Open Scope py_scope.

(** [try: body except Exception as e: raise CustomException(e, sys)] *)
Definition try_custom {A} (r : result A) : result A :=
  match r with
  | Ok a => Ok a
  | Err e => Err (CustomException e)
  end.

Definition is_ok {A} (r : result A) : bool :=
  match r with Ok _ => true | Err _ => false end.

(** Applying a fallible function to every element, stopping at the first
    exception (a Python loop or a vectorised call over the rows). *)
Fixpoint mapM {A B} (f : A -> result B) (l : list A) : result (list B) :=
  match l with
  | [] => Ok []
  | x :: l' =>
      let* y := f x in
      let* ys := mapM f l' in
      Ok (y :: ys)
  end.

(** [float(n)] for a Python [int] [n] (exact below 2^53). *)
Definition float_of_nat (n : nat) : float :=
  PrimFloat.of_uint63 (Uint63.of_Z (Z.of_nat n)).

(** ** Generic lemmas on [result] and [mapM] *)

Create HintDb pyml.
Create Rewrite HintDb pyml_rw.

Lemma rbind_Ok_inv {A B} (r : result A) (k : A -> result B) b :
  rbind r k = Ok b -> exists a, r = Ok a /\ k a = Ok b.
Proof. destruct r; simpl; [eauto | discriminate]. Qed.

Lemma rbind_Ok {A B} (a : A) (k : A -> result B) : rbind (Ok a) k = k a.
Proof. reflexivity. Qed.

Lemma rbind_Err {A B} e (k : A -> result B) : rbind (Err e) k = Err e.
Proof. reflexivity. Qed.

#[export] Hint Rewrite @rbind_Ok @rbind_Err : pyml_rw.

(** Decompose the [let*] chains of a hypothesis [_ = Ok _]. *)
Ltac inv_ok :=
  repeat match goal with
  | H : rbind _ _ = Ok _ |- _ =>
      let a := fresh "a" in let Ha := fresh "Ha" in
      apply rbind_Ok_inv in H as (a & Ha & H)
  | H : Ok _ = Ok _ |- _ => injection H as H; subst
  | H : Err _ = Ok _ |- _ => discriminate H
  end.

Section MapM.
Context {A B : Type} (f : A -> result B).

Lemma mapM_Ok_Forall2 l l' :
    mapM f l = Ok l' <-> Forall2 (fun x y => f x = Ok y) l l'.
  Proof.
    revert l'. induction l as [|x l IH]; intros l'; simpl.
    - split; [intros [= <-]; constructor | intros H; inversion H; done].
    - split.
      + intros H. inv_ok. constructor; [done | by apply IH].
      + intros H. inversion H as [|? y ? ys Hy Hys]; subst.
        rewrite Hy. simpl. apply IH in Hys. by rewrite Hys.
  Qed.

Lemma mapM_Ok_length l l' : mapM f l = Ok l' -> length l' = length l.
  Proof. intros H%mapM_Ok_Forall2. symmetry. by eapply Forall2_length. Qed.

Lemma mapM_app_Ok l1 l2 l' :
    mapM f (l1 ++ l2) = Ok l' <->
    exists l1' l2', mapM f l1 = Ok l1' /\ mapM f l2 = Ok l2' /\ l' = l1' ++ l2'.
  Proof.
    split.
    - intros (l1' & l2' & H1 & H2 & ->)%mapM_Ok_Forall2%Forall2_app_inv_l.
      exists l1', l2'. split_and!; [by apply mapM_Ok_Forall2..|done].
    - intros (l1' & l2' & H1%mapM_Ok_Forall2 & H2%mapM_Ok_Forall2 & ->).
      apply mapM_Ok_Forall2. apply Forall2_app_inv_l. eauto.
  Qed.

Lemma mapM_Ok_lookup l l' i x :
    mapM f l = Ok l' -> l !! i = Some x -> exists y, l' !! i = Some y /\ f x = Ok y.
  Proof.
    intros H%mapM_Ok_Forall2 Hi.
    destruct (Forall2_lookup_l _ _ _ _ _ H Hi) as (y & ? & ?). eauto.
  Qed.

Lemma mapM_total (g : A -> B) l :
    (forall x, x ∈ l -> f x = Ok (g x)) -> mapM f l = Ok (map g l).
  Proof.
    induction l as [|x l IH]; intros Hg; simpl; [done|].
    rewrite (Hg x); [simpl|set_solver].
    rewrite IH; [done|]. intros y Hy. apply Hg. set_solver.
  Qed.

Lemma mapM_Err_elem l x e :
    x ∈ l -> f x = Err e -> exists e', mapM f l = Err e'.
  Proof.
    induction l as [|y l IH]; intros Hx He; [set_solver|]. simpl.
    destruct (f y) as [b|e'] eqn:Hy; simpl; [|eauto].
    apply elem_of_cons in Hx as [->|Hx]; [congruence|].
    destruct (IH Hx He) as [e' ->]. eauto.
  Qed.
End MapM.

Lemma mapM_singleton {A B} (f : A -> result B) x :
  mapM f [x] = rbind (f x) (fun y => Ok [y]).
Proof. simpl. by destruct (f x). Qed.

Lemma mapM_compose {A B C} (f : A -> result B) (g : B -> result C) l l'' :
  rbind (mapM f l) (mapM g) = Ok l'' <->
  exists l', mapM f l = Ok l' /\ mapM g l' = Ok l''.
Proof. split; [intros; inv_ok; eauto | intros (l' & -> & ?); done]. Qed.

(** Two row-wise stages that succeed on every row of [l] succeed on [l]. *)
Lemma mapM_rbind_total {A B C} (f : A -> result B) (g : B -> result C) (h : A -> C) l :
  (forall x, x ∈ l -> rbind (f x) g = Ok (h x)) -> rbind (mapM f l) (mapM g) = Ok (map h l).
Proof.
  induction l as [|x l IH]; intros H; simpl; [done|].
  assert (rbind (mapM f l) (mapM g) = Ok (map h l)) as IH' by (apply IH; set_solver).
  pose proof (H x ltac:(set_solver)) as Hx.
  destruct (f x) as [y|e]; simpl in Hx |- *; [|done].
  destruct (mapM f l) as [ys|e]; simpl in IH' |- *; [|done].
  rewrite Hx. simpl. by rewrite IH'.
Qed.

Lemma mapM_fmap {A B C} (f : B -> result C) (h : A -> B) l :
  mapM f (map h l) = mapM (fun x => f (h x)) l.
Proof. induction l as [|x l IH]; simpl; [done|]. by rewrite IH. Qed.

Lemma mapM_insert {A B} (f : A -> result B) (l : list A) j x y a b :
  f x = Ok a -> f y = Ok b ->
  mapM f (<[j:=x]> l) = rbind (mapM f (<[j:=y]> l)) (fun vs => Ok (<[j:=a]> vs)).
Proof.
  intros Hx Hy. revert j. induction l as [|h l IH]; intros [|j]; simpl; try done.
  - rewrite Hx, Hy. simpl. by destruct (mapM f l).
  - destruct (f h); simpl; [|done]. rewrite IH.
    by destruct (mapM f (<[j:=y]> l)).
Qed.

(** ** Python's string order ([str.__lt__] on code points; on the ASCII
    strings of the model, [String.leb]) *)

Lemma str_leb_refl s : String.leb s s = true.
Proof. apply Is_true_true. change (String.le s s). reflexivity. Qed.

Lemma str_leb_trans a b c :
  String.leb a b = true -> String.leb b c = true -> String.leb a c = true.
Proof.
  intros H1 H2. apply Is_true_true. change (String.le a c).
  transitivity b; by apply Is_true_true.
Qed.

Lemma str_leb_total_false a b : String.leb a b = false -> String.leb b a = true.
Proof. intros H. destruct (String.leb_total a b); congruence. Qed.

#[export] Hint Resolve str_leb_refl str_leb_total_false : pyml.

(** A map succeeds when every element satisfies a precondition under which
    the function succeeds. *)
Lemma mapM_Forall_Ok {A B} (f : A -> result B) (P : A -> Prop) (Q : B -> Prop) l :
  Forall P l -> (forall x, P x -> exists y, f x = Ok y /\ Q y) ->
  exists ys, mapM f l = Ok ys /\ Forall Q ys.
Proof.
  intros Hl Hf. induction Hl as [|x l Hx _ [ys [Hys HQ]]]; simpl; [by exists []|].
  destruct (Hf x Hx) as (y & -> & Hy). simpl. rewrite Hys. simpl.
  exists (y :: ys). split; [done|by constructor].
Qed.

(** Every result of a successful map satisfies what every call ensures. *)
Lemma mapM_Ok_Forall {A B} (f : A -> result B) (Q : B -> Prop) l ys :
  mapM f l = Ok ys -> (forall x y, f x = Ok y -> Q y) -> Forall Q ys.
Proof.
  intros H Hf. apply mapM_Ok_Forall2 in H.
  induction H as [|x y l ys Hxy _ IH]; constructor; [by eapply Hf|done].
Qed.

Lemma omap_lookup_app {A} (l k : list A) idx :
  Forall (fun i => i < length l) idx ->
  omap (fun i => (l ++ k) !! i) idx = omap (fun i => l !! i) idx.
Proof.
  induction 1 as [|i idx Hi _ IH]; [done|]. simpl.
  rewrite lookup_app_l by done. destruct (l !! i); [f_equal|]; exact IH.
Qed.

(** Reading a list at all its positions gives it back. *)
Lemma omap_lookup_seq {A} (l : list A) : omap (fun i => l !! i) (seq 0 (length l)) = l.
Proof.
  induction l as [|x l IH] using rev_ind; [done|].
  rewrite length_app, Nat.add_1_r, seq_S, omap_app. simpl.
  rewrite lookup_app_r by lia. rewrite Nat.sub_diag. simpl.
  rewrite (omap_lookup_app l [x]); [by rewrite IH|].
  apply Forall_forall. intros i Hi%list_elem_of_In%in_seq. lia.
Qed.

(** Two maps that agree as lists agree on each element: how a table
    checked by evaluation gives a statement per entry. *)
Lemma map_eq_elem {A B} (f g : A -> B) (l : list A) x :
  map f l = map g l -> x ∈ l -> f x = g x.
Proof.
  intros Hfg Hx. apply list_elem_of_lookup in Hx as [i Hi].
  apply (f_equal (fun l => l !! i)) in Hfg. rewrite !list_lookup_fmap, Hi in Hfg.
  by injection Hfg.
Qed.
