(* ===== verification/Frame.v ===== *)
(** * Frame: the pandas values the pipeline reads and writes

    A cell of a CSV-read [pandas.DataFrame] ([CNum] for a float64 or int64
    entry, [CStr] for an object entry, [CNaN] for a missing entry, [CNone] for a
    Python [None] in an object column), a frame as
    its column labels and its rows, and the frame operations the sources call:
    [df[col]], [df.drop(columns=[col])], the by-label column selection of
    [ColumnTransformer], and [pd.DataFrame(dict)]. *)

From S2P Require Import Prelude.

Inductive cell : Type :=
  | CNum (x : float)
  | CStr (s : string)
  | CNaN
  | CNone.

(** [pd.isna] as [SimpleImputer(missing_values=np.nan)] tests it: the NaN
    marker and a float NaN. *)
Definition is_missing (c : cell) : bool :=
  match c with
  | CNum x => PrimFloat.is_nan x
  | CStr _ => false
  | CNaN => true
  | CNone => false
  end.

Record frame : Type := mkFrame {
  columns : list string;
  rows : list (list cell)
}.

(** A frame is well formed when its labels are distinct and every row has
    one cell per label (what [pd.read_csv] and [pd.DataFrame] produce). *)
Definition frame_wf (df : frame) : Prop :=
  NoDup (columns df) /\ Forall (fun r => length r = length (columns df)) (rows df).

(** [Index.get_loc]: the position of a label. *)
Fixpoint col_index (c : string) (cols : list string) : option nat :=
  match cols with
  | [] => None
  | c' :: cs => if String.eqb c' c then Some 0 else S <$> col_index c cs
  end.

Definition cell_at (r : list cell) (i : nat) : cell := default CNaN (r !! i).

(** [df[c]]: the column as a Series; [KeyError] when the label is absent. *)
Definition get_column (df : frame) (c : string) : result (list cell) :=
  match col_index c (columns df) with
  | Some i => Ok (map (fun r => cell_at r i) (rows df))
  | None => Err (KeyError c)
  end.

(** [df.drop(columns=[c], axis=1)]; [KeyError] when the label is absent. *)
Definition drop_column (df : frame) (c : string) : result frame :=
  match col_index c (columns df) with
  | Some i => Ok (mkFrame (delete i (columns df)) (map (delete i) (rows df)))
  | None => Err (KeyError c)
  end.

(** The positions of the labels [cs], as [ColumnTransformer] resolves a list
    of column names against a DataFrame ([_get_column_indices]). *)
Definition column_indices (df : frame) (cs : list string) : result (list nat) :=
  mapM (fun c => match col_index c (columns df) with
                 | Some i => Ok i
                 | None => Err (ValueError "A given column is not a column of the dataframe")
                 end) cs.

(** The cells of one row at the given positions ([X.iloc[:, idx]]). *)
Definition take_cells (idx : list nat) (r : list cell) : list cell :=
  map (cell_at r) idx.

Definition select_rows (idx : list nat) (df : frame) : list (list cell) :=
  map (take_cells idx) (rows df).

(** [pd.DataFrame(d)] for a dict [d] of equal-length lists, in the dict's
    insertion order; pandas raises [ValueError] when the lengths differ. *)
Definition frame_of_dict (d : list (string * list cell)) : result frame :=
  let n := match d with [] => 0 | (_, vs) :: _ => length vs end in
  if forallb (fun kv => Nat.eqb (length kv.2) n) d
  then Ok (mkFrame (map fst d)
                   (map (fun i => map (fun kv => cell_at kv.2 i) d) (seq 0 n)))
  else Err (ValueError "All arrays must be of the same length").

(** The cell of a row under a label (missing when the label is absent). *)
Definition cell_of (cols : list string) (r : list cell) (c : string) : cell :=
  match col_index c cols with
  | Some i => cell_at r i
  | None => CNaN
  end.

(** ** Lemmas *)

Lemma col_index_lookup c cols i : col_index c cols = Some i -> cols !! i = Some c.
Proof.
  revert i. induction cols as [|c' cs IH]; intros i; simpl; [done|].
  destruct (String.eqb_spec c' c) as [->|_]; [by intros [= <-]|].
  destruct (col_index c cs) eqn:E; simpl; [intros [= <-]; by apply IH|done].
Qed.

Lemma col_index_None c cols : col_index c cols = None <-> c ∉ cols.
Proof.
  induction cols as [|c' cs IH]; simpl; [set_solver|].
  destruct (String.eqb_spec c' c) as [->|Hne]; [set_solver|].
  destruct (col_index c cs); simpl; set_solver.
Qed.

Lemma col_index_NoDup c cols i :
  NoDup cols -> cols !! i = Some c -> col_index c cols = Some i.
Proof.
  revert i. induction cols as [|c' cs IH]; intros i Hnd Hi; [done|].
  apply NoDup_cons in Hnd as [Hnin Hnd]. simpl.
  destruct i as [|i]; simpl in Hi.
  - injection Hi as ->. by rewrite String.eqb_refl.
  - destruct (String.eqb_spec c' c) as [->|_].
    + exfalso. apply Hnin. by eapply list_elem_of_lookup_2.
    + by rewrite (IH i).
Qed.

Lemma col_index_elem c cols : c ∈ cols -> exists i, col_index c cols = Some i.
Proof.
  intros H. destruct (col_index c cols) as [i|] eqn:E; [eauto|].
  by apply col_index_None in E.
Qed.

Lemma get_column_length df c vs :
  get_column df c = Ok vs -> length vs = length (rows df).
Proof.
  unfold get_column. destruct (col_index _ _); [intros [= <-]|done].
  by rewrite length_map.
Qed.

Lemma column_indices_Ok df cs :
  (forall c, c ∈ cs -> c ∈ columns df) ->
  exists idx, column_indices df cs = Ok idx /\ length idx = length cs.
Proof.
  unfold column_indices.
  induction cs as [|c cs IH]; intros Hcs; simpl; [by exists []|].
  destruct (col_index_elem c (columns df)) as [i ->]; [set_solver|]. simpl.
  destruct IH as (idx & -> & Hl); [set_solver|]. simpl.
  exists (i :: idx). simpl. auto.
Qed.

Lemma column_indices_lookup df cs idx k i :
  column_indices df cs = Ok idx -> idx !! k = Some i ->
  exists c, cs !! k = Some c /\ columns df !! i = Some c.
Proof.
  intros H Hk. apply mapM_Ok_Forall2 in H.
  destruct (Forall2_lookup_r _ _ _ _ _ H Hk) as (c & Hc & Hci).
  exists c. split; [done|].
  destruct (col_index c (columns df)) eqn:E; [|done].
  injection Hci as ->. by apply col_index_lookup.
Qed.

Lemma take_cells_length idx r : length (take_cells idx r) = length idx.
Proof. apply length_map. Qed.

Lemma select_rows_app idx r1 r2 :
  select_rows idx (mkFrame [] (r1 ++ r2)) =
  select_rows idx (mkFrame [] r1) ++ select_rows idx (mkFrame [] r2).
Proof. apply map_app. Qed.

Lemma n_features_select idx df :
  rows df <> [] -> (match select_rows idx df with [] => 0 | r :: _ => length r end) = length idx.
Proof.
  destruct df as [cols [|r rs]]; [done|]. intros _. apply take_cells_length.
Qed.

Lemma take_cells_column_indices df cs idx r :
  column_indices df cs = Ok idx -> take_cells idx r = map (cell_of (columns df) r) cs.
Proof.
  unfold column_indices. revert idx. induction cs as [|c cs IH]; intros idx H; simpl in *.
  - by injection H as <-.
  - unfold cell_of at 1. destruct (col_index c (columns df)) as [i|]; [simpl in H|done].
    destruct (mapM _ cs) as [idx'|]; [simpl in H|done]. injection H as <-.
    simpl. f_equal. by apply IH.
Qed.

Lemma cell_at_insert_ne r i j x : i <> j -> cell_at (<[i:=x]> r) j = cell_at r j.
Proof. intros H. unfold cell_at. by rewrite list_lookup_insert_ne. Qed.

Lemma take_cells_insert_notin idx r i x :
  i ∉ idx -> take_cells (idx) (<[i:=x]> r) = take_cells idx r.
Proof.
  intros H. unfold take_cells. apply map_ext_in. intros j Hj%list_elem_of_In.
  apply cell_at_insert_ne. set_solver.
Qed.

Lemma take_cells_insert idx r i k x :
  idx !! k = Some i -> (forall k', idx !! k' = Some i -> k' = k) -> i < length r ->
  take_cells idx (<[i:=x]> r) = <[k:=x]> (take_cells idx r).
Proof.
  intros Hk Huniq Hi. apply list_eq. intros n. unfold take_cells.
  destruct (decide (n = k)) as [->|Hne].
  - rewrite list_lookup_insert_eq by (rewrite length_map; by eapply lookup_lt_Some).
    rewrite list_lookup_fmap, Hk. simpl. unfold cell_at. by rewrite list_lookup_insert_eq.
  - rewrite list_lookup_insert_ne by done. rewrite !list_lookup_fmap.
    destruct (idx !! n) as [j|] eqn:Hn; simpl; [|done].
    rewrite cell_at_insert_ne; [done|]. intros <-. by apply Hne, Huniq.
Qed.

(** A label's index is the only index of the label. *)
Lemma column_indices_unique df cs idx k k' i :
  NoDup cs -> column_indices df cs = Ok idx ->
  idx !! k = Some i -> idx !! k' = Some i -> k' = k.
Proof.
  intros Hnd H Hk Hk'.
  destruct (column_indices_lookup _ _ _ _ _ H Hk) as (c & Hc & Hci).
  destruct (column_indices_lookup _ _ _ _ _ H Hk') as (c' & Hc' & Hci').
  rewrite Hci in Hci'. injection Hci' as <-. by eapply NoDup_lookup.
Qed.

(** Deleting position [i] moves every later position one down. *)
Lemma lookup_delete_shift {A} (l : list A) i j :
  j <> i -> delete i l !! (if decide (j < i) then j else j - 1) = l !! j.
Proof.
  intros Hj. rewrite list_lookup_delete.
  repeat case_decide; f_equal; lia.
Qed.

(** After dropping column [i], every other column reads as before. *)
Lemma drop_get_column df c i c' :
  frame_wf df -> col_index c (columns df) = Some i -> c' <> c ->
  get_column (mkFrame (delete i (columns df)) (map (delete i) (rows df))) c' =
  get_column df c'.
Proof.
  intros [Hnd Hrows] E Hc'. apply col_index_lookup in E as Hi.
  assert (NoDup (delete i (columns df))) as Hnd'
    by (eapply sublist_NoDup; [exact Hnd|apply sublist_delete]).
  unfold get_column. simpl.
  destruct (col_index c' (columns df)) as [j|] eqn:Ej.
  - apply col_index_lookup in Ej. assert (j <> i) as Hji by (intros ->; congruence).
    rewrite (col_index_NoDup c' _ (if decide (j < i) then j else j - 1) Hnd')
      by (by rewrite lookup_delete_shift). f_equal.
    rewrite map_map. apply map_ext. intros r. unfold cell_at. by rewrite lookup_delete_shift.
  - apply col_index_None in Ej. rewrite (proj2 (col_index_None _ _)); [done|].
    intros Hin. apply Ej. by eapply list_elem_of_delete_inv.
Qed.

