(* ===== verification/Imputer.v ===== *)
(** * Imputer: [SimpleImputer(strategy="median")] and
      [SimpleImputer(strategy="most_frequent")]

    The two imputers of [get_data_transformer_object]
    (src/src/components/data_transformation.py, lines 47 and 55).  [fit]
    computes one statistic per column from the non-missing entries and
    freezes it ([statistics_]); [transform] replaces each missing entry of a
    row with its column's statistic.  A column with no observed value has
    no statistic (sklearn's NaN statistic) and is dropped from the output
    ([keep_empty_features=False]). *)

From S2P Require Import Prelude Frame.

Module SimpleImputer.

(** ** Input validation ([check_array] in [_validate_input]) *)

Definition check_shape {A} (X : list (list A)) : result unit :=
  match X with
  | [] => Err (ValueError "Found array with 0 sample(s) while a minimum of 1 is required")
  | r :: _ =>
      if Nat.eqb (length r) 0
      then Err (ValueError "Found array with 0 feature(s) while a minimum of 1 is required")
      else Ok tt
  end.

(** [n_features_in_]: the width of the input. *)
Definition n_features {A} (X : list (list A)) : nat :=
  match X with [] => 0 | r :: _ => length r end.

(** The transform-time check on the number of features. *)
Definition check_width {A B} (stats : list A) (r : list B) : result unit :=
  if Nat.eqb (length r) (length stats) then Ok tt
  else Err (ValueError "X has a different number of features than during fitting").

(** An entry of a numeric column: [None] when missing; strings and
    infinities are rejected ([force_all_finite="allow-nan"]). *)
Definition num_of_cell (c : cell) : result (option float) :=
  match c with
  | CNaN => Ok None
  | CNum x =>
      if PrimFloat.is_nan x then Ok None
      else if PrimFloat.is_infinity x then Err (ValueError "Input X contains infinity")
      else Ok (Some x)
  | CStr _ => Err (ValueError "Cannot use median strategy with non-numeric data")
  | CNone => Err (TypeError "float() argument must be a string or a real number, not 'NoneType'")
  end.

(** An entry of a categorical column: [None] when missing.  The model
    accepts string categories only (see the header of Prelude). *)
Definition cat_of_cell (c : cell) : result (option string) :=
  match c with
  | CNaN => Ok None
  | CNum x =>
      if PrimFloat.is_nan x then Ok None
      else Err (TypeError "'<' not supported between instances of 'float' and 'str'")
  | CStr s => Ok (Some s)
  | CNone => Err (TypeError "'<' not supported between instances of 'NoneType' and 'str'")
  end.

(** The observed (non-missing) values of column [j]. *)
Definition observed {A} (j : nat) (M : list (list (option A))) : list A :=
  omap (fun r => mjoin (r !! j)) M.

(** ** Statistics *)

Definition fle (x y : float) : Prop := PrimFloat.leb x y = true.
#[export] Instance fle_dec x y : Decision (fle x y) :=
  bool_eq_dec (PrimFloat.leb x y) true.

(** [np.ma.median] of the observed values. *)
Definition median (xs : list float) : option float :=
  let s := merge_sort fle xs in
  let n := length s in
  if Nat.eqb n 0 then None
  else if Nat.odd n then s !! (n / 2)
  else match s !! (n / 2 - 1), s !! (n / 2) with
       | Some lo, Some hi => Some ((lo + hi) / 2)%float
       | _, _ => None
       end.

Definition count_of (vs : list string) (v : string) : nat :=
  length (filter (fun w => w = v) vs).

Fixpoint min_string (vs : list string) : option string :=
  match vs with
  | [] => None
  | v :: vs' =>
      match min_string vs' with
      | Some m => Some (if String.leb v m then v else m)
      | None => Some v
      end
  end.

(** [_most_frequent] on an object column: the value of highest count in a
    [Counter], the smallest such value on a tie. *)
Definition most_frequent (vs : list string) : option string :=
  let uniq := remove_dups vs in
  let top := max_list (map (count_of vs) uniq) in
  min_string (filter (fun v => count_of vs v = top) uniq).

(** ** Replacing missing entries *)

(** [valid_statistics_indexes] with their statistics: the columns kept. *)
Definition valid_statistics {A} (stats : list (option A)) : list (nat * A) :=
  omap (fun '(j, s) => pair j <$> s) (zip (seq 0 (length stats)) stats).

(** [X[mask] = statistics; X = X[:, valid_statistics_indexes]] on one row. *)
Definition impute_row {A} (stats : list (option A)) (vs : list (option A)) : list A :=
  map (fun '(j, m) => default m (mjoin (vs !! j))) (valid_statistics stats).

(** ** The median imputer *)

Definition fit_median (X : list (list cell)) : result (list (option float)) :=
  let* _ := check_shape X in
  let* M := mapM (mapM num_of_cell) X in
  Ok (map (fun j => median (observed j M)) (seq 0 (n_features X))).

Definition transform_median_row (stats : list (option float)) (r : list cell)
  : result (list float) :=
  let* _ := check_width stats r in
  let* vs := mapM num_of_cell r in
  Ok (impute_row stats vs).

(** ** The most-frequent imputer

    Its output stays a cell: an entry that is not missing is passed on as
    it is, for the encoder to accept or reject. *)

Definition fit_most_frequent (X : list (list cell)) : result (list (option string)) :=
  let* _ := check_shape X in
  let* M := mapM (mapM cat_of_cell) X in
  Ok (map (fun j => most_frequent (observed j M)) (seq 0 (n_features X))).

Definition transform_most_frequent_row (stats : list (option string)) (r : list cell)
  : result (list cell) :=
  let* _ := check_width stats r in
  Ok (impute_row (map (fmap CStr) stats)
                 (map (fun c => if is_missing c then None else Some c) r)).

(** ** Lemmas *)

Lemma min_string_spec vs m :
  min_string vs = Some m -> m ∈ vs /\ Forall (fun v => String.leb m v = true) vs.
Proof.
  revert m. induction vs as [|v vs IH]; intros m; simpl; [done|].
  destruct (min_string vs) as [m'|] eqn:E.
  - destruct (IH m' eq_refl) as [Hin Hall].
    destruct (String.leb v m') eqn:Hvm; intros [= <-].
    + split; [set_solver|]. constructor; [apply str_leb_refl|].
      eapply Forall_impl; [exact Hall|]. intros w Hw. by eapply str_leb_trans.
    + split; [set_solver|]. constructor; [by apply str_leb_total_false|done].
  - intros [= <-]. destruct vs as [|w vs]; [|simpl in E; by destruct (min_string vs)].
    split; [set_solver|]. constructor; [apply str_leb_refl|constructor].
Qed.

Lemma min_string_None vs : min_string vs = None <-> vs = [].
Proof.
  destruct vs as [|v vs]; simpl; [done|].
  split; [by destruct (min_string vs)|done].
Qed.

Lemma count_of_le_top vs v :
  v ∈ vs -> count_of vs v <= max_list (map (count_of vs) (remove_dups vs)).
Proof.
  intros Hv. apply max_list_elem_of_le, list_elem_of_In, in_map, list_elem_of_In.
  by apply elem_of_remove_dups.
Qed.

(** [most_frequent] picks an observed value of highest count, the smallest
    such value on a tie. *)
Lemma most_frequent_spec vs m :
  most_frequent vs = Some m ->
  m ∈ vs /\
  (forall v, v ∈ vs -> count_of vs v <= count_of vs m) /\
  (forall v, v ∈ vs -> count_of vs v = count_of vs m -> String.leb m v = true).
Proof.
  unfold most_frequent. intros (Hin & Hmin)%min_string_spec.
  apply list_elem_of_filter in Hin as [Htop Hin].
  pose proof (proj1 (elem_of_remove_dups vs m) Hin) as Hm.
  split; [done|split].
  - intros v Hv. rewrite Htop. by apply count_of_le_top.
  - intros v Hv Heq. rewrite Forall_forall in Hmin. apply Hmin.
    apply list_elem_of_filter. split; [congruence|by apply elem_of_remove_dups].
Qed.

Lemma most_frequent_None vs : most_frequent vs = None <-> vs = [].
Proof.
  split; [|by intros ->]. unfold most_frequent. intros H%min_string_None.
  destruct vs as [|v vs]; [done|exfalso].
  set (top := max_list (map (count_of (v :: vs)) (remove_dups (v :: vs)))).
  assert (top ∈ map (count_of (v :: vs)) (remove_dups (v :: vs))) as Htop.
  { apply max_list_elem_of. intros Hnil%map_eq_nil.
    assert (v ∈ remove_dups (v :: vs)) as Hv by (apply elem_of_remove_dups; set_solver).
    rewrite Hnil in Hv. set_solver. }
  apply list_elem_of_In, in_map_iff in Htop as (w & Hw & Hwin).
  assert (w ∈ filter (fun u => count_of (v :: vs) u = top) (remove_dups (v :: vs))) as Hf.
  { apply list_elem_of_filter. split; [done|by apply list_elem_of_In]. }
  fold top in H. rewrite H in Hf. set_solver.
Qed.

Lemma valid_statistics_elem {A} (stats : list (option A)) j m :
  (j, m) ∈ valid_statistics stats <-> stats !! j = Some (Some m).
Proof.
  unfold valid_statistics. rewrite list_elem_of_omap. split.
  - intros ([j' s] & Hin & Hs). apply list_elem_of_lookup in Hin as [i Hi].
    rewrite lookup_zip_with in Hi. apply bind_Some in Hi as (j0 & Hj0 & Hi).
    apply bind_Some in Hi as (s0 & Hs0 & [= -> ->]).
    apply lookup_seq in Hj0 as [-> _]. destruct s as [m'|]; [|done].
    simpl in Hs. injection Hs as -> ->. done.
  - intros Hj. exists (j, Some m). split; [|done].
    apply list_elem_of_lookup. exists j. rewrite lookup_zip_with.
    pose proof (lookup_lt_Some _ _ _ Hj) as Hlt.
    rewrite lookup_seq_lt by done. simpl. by rewrite Hj.
Qed.

Lemma impute_row_length {A} (stats : list (option A)) vs :
  length (impute_row stats vs) = length (valid_statistics stats).
Proof. apply length_map. Qed.

Lemma impute_row_lookup {A} (stats : list (option A)) vs k j m :
  valid_statistics stats !! k = Some (j, m) ->
  impute_row stats vs !! k = Some (default m (mjoin (vs !! j))).
Proof. intros H. unfold impute_row. by rewrite list_lookup_fmap, H. Qed.

Lemma impute_row_insert {A} (stats : list (option A)) vs j m :
  stats !! j = Some (Some m) ->
  impute_row stats (<[j:=None]> vs) = impute_row stats (<[j:=Some m]> vs).
Proof.
  intros Hj. unfold impute_row. apply map_ext_in. intros [j' m'] Hin%list_elem_of_In.
  apply valid_statistics_elem in Hin.
  destruct (decide (j = j')) as [<-|Hne].
  - rewrite Hj in Hin. injection Hin as <-.
    destruct (decide (j < length vs)).
    + by rewrite !list_lookup_insert_eq.
    + by rewrite !list_insert_ge by lia.
  - by rewrite !list_lookup_insert_ne.
Qed.

Lemma num_of_cell_missing c : is_missing c = true -> num_of_cell c = Ok None.
Proof. destruct c as [x| | |]; simpl; [intros ->|done|done|done]. done. Qed.

#[export] Hint Resolve num_of_cell_missing : pyml.

(** Filling a gap with the fitted median is the same as finding the median
    there: the imputer treats the two rows alike. *)
Lemma transform_median_row_missing stats r j m :
  stats !! j = Some (Some m) -> num_of_cell (CNum m) = Ok (Some m) ->
  transform_median_row stats (<[j:=CNaN]> r) = transform_median_row stats (<[j:=CNum m]> r).
Proof.
  intros Hj Hm. unfold transform_median_row, check_width. rewrite !length_insert.
  destruct (Nat.eqb _ _); [simpl|done].
  rewrite (mapM_insert _ r j CNaN (CNum m) None (Some m)) by done.
  destruct (mapM num_of_cell (<[j:=CNum m]> r)) as [vs|] eqn:Hvs; simpl; [|done].
  f_equal.
  rewrite (impute_row_insert _ _ _ _ Hj).
  destruct (decide (j < length r)) as [Hlt|Hge].
  - destruct (mapM_Ok_lookup _ _ _ j (CNum m) Hvs) as (y & Hy & Hfy);
      [by apply list_lookup_insert_eq|].
    rewrite Hm in Hfy. injection Hfy as <-. by rewrite list_insert_id.
  - apply mapM_Ok_length in Hvs. rewrite length_insert in Hvs.
    rewrite list_insert_ge; [done|lia].
Qed.

(** A row-by-row map whose images all have width [w] produces a batch of
    width [w]. *)
Lemma n_features_mapM {A B} (f : list A -> result (list B)) X Y w :
  mapM f X = Ok Y -> (forall r y, f r = Ok y -> length y = w) -> X <> [] ->
  n_features Y = w.
Proof.
  intros H Hf HX. destruct X as [|r X]; [done|]. simpl in H. inv_ok. by eapply Hf.
Qed.

Lemma check_shape_Ok {A} (X : list (list A)) u : check_shape X = Ok u -> X <> [].
Proof. by destruct X. Qed.

Lemma fit_median_shape X stats :
  fit_median X = Ok stats -> X <> [] /\ length stats = n_features X.
Proof.
  unfold fit_median. intros H. inv_ok. split; [by eapply check_shape_Ok|].
  by rewrite length_map, length_seq.
Qed.

Lemma fit_most_frequent_shape X stats :
  fit_most_frequent X = Ok stats -> X <> [] /\ length stats = n_features X.
Proof.
  unfold fit_most_frequent. intros H. inv_ok. split; [by eapply check_shape_Ok|].
  by rewrite length_map, length_seq.
Qed.

Lemma valid_statistics_fmap {A B} (f : A -> B) (stats : list (option A)) :
  valid_statistics (map (fmap f) stats) =
  map (fun '(j, m) => (j, f m)) (valid_statistics stats).
Proof.
  unfold valid_statistics. rewrite length_map.
  generalize 0. induction stats as [|[m|] stats IH]; intros k; simpl; [done| |].
  - f_equal. apply IH.
  - apply IH.
Qed.

Lemma transform_median_row_shape stats r v :
  transform_median_row stats r = Ok v ->
  length r = length stats /\ length v = length (valid_statistics stats).
Proof.
  unfold transform_median_row, check_width. intros H. inv_ok.
  destruct (Nat.eqb_spec (length r) (length stats)); [|done].
  split; [done|]. by rewrite impute_row_length, ?valid_statistics_fmap, ?length_map.
Qed.

Lemma transform_most_frequent_row_shape stats r v :
  transform_most_frequent_row stats r = Ok v ->
  length r = length stats /\ length v = length (valid_statistics stats).
Proof.
  unfold transform_most_frequent_row, check_width. intros H. inv_ok.
  destruct (Nat.eqb_spec (length r) (length stats)); [|done].
  split; [done|]. by rewrite impute_row_length, valid_statistics_fmap, length_map.
Qed.

Lemma cat_of_cell_Some c m : cat_of_cell c = Ok (Some m) -> c = CStr m.
Proof.
  destruct c as [x|s| |]; simpl; [|by intros [= ->]|done|done].
  by destruct (PrimFloat.is_nan x).
Qed.

(** The fitted mode of a kept column is one of the column's training
    values. *)
Lemma fit_most_frequent_mode X stats j m :
  fit_most_frequent X = Ok stats -> stats !! j = Some (Some m) ->
  exists r, r ∈ X /\ r !! j = Some (CStr m).
Proof.
  unfold fit_most_frequent. intros H Hj. inv_ok.
  rewrite list_lookup_fmap in Hj.
  destruct (seq 0 (n_features X) !! j) eqn:Hs; [|done]. simpl in Hj.
  apply lookup_seq in Hs as [-> _]. injection Hj as Hj.
  apply most_frequent_spec in Hj as [Hin _].
  apply list_elem_of_omap in Hin as (rM & HrM & Hrj).
  apply list_elem_of_lookup in HrM as [i Hi].
  apply mapM_Ok_Forall2 in Ha0.
  destruct (Forall2_lookup_r _ _ _ _ _ Ha0 Hi) as (r & Hr & HrrM).
  apply mapM_Ok_Forall2 in HrrM.
  destruct (rM !! j) as [[m'|]|] eqn:Hm; simpl in Hrj; try done. injection Hrj as ->.
  destruct (Forall2_lookup_r _ _ _ _ _ HrrM Hm) as (c & Hc & Hcm).
  exists r. split; [by eapply list_elem_of_lookup_2|]. rewrite Hc.
  by rewrite (cat_of_cell_Some _ _ Hcm).
Qed.

(** C18. The fitted statistic of a categorical column is its mode: an observed
    value of highest count, the smallest one on a tie, and none exactly when
    the column has no observed value. *)
Theorem fit_most_frequent_stats X stats M j :
  fit_most_frequent X = Ok stats -> mapM (mapM cat_of_cell) X = Ok M -> j < n_features X ->
  (stats !! j = Some None <-> observed j M = []) /\
  forall m, stats !! j = Some (Some m) ->
    m ∈ observed j M /\
    (forall v, v ∈ observed j M -> count_of (observed j M) v <= count_of (observed j M) m) /\
    (forall v, v ∈ observed j M ->
       count_of (observed j M) v = count_of (observed j M) m -> String.leb m v = true).
Proof.
  unfold fit_most_frequent. intros H HM Hj. inv_ok. rewrite HM in Ha0. injection Ha0 as <-.
  rewrite list_lookup_fmap, lookup_seq_lt by done. simpl. split.
  - split; [intros [= ?%most_frequent_None]; done|intros ->; done].
  - intros m [= Hm]. by apply most_frequent_spec.
Qed.

End SimpleImputer.
