(* ===== verification/Encoder.v ===== *)
(** * Encoder: [OneHotEncoder()]

    The encoder of the categorical pipeline
    (src/src/components/data_transformation.py, line 56), with sklearn's
    defaults: [categories="auto"] (the sorted distinct training values of
    each column, [sorted(set(values))]), [handle_unknown="error"] (a value
    not seen at [fit] raises [ValueError] at [transform]), [drop=None], and a
    sparse output whose stored entries are the ones. *)

From S2P Require Import Prelude Frame Imputer.

Module OneHotEncoder.

(** An entry the encoder can fit on: a string category. *)
Definition str_of_cell (c : cell) : result string :=
  match c with
  | CStr s => Ok s
  | _ => Err (TypeError "'<' not supported between instances of 'float' and 'str'")
  end.

(** [categories_[j]]: the sorted distinct values of a column. *)
Definition categories_of (vs : list string) : list string :=
  merge_sort String.le (remove_dups vs).

Definition fit (X : list (list cell)) : result (list (list string)) :=
  let* _ := SimpleImputer.check_shape X in
  let* S := mapM (mapM str_of_cell) X in
  Ok (map (fun j => categories_of (omap (fun r => r !! j) S)) (seq 0 (SimpleImputer.n_features X))).

(** The one-hot block of a known category, in the order of [categories_]. *)
Definition onehot_block (cats : list string) (s : string) : list float :=
  map (fun c => if String.eqb c s then 1%float else 0%float) cats.

(** One column of a row: its block, or the unknown-category error. *)
Definition encode_cell (cats : list string) (c : cell) : result (list float) :=
  match c with
  | CStr s => if bool_decide (s ∈ cats) then Ok (onehot_block cats s)
              else Err (ValueError "Found unknown categories during transform")
  | _ => Err (ValueError "Found unknown categories during transform")
  end.

Definition transform_row (cats : list (list string)) (r : list cell) : result (list float) :=
  let* _ := SimpleImputer.check_width cats r in
  let* blocks := mapM (fun '(cs, c) => encode_cell cs c) (zip cats r) in
  Ok (concat blocks).

(** ** Lemmas *)

(** The vocabulary of a column is sorted, free of duplicates, and holds
    exactly the values seen at [fit]. *)
Lemma categories_of_spec vs :
  StronglySorted String.le (categories_of vs) /\ NoDup (categories_of vs) /\
  (forall s, s ∈ categories_of vs <-> s ∈ vs).
Proof.
  unfold categories_of. split_and!.
  - apply StronglySorted_merge_sort; apply _.
  - rewrite merge_sort_Permutation. apply NoDup_remove_dups.
  - intros s. rewrite merge_sort_Permutation. apply elem_of_remove_dups.
Qed.

Lemma onehot_block_length cats s : length (onehot_block cats s) = length cats.
Proof. apply length_map. Qed.

(** The block of a category has a one at the category's position and zeros
    elsewhere. *)
Lemma onehot_block_lookup cats s i c :
  cats !! i = Some c ->
  onehot_block cats s !! i = Some (if String.eqb c s then 1%float else 0%float).
Proof. intros H. unfold onehot_block. by rewrite list_lookup_fmap, H. Qed.

Lemma encode_cell_known cats s :
  s ∈ cats -> encode_cell cats (CStr s) = Ok (onehot_block cats s).
Proof. intros H. simpl. by rewrite bool_decide_eq_true_2. Qed.

Lemma encode_cell_unknown cats c :
  (forall s, c = CStr s -> s ∉ cats) ->
  encode_cell cats c = Err (ValueError "Found unknown categories during transform").
Proof.
  intros H. destruct c as [|s| |]; simpl; try done.
  rewrite bool_decide_eq_false_2; [done|]. by apply H.
Qed.

Lemma encode_cell_length cats c b :
  encode_cell cats c = Ok b -> length b = length cats.
Proof.
  destruct c; simpl; try case_bool_decide; intros Hb; simplify_eq;
    by rewrite ?length_map, ?onehot_block_length.
Qed.

Lemma transform_row_length cats r v :
  transform_row cats r = Ok v -> length v = sum_list (map length cats).
Proof.
  unfold transform_row, SimpleImputer.check_width.
  destruct (Nat.eqb_spec (length r) (length cats)) as [Hl|]; [simpl|done].
  destruct (mapM _ _) as [blocks|] eqn:H; simpl; [intros [= <-]|done].
  apply mapM_Ok_Forall2 in H. rewrite length_concat. f_equal.
  revert r Hl blocks H. induction cats as [|cs cats IH]; intros [|c r] Hl blocks H;
    simpl in *; inversion H as [|? b ? bs Hb Hbs]; subst; try done.
  simpl. f_equal; [by apply encode_cell_length in Hb|]. apply (IH r); [lia|done].
Qed.

Lemma fit_shape X cats : fit X = Ok cats -> length cats = SimpleImputer.n_features X.
Proof. unfold fit. intros H. inv_ok. by rewrite length_map, length_seq. Qed.

Lemma str_of_cell_Ok c s : str_of_cell c = Ok s -> c = CStr s.
Proof. destruct c; simpl; by try intros [= ->]. Qed.

(** The vocabulary of column [k] is [categories_of] the strings of that
    column. *)
Lemma fit_column X cats k cs :
  fit X = Ok cats -> cats !! k = Some cs ->
  exists Ss, Forall2 (fun r rs => mapM str_of_cell r = Ok rs) X Ss /\
    cs = categories_of (omap (fun r => r !! k) Ss).
Proof.
  unfold fit. intros H Hk. inv_ok.
  rewrite list_lookup_fmap in Hk.
  destruct (seq 0 _ !! k) eqn:Hs; [|done]. simpl in Hk.
  apply lookup_seq in Hs as [-> _]. injection Hk as <-.
  exists a0. split; [by apply mapM_Ok_Forall2|done].
Qed.

(** The strings of a column are the entries [CStr s] of its rows. *)
Lemma column_strings X Ss k s :
  Forall2 (fun r rs => mapM str_of_cell r = Ok rs) X Ss ->
  s ∈ omap (fun r => r !! k) Ss <-> exists r, r ∈ X /\ r !! k = Some (CStr s).
Proof.
  intros HXS. rewrite list_elem_of_omap. split.
  - intros (rs & Hrs & Hk). apply list_elem_of_lookup in Hrs as [i Hi].
    destruct (Forall2_lookup_r _ _ _ _ _ HXS Hi) as (r & Hr & Hrrs).
    apply mapM_Ok_Forall2 in Hrrs.
    destruct (Forall2_lookup_r _ _ _ _ _ Hrrs Hk) as (c & Hc & Hcs).
    exists r. split; [by eapply list_elem_of_lookup_2|]. by rewrite Hc, (str_of_cell_Ok _ _ Hcs).
  - intros (r & Hr & Hrk). apply list_elem_of_lookup in Hr as [i Hi].
    destruct (Forall2_lookup_l _ _ _ _ _ HXS Hi) as (rs & Hrs & Hrrs).
    apply mapM_Ok_Forall2 in Hrrs.
    destruct (Forall2_lookup_l _ _ _ _ _ Hrrs Hrk) as (s' & Hs' & Hss').
    simpl in Hss'. injection Hss' as ->.
    exists rs. split; [by eapply list_elem_of_lookup_2|done].
Qed.

(** Every training value of a column is in its vocabulary. *)
Lemma fit_categories X cats k cs r s :
  fit X = Ok cats -> cats !! k = Some cs -> r ∈ X -> r !! k = Some (CStr s) -> s ∈ cs.
Proof.
  intros H Hk Hr Hrk. destruct (fit_column _ _ _ _ H Hk) as (Ss & HXS & ->).
  apply categories_of_spec, (column_strings _ _ _ _ HXS). eauto.
Qed.

(** A row whose every entry is a known category of its column is
    encoded. *)
Lemma transform_row_known cats r :
  Forall2 (fun cs c => exists s, c = CStr s /\ s ∈ cs) cats r ->
  exists v, transform_row cats r = Ok v.
Proof.
  intros H. unfold transform_row, SimpleImputer.check_width.
  rewrite (Forall2_length _ _ _ H), Nat.eqb_refl. simpl.
  cut (exists bs, mapM (fun '(cs, c) => encode_cell cs c) (zip cats r) = Ok bs).
  { intros [bs ->]. simpl. eauto. }
  induction H as [|cs c cats r (s & -> & Hs) _ [bs IH]]; cbn -[encode_cell]; [eauto|].
  rewrite encode_cell_known by done. cbn -[encode_cell]. rewrite IH. simpl. eauto.
Qed.

(** A row with an unknown category is rejected. *)
Lemma transform_row_unknown cats r k cs c v :
  cats !! k = Some cs -> r !! k = Some c -> (forall s, c = CStr s -> s ∉ cs) ->
  transform_row cats r <> Ok v.
Proof.
  intros Hk Hr Hc H. unfold transform_row in H. inv_ok.
  apply mapM_Ok_Forall2 in Ha0.
  assert (zip cats r !! k = Some (cs, c)) as Hz by (rewrite lookup_zip_with, Hk; simpl; by rewrite Hr).
  destruct (Forall2_lookup_l _ _ _ _ _ Ha0 Hz) as (b & _ & Hb).
  by rewrite encode_cell_unknown in Hb.
Qed.

(** Column by column, known categories are encoded as their blocks. *)
Lemma encode_zip_onehot cats ss :
  Forall2 (fun cs s => s ∈ cs) cats ss ->
  mapM (fun '(cs, c) => encode_cell cs c) (zip cats (map CStr ss)) =
  Ok (zip_with onehot_block cats ss).
Proof.
  induction 1 as [|cs s cats ss Hs _ IH]; cbn -[encode_cell]; [done|].
  rewrite encode_cell_known by done. cbn -[encode_cell]. by rewrite IH.
Qed.

(** The entry of a concatenation at offset [i] of block [j]. *)
Lemma concat_lookup_block {A} (bs : list (list A)) j b i x :
  bs !! j = Some b -> b !! i = Some x ->
  concat bs !! (sum_list (map length (take j bs)) + i) = Some x.
Proof.
  revert j. induction bs as [|b' bs IH]; intros [|j] Hj Hi; simpl in *; try done.
  - injection Hj as ->. rewrite lookup_app_l; [done|by eapply lookup_lt_Some].
  - rewrite lookup_app_r by lia.
    replace (length b' + sum_list (map length (take j bs)) + i - length b')
      with (sum_list (map length (take j bs)) + i) by lia.
    by apply IH.
Qed.

Lemma onehot_blocks_lengths cats ss :
  length cats = length ss ->
  map length (zip_with onehot_block cats ss) = map length cats.
Proof.
  revert ss. induction cats as [|cs cats IH]; intros [|s ss] Hl; simpl in *; try done.
  rewrite onehot_block_length. f_equal. apply IH. lia.
Qed.

(** C17. A row of known categories is encoded column after column: the
    block of column [j] starts after the vocabularies of the columns before
    it, and holds a 1 at the position of the row's category in the column's
    vocabulary and a 0 at every other position. *)
Theorem transform_row_onehot cats ss :
  Forall2 (fun cs s => s ∈ cs) cats ss ->
  exists v, transform_row cats (map CStr ss) = Ok v /\
    length v = sum_list (map length cats) /\
    forall j cs s i c, cats !! j = Some cs -> ss !! j = Some s -> cs !! i = Some c ->
      v !! (sum_list (map length (take j cats)) + i) =
      Some (if String.eqb c s then 1%float else 0%float).
Proof.
  intros H. pose proof (Forall2_length _ _ _ H) as Hl.
  exists (concat (zip_with onehot_block cats ss)). split_and!.
  - unfold transform_row, SimpleImputer.check_width.
    rewrite length_map, Hl, Nat.eqb_refl. cbn [rbind]. by rewrite encode_zip_onehot.
  - by rewrite length_concat, onehot_blocks_lengths.
  - intros j cs s i c Hcs Hs Hc.
    assert (zip_with onehot_block cats ss !! j = Some (onehot_block cs s)) as Hb
      by (rewrite lookup_zip_with, Hcs; simpl; by rewrite Hs).
    rewrite <- firstn_map, <- (onehot_blocks_lengths cats ss Hl), firstn_map.
    apply (concat_lookup_block _ _ _ _ _ Hb). by apply onehot_block_lookup.
Qed.

(** C16. [categories="auto"]: the vocabulary [fit] learns for a column is
    sorted, free of duplicates, and holds exactly the strings that column
    has in the training rows. *)
Theorem fit_vocabulary X cats k cs :
  fit X = Ok cats -> cats !! k = Some cs ->
  StronglySorted String.le cs /\ NoDup cs /\
  (forall s, s ∈ cs <-> exists r, r ∈ X /\ r !! k = Some (CStr s)).
Proof.
  intros H Hk. destruct (fit_column _ _ _ _ H Hk) as (Ss & HXS & ->).
  destruct (categories_of_spec (omap (fun r => r !! k) Ss)) as (Hs & Hn & Hin).
  split_and!; [done|done|]. intros s. by rewrite Hin, (column_strings _ _ _ _ HXS).
Qed.

End OneHotEncoder.
