(* ===== verification/Scaler.v ===== *)
(** * Scaler: [StandardScaler()] and [StandardScaler(with_mean=False)]

    The scalers of the two pipelines
    (src/src/components/data_transformation.py, lines 48 and 57), in IEEE
    binary64 arithmetic ([PrimFloat], the arithmetic of numpy's float64).
    [fit] computes per column the mean [mean_], the population variance
    [var_] and the scale [scale_] (the square root of the variance, or 1.0
    for a column sklearn deems constant); [transform] centres and divides
    (dense input) or multiplies the stored entries by [1 / scale_] (sparse
    input, no centring).  Sums are left folds; numpy's pairwise summation
    groups the terms differently on columns of more than eight entries. *)

From S2P Require Import Prelude Frame Imputer.

Local Open Scope float_scope.

Module StandardScaler.

Record state : Type := mkState {
  mean_ : list float;
  var_ : list float;
  scale_ : list float
}.

(** [np.finfo(np.float64).eps] *)
Definition eps : float := 0x1p-52.

Definition fsum (xs : list float) : float :=
  match xs with
  | [] => 0
  | x :: xs' => fold_left PrimFloat.add xs' x
  end.

Definition column (j : nat) (X : list (list float)) : list float :=
  omap (fun r => r !! j) X.

(** [_is_constant_feature(var, mean, n_samples)] *)
Definition is_constant_feature (var mean n : float) : bool :=
  PrimFloat.leb var (n * eps * var + (n * mean * eps) * (n * mean * eps)).

(** [_handle_zeros_in_scale(np.sqrt(var), constant_mask=...)] *)
Definition scale_of (var mean n : float) : float :=
  if is_constant_feature var mean n then 1 else PrimFloat.sqrt var.

(** [check_array(X, force_all_finite="allow-nan")] for float input. *)
Definition check_finite (X : list (list float)) : result unit :=
  if forallb (forallb (fun x => negb (PrimFloat.is_infinity x))) X then Ok tt
  else Err (ValueError "Input X contains infinity").

(** *** Dense input ([_incremental_mean_and_var] on a first batch) *)

Definition dense_mean_var (xs : list float) : float * float :=
  let n := float_of_nat (length xs) in
  let new_sum := fsum xs in
  let mean := (0 + new_sum) / n in
  let T := new_sum / n in
  let temp := map (fun x => x - T) xs in
  let correction := fsum temp in
  let unnorm := fsum (map (fun t => t * t) temp) - correction * correction / n in
  (mean, unnorm / n).

Definition fit_dense (X : list (list float)) : result state :=
  let* _ := SimpleImputer.check_shape X in
  let* _ := check_finite X in
  let n := float_of_nat (length X) in
  let mv := map (fun j => dense_mean_var (column j X)) (seq 0 (SimpleImputer.n_features X)) in
  Ok (mkState (map fst mv) (map snd mv)
              (map (fun '(m, v) => scale_of v m n) mv)).

(** [X -= mean_; X /= scale_] *)
Definition transform_dense_row (st : state) (r : list float) : result (list float) :=
  let* _ := SimpleImputer.check_width (scale_ st) r in
  Ok (zip_with (fun x '(m, s) => (x - m) / s) r (zip (mean_ st) (scale_ st))).

(** *** Sparse input ([mean_variance_axis] on a CSR matrix)

    The stored entries of the encoder's output are its non-zero entries. *)

Definition sparse_mean_var (xs : list float) : float * float :=
  let n := float_of_nat (length xs) in
  let nz := filter (fun x => negb (x =? 0)) xs in
  let n_nz := float_of_nat (length nz) in
  let mean := fold_left PrimFloat.add nz 0 / n in
  let diffs := map (fun x => x - mean) nz in
  let correction0 := fold_left PrimFloat.add diffs 0 in
  let variances0 := fold_left PrimFloat.add (map (fun d => d * d) diffs) 0 in
  let dense_zeros := negb (Nat.eqb (length nz) (length xs)) in
  let correction1 := if dense_zeros then correction0 - (n - n_nz) * mean else correction0 in
  let correction := correction1 * correction1 / n in
  let variances := if dense_zeros then variances0 + (n - n_nz) * (mean * mean) else variances0 in
  (mean, (variances - correction) / n).

Definition fit_sparse (X : list (list float)) : result state :=
  let* _ := SimpleImputer.check_shape X in
  let* _ := check_finite X in
  let n := float_of_nat (length X) in
  let mv := map (fun j => sparse_mean_var (column j X)) (seq 0 (SimpleImputer.n_features X)) in
  Ok (mkState (map fst mv) (map snd mv)
              (map (fun '(m, v) => scale_of v m n) mv)).

(** [inplace_column_scale(X, 1 / scale_)]: only stored entries change. *)
Definition transform_sparse_row (st : state) (r : list float) : result (list float) :=
  let* _ := SimpleImputer.check_width (scale_ st) r in
  Ok (zip_with (fun x s => if x =? 0 then x else x * (1 / s)) r (scale_ st)).

(** ** Lemmas *)

Lemma fit_dense_width X st :
  fit_dense X = Ok st ->
  length (scale_ st) = SimpleImputer.n_features X.
Proof.
  unfold fit_dense. intros H. inv_ok. simpl. by rewrite !length_map, length_seq.
Qed.

Lemma fit_sparse_width X st :
  fit_sparse X = Ok st ->
  length (scale_ st) = SimpleImputer.n_features X.
Proof.
  unfold fit_sparse. intros H. inv_ok. simpl. by rewrite !length_map, length_seq.
Qed.

Lemma fit_dense_mean_width X st :
  fit_dense X = Ok st -> length (mean_ st) = length (scale_ st).
Proof. unfold fit_dense. intros H. inv_ok. simpl. by rewrite !length_map. Qed.

Lemma transform_dense_row_length st r v :
  length (mean_ st) = length (scale_ st) ->
  transform_dense_row st r = Ok v -> length v = length r.
Proof.
  unfold transform_dense_row, SimpleImputer.check_width. intros Hms.
  destruct (Nat.eqb_spec (length r) (length (scale_ st))); [|done].
  intros [= <-]. rewrite length_zip_with, length_zip. lia.
Qed.

Lemma transform_sparse_row_length st r v :
  transform_sparse_row st r = Ok v -> length v = length r.
Proof.
  unfold transform_sparse_row, SimpleImputer.check_width.
  destruct (Nat.eqb_spec (length r) (length (scale_ st))); [|done].
  intros [= <-]. rewrite length_zip_with. lia.
Qed.

Lemma transform_dense_row_width st r v :
  length (mean_ st) = length (scale_ st) ->
  transform_dense_row st r = Ok v -> length v = length (scale_ st).
Proof.
  intros Hms Hv. rewrite (transform_dense_row_length _ _ _ Hms Hv).
  unfold transform_dense_row, SimpleImputer.check_width in Hv.
  by destruct (Nat.eqb_spec (length r) (length (scale_ st))).
Qed.

Lemma transform_sparse_row_width st r v :
  transform_sparse_row st r = Ok v -> length v = length (scale_ st).
Proof.
  intros Hv. rewrite (transform_sparse_row_length _ _ _ Hv).
  unfold transform_sparse_row, SimpleImputer.check_width in Hv.
  by destruct (Nat.eqb_spec (length r) (length (scale_ st))).
Qed.

End StandardScaler.
