(* ===== verification/Pipeline.v ===== *)
(** * Pipeline: the transformer interface and [sklearn.pipeline.Pipeline]

    A transformer is what sklearn's [TransformerMixin] promises: [fit] on a
    batch of rows freezes a state, [transform] maps a batch of rows with a
    frozen state, and [fit_transform] does both in one call.  Two laws state
    what a client may rely on: [fit_transform] computes what [fit] followed
    by [transform] on the same batch computes ([ft_law]), and [transform]
    treats the rows of a non-empty batch independently ([rowwise]).  Every
    estimator used here validates its input with [check_array], whose
    default [ensure_min_samples=1] rejects a batch with no rows: [transform]
    raises on it ([rejects_empty]).

    [pipe t1 t2] is a two-step [Pipeline] (src/src/components/
    data_transformation.py, lines 45-50 and 53-59 build the two used here):
    [Pipeline.fit] runs [fit_transform] of the first step and [fit] of the
    last, [Pipeline.transform] feeds the batch through the steps in order,
    and [Pipeline.fit_transform] runs [fit_transform] step after step.  A
    three-step pipeline is [pipe (pipe a b) c]. *)

From S2P Require Import Prelude.

Record transformer (X Y : Type) : Type := Transformer {
  tr_state : Type;
  tr_fit : list X -> result tr_state;
  tr_transform : tr_state -> list X -> result (list Y);
  tr_fit_transform : list X -> result (tr_state * list Y)
}.
Arguments Transformer {X Y} tr_state tr_fit tr_transform tr_fit_transform.
Arguments tr_state {X Y} t.
Arguments tr_fit {X Y} t xs.
Arguments tr_transform {X Y} t s xs.
Arguments tr_fit_transform {X Y} t xs.

(** [TransformerMixin.fit_transform]: [self.fit(X).transform(X)]. *)
Definition fit_then_transform {X Y} (t : transformer X Y) (xs : list X)
  : result (tr_state t * list Y) :=
  let* s := tr_fit t xs in
  let* ys := tr_transform t s xs in
  Ok (s, ys).

(** [check_array(X, ensure_min_samples=1)]: the validation every estimator's
    [transform] starts with. *)
Definition check_samples {X} (xs : list X) : result unit :=
  match xs with
  | [] => Err (ValueError "Found array with 0 sample(s) while a minimum of 1 is required")
  | _ :: _ => Ok tt
  end.

(** A step whose [transform] validates the batch and maps every row with the
    same function, and whose [fit_transform] is the mixin's default: each
    sklearn estimator used here. *)
Definition leaf {X Y S} (fit : list X -> result S) (row : S -> X -> result Y)
  : transformer X Y :=
  Transformer S fit (fun s xs => let* _ := check_samples xs in mapM (row s) xs)
    (fun xs => let* s := fit xs in
               let* ys := (let* _ := check_samples xs in mapM (row s) xs) in Ok (s, ys)).

Definition pipe {X Y Z} (t1 : transformer X Y) (t2 : transformer Y Z) : transformer X Z :=
  Transformer (tr_state t1 * tr_state t2)
    (fun xs =>
       let* '(s1, ys) := tr_fit_transform t1 xs in
       let* s2 := tr_fit t2 ys in
       Ok (s1, s2))
    (fun '(s1, s2) xs =>
       let* ys := tr_transform t1 s1 xs in
       tr_transform t2 s2 ys)
    (fun xs =>
       let* '(s1, ys) := tr_fit_transform t1 xs in
       let* '(s2, zs) := tr_fit_transform t2 ys in
       Ok ((s1, s2), zs)).

(** ** The laws of the interface *)

Definition ft_law {X Y} (t : transformer X Y) : Prop :=
  forall xs, tr_fit_transform t xs = fit_then_transform t xs.

Definition rowwise {X Y} (t : transformer X Y) : Prop :=
  forall s xs1 xs2 zs, xs1 <> [] -> xs2 <> [] ->
    tr_transform t s (xs1 ++ xs2) = Ok zs <->
    exists zs1 zs2, tr_transform t s xs1 = Ok zs1 /\ tr_transform t s xs2 = Ok zs2 /\
                    zs = zs1 ++ zs2.

(** A transformer that raises on a batch with no rows. *)
Definition rejects_empty {X Y} (t : transformer X Y) : Prop :=
  forall s, tr_transform t s [] =
            Err (ValueError "Found array with 0 sample(s) while a minimum of 1 is required").

(** A transformer whose output rows all have the width the state fixes. *)
Definition uniform_width {X Y} (t : transformer X Y) (len : Y -> nat)
  (w : tr_state t -> nat) : Prop :=
  forall s xs ys, tr_transform t s xs = Ok ys -> Forall (fun y => len y = w s) ys.

(** A transformer maps a batch to a batch of as many rows. *)
Definition length_preserving {X Y} (t : transformer X Y) : Prop :=
  forall s xs ys, tr_transform t s xs = Ok ys -> length ys = length xs.

Lemma leaf_ft_law {X Y S} (fit : list X -> result S) (row : S -> X -> result Y) :
  ft_law (leaf fit row).
Proof. intros xs. reflexivity. Qed.

Lemma check_samples_Ok {X} (xs : list X) : xs <> [] -> check_samples xs = Ok tt.
Proof. by destruct xs. Qed.

(** On a batch with rows, a leaf maps the rows. *)
Lemma leaf_transform {X Y S} (fit : list X -> result S) (row : S -> X -> result Y) s xs :
  xs <> [] -> tr_transform (leaf fit row) s xs = mapM (row s) xs.
Proof. by destruct xs. Qed.

Lemma leaf_rowwise {X Y S} (fit : list X -> result S) (row : S -> X -> result Y) :
  rowwise (leaf fit row).
Proof.
  intros s xs1 xs2 zs H1 H2. rewrite !leaf_transform by (done || by destruct xs1).
  apply mapM_app_Ok.
Qed.

Lemma leaf_rejects_empty {X Y S} (fit : list X -> result S) (row : S -> X -> result Y) :
  rejects_empty (leaf fit row).
Proof. done. Qed.

#[export] Hint Resolve leaf_ft_law leaf_rowwise leaf_rejects_empty : pyml.

Lemma leaf_fit_transform_Ok {X Y S} (fit : list X -> result S) (row : S -> X -> result Y)
    xs s ys :
  tr_fit_transform (leaf fit row) xs = Ok (s, ys) ->
  fit xs = Ok s /\ xs <> [] /\ mapM (row s) xs = Ok ys.
Proof. simpl. intros H. inv_ok. destruct xs; by inv_ok. Qed.

Lemma pipe_fit_transform_Ok {X Y Z} (t1 : transformer X Y) (t2 : transformer Y Z)
    xs s1 s2 zs :
  tr_fit_transform (pipe t1 t2) xs = Ok ((s1, s2), zs) ->
  exists ys, tr_fit_transform t1 xs = Ok (s1, ys) /\ tr_fit_transform t2 ys = Ok (s2, zs).
Proof.
  simpl. destruct (tr_fit_transform t1 xs) as [[s1' ys]|] eqn:E1; simpl; [|done].
  destruct (tr_fit_transform t2 ys) as [[s2' zs']|] eqn:E2; simpl; [|done].
  intros H. injection H as <- <- <-. eauto.
Qed.

Section PipeLaws.
Context {X Y Z : Type} (t1 : transformer X Y) (t2 : transformer Y Z).

Lemma fit_then_transform_Ok (t : transformer X Y) xs s ys :
    fit_then_transform t xs = Ok (s, ys) <->
    tr_fit t xs = Ok s /\ tr_transform t s xs = Ok ys.
  Proof.
    unfold fit_then_transform. split.
    - intros H. by inv_ok.
    - intros [Hf Ht]. rewrite Hf. simpl. by rewrite Ht.
  Qed.

  (** [Pipeline.fit_transform] computes what [Pipeline.fit] followed by
      [Pipeline.transform] computes, when each step keeps the mixin's
      contract. *)
Lemma pipe_ft_law : ft_law t1 -> ft_law t2 -> ft_law (pipe t1 t2).
  Proof.
    intros H1 H2 xs. unfold fit_then_transform. simpl. rewrite H1.
    unfold fit_then_transform.
    destruct (tr_fit t1 xs) as [s1|e]; simpl; [|done].
    destruct (tr_transform t1 s1 xs) as [ys|e] eqn:E1; simpl; [|done].
    rewrite H2. unfold fit_then_transform.
    destruct (tr_fit t2 ys) as [s2|e]; simpl; [|done].
    rewrite E1. simpl. by destruct (tr_transform t2 s2 ys).
  Qed.

(** A batch with rows is mapped to a batch with rows. *)
Lemma length_preserving_nonempty {X' Y'} (t : transformer X' Y') s xs ys :
  length_preserving t -> tr_transform t s xs = Ok ys -> xs <> [] -> ys <> [].
Proof. intros Hl H Hxs ->. apply Hl in H. by destruct xs. Qed.

Lemma pipe_rowwise :
  rowwise t1 -> rowwise t2 -> length_preserving t1 -> rowwise (pipe t1 t2).
Proof.
  intros H1 H2 Hl [s1 s2] xs1 xs2 zs Hx1 Hx2. simpl. split.
  - intros H. inv_ok. apply H1 in Ha as (ys1 & ys2 & Hy1 & Hy2 & ->); [|done|done].
    apply H2 in H as (zs1 & zs2 & Hz1 & Hz2 & ->);
      [|by eapply length_preserving_nonempty..].
    exists zs1, zs2. by rewrite Hy1, Hy2.
  - intros (zs1 & zs2 & Hz1 & Hz2 & ->).
    destruct (tr_transform t1 s1 xs1) as [ys1|] eqn:Hy1; [|done].
    destruct (tr_transform t1 s1 xs2) as [ys2|] eqn:Hy2; [|done]. simpl in Hz1, Hz2.
    assert (tr_transform t1 s1 (xs1 ++ xs2) = Ok (ys1 ++ ys2)) as -> by (apply H1; eauto).
    simpl. apply H2; [by eapply length_preserving_nonempty..|by exists zs1, zs2].
Qed.

Lemma pipe_rejects_empty : rejects_empty t1 -> rejects_empty (pipe t1 t2).
Proof. intros H [s1 s2]. simpl. by rewrite H. Qed.

Lemma pipe_uniform_width (len2 : Z -> nat) (w2 : tr_state t2 -> nat) :
    uniform_width t2 len2 w2 ->
    uniform_width (pipe t1 t2) len2 (fun s => w2 s.2).
  Proof.
    intros H [s1 s2] xs zs Hz. simpl in Hz. inv_ok. by eapply H.
  Qed.
End PipeLaws.

#[export] Hint Resolve pipe_ft_law pipe_rowwise pipe_rejects_empty : pyml.

Lemma leaf_length_preserving {X Y S} (fit : list X -> result S) (row : S -> X -> result Y) :
  length_preserving (leaf fit row).
Proof. intros s [|x xs] ys; [done|]. apply mapM_Ok_length. Qed.

Lemma pipe_length_preserving {X Y Z} (t1 : transformer X Y) (t2 : transformer Y Z) :
  length_preserving t1 -> length_preserving t2 -> length_preserving (pipe t1 t2).
Proof.
  intros H1 H2 [s1 s2] xs zs Hz. simpl in Hz. inv_ok.
  apply H2 in Hz. apply H1 in Ha. congruence.
Qed.

#[export] Hint Resolve leaf_length_preserving pipe_length_preserving : pyml.

(** A pipeline ending in a leaf maps the first step's output row by row. *)
Lemma pipe_leaf_transform {X Y Z S} (t1 : transformer X Y) (fit : list Y -> result S)
    (row : S -> Y -> result Z) s1 s2 xs :
  length_preserving t1 -> xs <> [] ->
  tr_transform (pipe t1 (leaf fit row)) (s1, s2) xs = rbind (tr_transform t1 s1 xs) (mapM (row s2)).
Proof.
  intros Hl Hxs. simpl. destruct (tr_transform t1 s1 xs) as [ys|] eqn:E; simpl; [|done].
  rewrite check_samples_Ok; [done|]. by eapply length_preserving_nonempty.
Qed.

