(* ===== verification/ColumnTransformer.v ===== *)
(** * ColumnTransformer: [sklearn.compose.ColumnTransformer] of two transformers

    The combinator of [get_data_transformer_object]
    (src/src/components/data_transformation.py, lines 66-71): two named
    transformers, each applied to the columns it names (selected by label,
    in the listed order), their outputs stacked side by side, the first
    transformer's columns first; the other columns are dropped
    ([remainder="drop"]).  [fit_transform] also decides once, from the
    density of the stacked training output, whether the output is a sparse
    matrix ([sparse_output_], [sparse_threshold=0.3]); [transform] checks
    that the labels seen at [fit] are present, then replays the frozen
    states.

    The combinator is stated against the [transformer] interface of
    Pipeline.v: its theorems assume only the interface's laws. *)

From S2P Require Import Prelude Frame Pipeline.

Module ColumnTransformer.

(** [sparse_threshold] *)
Definition sparse_threshold : float := 0x1.3333333333333p-2.

(** The number of stored entries of an output block: every entry of a dense
    block ([X.size]), the non-zero entries of a sparse one ([X.nnz]). *)
Definition nnz (sparse : bool) (X : list (list float)) : nat :=
  if sparse then sum_list (map (fun r => length (filter (fun x => negb (x =? 0)%float) r)) X)
  else sum_list (map length X).

Definition size (X : list (list float)) : nat := sum_list (map length X).

(** [np.hstack] / [sparse.hstack] of two blocks with the same rows. *)
Definition hstack (X1 X2 : list (list float)) : list (list float) :=
  zip_with app X1 X2.

Section Combinator.
Context (t1 t2 : transformer (list cell) (list float)).
Context (cols1 cols2 : list string).
  (** whether each transformer's output is a sparse matrix *)
Context (sparse1 sparse2 : bool).

Record state : Type := mkState {
    st1 : tr_state t1;
    st2 : tr_state t2;
    sparse_output_ : bool
  }.

  (** The density test of [fit_transform]. *)
Definition sparse_output_of (X1 X2 : list (list float)) : result bool :=
    if sparse1 || sparse2 then
      let total := size X1 + size X2 in
      if Nat.eqb total 0 then Err (ValueError "division by zero")
      else Ok (float_of_nat (nnz sparse1 X1 + nnz sparse2 X2) / float_of_nat total
               <? sparse_threshold)%float
    else Ok false.

Definition fit_transform (df : frame) : result (state * list (list float)) :=
    let* idx1 := column_indices df cols1 in
    let* idx2 := column_indices df cols2 in
    let* '(s1, X1) := tr_fit_transform t1 (select_rows idx1 df) in
    let* '(s2, X2) := tr_fit_transform t2 (select_rows idx2 df) in
    let* sp := sparse_output_of X1 X2 in
    Ok (mkState s1 s2 sp, hstack X1 X2).

  (** [ColumnTransformer.fit]: [self.fit_transform(X); return self]. *)
Definition fit (df : frame) : result state :=
    let* '(st, _) := fit_transform df in Ok st.

  (** The labels used at [fit] must all be present at [transform]. *)
Definition check_columns (df : frame) : result unit :=
    if forallb (fun c => bool_decide (c ∈ columns df)) (cols1 ++ cols2) then Ok tt
    else Err (ValueError "columns are missing").

Definition transform (st : state) (df : frame) : result (list (list float)) :=
    let* _ := check_columns df in
    let* idx1 := column_indices df cols1 in
    let* idx2 := column_indices df cols2 in
    let* X1 := tr_transform t1 (st1 st) (select_rows idx1 df) in
    let* X2 := tr_transform t2 (st2 st) (select_rows idx2 df) in
    Ok (hstack X1 X2).

  (** ** Theorems against the interface *)

Hypothesis ft1 : ft_law t1.
Hypothesis ft2 : ft_law t2.

Lemma column_indices_check df idx1 idx2 :
    column_indices df cols1 = Ok idx1 -> column_indices df cols2 = Ok idx2 ->
    check_columns df = Ok tt.
  Proof.
    intros H1 H2. unfold check_columns.
    rewrite (proj2 (forallb_forall _ _)); [done|].
    intros c Hc%list_elem_of_In. apply bool_decide_eq_true_2.
    apply elem_of_app in Hc as [Hc|Hc];
      [apply mapM_Ok_Forall2 in H1 | apply mapM_Ok_Forall2 in H2];
      apply list_elem_of_lookup in Hc as [k Hk];
      [destruct (Forall2_lookup_l _ _ _ _ _ H1 Hk) as (i & _ & Hi)
      |destruct (Forall2_lookup_l _ _ _ _ _ H2 Hk) as (i & _ & Hi)];
      destruct (col_index c (columns df)) eqn:E; try done;
      apply col_index_lookup in E; by eapply list_elem_of_lookup_2.
  Qed.

  (** [fit_transform] computes the state [fit] freezes and the output
      [transform] produces with that state on the same frame: the training
      output is the replay of the persisted transformer. *)
Theorem fit_transform_replay df :
    fit_transform df =
    (let* st := fit df in let* X := transform st df in Ok (st, X)).
  Proof.
    unfold fit, fit_transform, transform.
    destruct (column_indices df cols1) as [idx1|e] eqn:H1; [simpl|done].
    destruct (column_indices df cols2) as [idx2|e] eqn:H2; [simpl|done].
    rewrite ft1, ft2. unfold fit_then_transform.
    destruct (tr_fit t1 _) as [s1|e]; [simpl|done].
    destruct (tr_transform t1 s1 _) as [X1|e] eqn:E1; [simpl|done].
    destruct (tr_fit t2 _) as [s2|e]; [simpl|done].
    destruct (tr_transform t2 s2 _) as [X2|e] eqn:E2; [simpl|done].
    destruct (sparse_output_of X1 X2) as [sp|e]; [simpl|done].
    rewrite (column_indices_check df idx1 idx2 H1 H2). simpl.
    by rewrite E1, E2.
  Qed.

Hypothesis rw1 : rowwise t1.
Hypothesis rw2 : rowwise t2.
Hypothesis lp1 : length_preserving t1.
Hypothesis lp2 : length_preserving t2.

Lemma hstack_app A1 A2 B1 B2 :
    length A1 = length B1 -> hstack (A1 ++ A2) (B1 ++ B2) = hstack A1 B1 ++ hstack A2 B2.
  Proof. apply zip_with_app. Qed.

Lemma hstack_length A B : length (hstack A B) = min (length A) (length B).
  Proof. apply length_zip_with. Qed.

Lemma hstack_width A B a b :
    Forall (fun x => length x = a) A -> Forall (fun y => length y = b) B ->
    Forall (fun z => length z = a + b) (hstack A B).
  Proof.
    intros HA. revert B. induction HA as [|x A Hx _ IH]; intros [|y B] HB; simpl; try constructor.
    - inversion HB; subst. rewrite length_app. lia.
    - apply IH. by inversion HB.
  Qed.

  (** The two blocks of a batch split along its rows. *)
Lemma blocks_app s1 s2 A1 A2 B1 B2 X :
    length A1 = length B1 -> length A2 = length B2 -> A1 <> [] -> A2 <> [] ->
    (let* X1 := tr_transform t1 s1 (A1 ++ A2) in
     let* X2 := tr_transform t2 s2 (B1 ++ B2) in Ok (hstack X1 X2)) = Ok X <->
    exists Y1 Y2,
      (let* X1 := tr_transform t1 s1 A1 in
       let* X2 := tr_transform t2 s2 B1 in Ok (hstack X1 X2)) = Ok Y1 /\
      (let* X1 := tr_transform t1 s1 A2 in
       let* X2 := tr_transform t2 s2 B2 in Ok (hstack X1 X2)) = Ok Y2 /\
      X = Y1 ++ Y2.
  Proof.
    intros Hl Hl2 HA1 HA2.
    assert (B1 <> []) as HB1 by (intros ->; destruct A1; done).
    assert (B2 <> []) as HB2 by (intros ->; destruct A2; done).
    split.
    - intros H. inv_ok.
      apply rw1 in Ha as (P1 & P2 & HP1 & HP2 & ->); [|done|done].
      apply rw2 in Ha0 as (Q1 & Q2 & HQ1 & HQ2 & ->); [|done|done].
      exists (hstack P1 Q1), (hstack P2 Q2).
      rewrite HP1, HP2, HQ1, HQ2. split_and!; [done|done|].
      apply hstack_app. apply lp1 in HP1. apply lp2 in HQ1. congruence.
    - intros (Y1 & Y2 & H1 & H2 & ->).
      destruct (tr_transform t1 s1 A1) as [P1|] eqn:HP1; [simpl in H1|done].
      destruct (tr_transform t2 s2 B1) as [Q1|] eqn:HQ1; [simpl in H1|done].
      destruct (tr_transform t1 s1 A2) as [P2|] eqn:HP2; [simpl in H2|done].
      destruct (tr_transform t2 s2 B2) as [Q2|] eqn:HQ2; [simpl in H2|done].
      injection H1 as <-. injection H2 as <-.
      assert (tr_transform t1 s1 (A1 ++ A2) = Ok (P1 ++ P2)) as -> by (apply rw1; eauto).
      assert (tr_transform t2 s2 (B1 ++ B2) = Ok (Q1 ++ Q2)) as -> by (apply rw2; eauto).
      simpl. f_equal. apply hstack_app. apply lp1 in HP1. apply lp2 in HQ1.
      congruence.
  Qed.

  (** [transform] treats the rows of a frame independently: transforming a
      frame is transforming its two halves, each with rows, and stacking the
      results. *)
Theorem transform_app st cols rs1 rs2 X :
    rs1 <> [] -> rs2 <> [] ->
    transform st (mkFrame cols (rs1 ++ rs2)) = Ok X <->
    exists X1 X2, transform st (mkFrame cols rs1) = Ok X1 /\
                  transform st (mkFrame cols rs2) = Ok X2 /\ X = X1 ++ X2.
  Proof.
    intros Hr1 Hr2.
    unfold transform, check_columns, column_indices, select_rows. cbn [columns rows].
    destruct (forallb _ _); [simpl|split; [done|by intros (? & ? & ? & ? & ?)]].
    destruct (mapM _ cols1) as [idx1|e]; [simpl|split; [done|by intros (? & ? & ? & ? & ?)]].
    destruct (mapM _ cols2) as [idx2|e]; [simpl|split; [done|by intros (? & ? & ? & ? & ?)]].
    rewrite !map_app. apply blocks_app; rewrite ?length_map; try done;
      by destruct rs1, rs2.
  Qed.

Lemma transform_length st df X :
    transform st df = Ok X -> length X = length (rows df).
  Proof.
    unfold transform. intros H. inv_ok.
    rewrite hstack_length. apply lp1 in Ha2. apply lp2 in Ha3.
    unfold select_rows in *. rewrite length_map in Ha2, Ha3. lia.
  Qed.

  (** Each row of a transformed frame is what [transform] gives on the
      one-row frame holding only that row. *)
Theorem transform_row_lookup st df X i r :
    transform st df = Ok X -> rows df !! i = Some r ->
    exists x, X !! i = Some x /\ transform st (mkFrame (columns df) [r]) = Ok [x].
  Proof.
    destruct df as [cols rs]. simpl. revert X i.
    induction rs as [|r0 rs IH]; intros X i HX Hi; [done|].
    destruct rs as [|r1 rs].
    { destruct i as [|i]; [|done]. injection Hi as ->.
      pose proof (transform_length _ _ _ HX) as Hl. destruct X as [|x [|]]; try done. eauto. }
    change (r0 :: r1 :: rs) with ([r0] ++ r1 :: rs) in HX.
    apply transform_app in HX as (X1 & X2 & H1 & H2 & ->); [|done|done].
    pose proof (transform_length _ _ _ H1) as Hl1. simpl in Hl1.
    destruct X1 as [|x [|]]; simpl in Hl1; try lia.
    destruct i as [|i]; simpl in Hi |- *.
    - injection Hi as ->. eauto.
    - by apply (IH X2 i).
  Qed.

  (** A frame without rows reaches the first transformer, which raises
      ([check_array]'s [ensure_min_samples=1]). *)
Lemma transform_no_rows st df :
    rejects_empty t1 -> rows df = [] ->
    (forall c, c ∈ cols1 ++ cols2 -> c ∈ columns df) ->
    transform st df =
    Err (ValueError "Found array with 0 sample(s) while a minimum of 1 is required").
  Proof.
    intros He Hr Hc.
    destruct (column_indices_Ok df cols1) as (idx1 & H1 & _); [intros; apply Hc; set_solver|].
    destruct (column_indices_Ok df cols2) as (idx2 & H2 & _); [intros; apply Hc; set_solver|].
    unfold transform. rewrite (column_indices_check _ _ _ H1 H2), H1, H2. cbn [rbind].
    unfold select_rows. by rewrite Hr, He.
  Qed.

End Combinator.

End ColumnTransformer.
