(* ===== verification/Preprocessor.v ===== *)
(** * Preprocessor: [DataTransformation.get_data_transformer_object]

    The preprocessing object the training run fits and persists and the
    prediction service replays (src/src/components/data_transformation.py,
    lines 29-77): a [ColumnTransformer] routing the numeric columns
    [writing_score], [reading_score] (in that order) through
    [SimpleImputer(strategy="median")] then [StandardScaler()], and the five
    categorical columns through [SimpleImputer(strategy="most_frequent")],
    [OneHotEncoder()] and [StandardScaler(with_mean=False)], whose output is
    sparse.  The theorems of this file instantiate those of
    ColumnTransformer.v and add what depends on the concrete steps: the
    invariant of a fitted state, the width of the output, the totality of
    [transform] on rows of known categories and its failure on an unknown
    category. *)

From S2P Require Import Prelude Frame Imputer Encoder Scaler Pipeline ColumnTransformer.

(** Lines 35-42. *)
Definition numerical_columns : list string := ["writing_score"; "reading_score"].
Definition categorical_columns : list string :=
  ["gender"; "race_ethnicity"; "parental_level_of_education"; "lunch";
   "test_preparation_course"].

(** Lines 45-50. *)
Definition num_pipeline : transformer (list cell) (list float) :=
  pipe (leaf SimpleImputer.fit_median SimpleImputer.transform_median_row)
       (leaf StandardScaler.fit_dense StandardScaler.transform_dense_row).

(** Lines 53-59. *)
Definition cat_pipeline : transformer (list cell) (list float) :=
  pipe (pipe (leaf SimpleImputer.fit_most_frequent SimpleImputer.transform_most_frequent_row)
             (leaf OneHotEncoder.fit OneHotEncoder.transform_row))
       (leaf StandardScaler.fit_sparse StandardScaler.transform_sparse_row).

(** Lines 66-71: the fitted object's state, [fit_transform] (line 112) and
    [transform] (line 113, and predict_pipeline.py line 27). *)
Definition state : Type := ColumnTransformer.state num_pipeline cat_pipeline.

Definition fit_transform : frame -> result (state * list (list float)) :=
  ColumnTransformer.fit_transform num_pipeline cat_pipeline
    numerical_columns categorical_columns false true.

Definition fit : frame -> result state :=
  ColumnTransformer.fit num_pipeline cat_pipeline
    numerical_columns categorical_columns false true.

Definition transform : state -> frame -> result (list (list float)) :=
  ColumnTransformer.transform num_pipeline cat_pipeline
    numerical_columns categorical_columns.

(** The parts of a fitted state. *)
Definition num_stats (st : state) : list (option float) := (ColumnTransformer.st1 _ _ st).1.
Definition num_scaler (st : state) : StandardScaler.state := (ColumnTransformer.st1 _ _ st).2.
Definition cat_stats (st : state) : list (option string) := (ColumnTransformer.st2 _ _ st).1.1.
Definition categories (st : state) : list (list string) := (ColumnTransformer.st2 _ _ st).1.2.
Definition cat_scaler (st : state) : StandardScaler.state := (ColumnTransformer.st2 _ _ st).2.

(** The width of every output row: the kept numeric columns, then one entry
    per category of each kept categorical column. *)
Definition out_width (st : state) : nat :=
  length (SimpleImputer.valid_statistics (num_stats st)) + sum_list (map length (categories st)).

(** ** The fitted state *)

(** What [fit] guarantees of the state it freezes: one statistic per
    configured column, scalers as wide as the blocks they scale, and the
    imputed mode of every kept categorical column inside that column's
    vocabulary. *)
Definition state_wf (st : state) : Prop :=
  length (num_stats st) = length numerical_columns /\
  length (StandardScaler.mean_ (num_scaler st)) =
    length (SimpleImputer.valid_statistics (num_stats st)) /\
  length (StandardScaler.scale_ (num_scaler st)) =
    length (SimpleImputer.valid_statistics (num_stats st)) /\
  length (cat_stats st) = length categorical_columns /\
  Forall2 (fun '(_, m) cs => m ∈ cs)
    (SimpleImputer.valid_statistics (cat_stats st)) (categories st) /\
  length (StandardScaler.scale_ (cat_scaler st)) = sum_list (map length (categories st)).

(** A numeric entry the median imputer accepts: a finite number or a
    missing value. *)
Definition numeric_ok (c : cell) : bool := is_ok (SimpleImputer.num_of_cell c).

(** A categorical entry the fitted state can encode: missing (it becomes
    the column's mode) or a category of the column's vocabulary. *)
Definition known_in (cs : list string) (c : cell) : bool :=
  is_missing c || match c with CStr s => bool_decide (s ∈ cs) | _ => false end.

(** A row the fitted state knows: numbers or gaps in the numeric columns,
    and in each kept categorical column a gap or a known category. *)
Definition known_row (st : state) (cols : list string) (r : list cell) : bool :=
  forallb (fun c => numeric_ok (cell_of cols r c)) numerical_columns &&
  forallb (fun '((j, _), cs) =>
             match categorical_columns !! j with
             | Some c => known_in cs (cell_of cols r c)
             | None => true
             end)
    (zip (SimpleImputer.valid_statistics (cat_stats st)) (categories st)).

Lemma known_row_true st cols r :
  known_row st cols r = true ->
  Forall (fun c => numeric_ok (cell_of cols r c) = true) numerical_columns /\
  forall k j m cs c,
    SimpleImputer.valid_statistics (cat_stats st) !! k = Some (j, m) ->
    categories st !! k = Some cs -> categorical_columns !! j = Some c ->
    known_in cs (cell_of cols r c) = true.
Proof.
  unfold known_row. intros [H1 H2]%andb_prop. split.
  - apply Forall_forall. intros c Hc.
    apply (proj1 (forallb_forall _ _) H1), list_elem_of_In, Hc.
  - intros k j m cs c Hk Hcs Hc.
    assert (In ((j, m), cs) (zip (SimpleImputer.valid_statistics (cat_stats st)) (categories st)))
      as Hin.
    { apply list_elem_of_In, list_elem_of_lookup. exists k.
      by rewrite lookup_zip_with, Hk, Hcs. }
    apply (proj1 (forallb_forall _ _) H2) in Hin. by rewrite Hc in Hin.
Qed.

(** ** The interface laws hold for the two pipelines *)

Lemma num_pipeline_laws :
  ft_law num_pipeline /\ rowwise num_pipeline /\ length_preserving num_pipeline.
Proof. unfold num_pipeline. split_and!; auto with pyml. Qed.

Lemma cat_pipeline_laws :
  ft_law cat_pipeline /\ rowwise cat_pipeline /\ length_preserving cat_pipeline.
Proof. unfold cat_pipeline. split_and!; auto 6 with pyml. Qed.

Lemma num_fit_transform_Ok X stats sc Y :
  tr_fit_transform num_pipeline X = Ok ((stats, sc), Y) ->
  exists Y1, SimpleImputer.fit_median X = Ok stats /\
             mapM (SimpleImputer.transform_median_row stats) X = Ok Y1 /\
             StandardScaler.fit_dense Y1 = Ok sc /\
             mapM (StandardScaler.transform_dense_row sc) Y1 = Ok Y.
Proof.
  intros (Y1 & (? & _ & ?)%leaf_fit_transform_Ok & (? & _ & ?)%leaf_fit_transform_Ok)
    %pipe_fit_transform_Ok.
  by exists Y1.
Qed.

Lemma cat_fit_transform_Ok X mf cats sc Y :
  tr_fit_transform cat_pipeline X = Ok (((mf, cats), sc), Y) ->
  exists Y1 Y2, SimpleImputer.fit_most_frequent X = Ok mf /\
             mapM (SimpleImputer.transform_most_frequent_row mf) X = Ok Y1 /\
             OneHotEncoder.fit Y1 = Ok cats /\
             mapM (OneHotEncoder.transform_row cats) Y1 = Ok Y2 /\
             StandardScaler.fit_sparse Y2 = Ok sc /\
             mapM (StandardScaler.transform_sparse_row sc) Y2 = Ok Y.
Proof.
  intros (Y2 & (Y1 & (? & _ & ?)%leaf_fit_transform_Ok & (? & _ & ?)%leaf_fit_transform_Ok)
    %pipe_fit_transform_Ok & (? & _ & ?)%leaf_fit_transform_Ok)%pipe_fit_transform_Ok.
  by exists Y1, Y2.
Qed.

Lemma fit_Ok df st :
  fit df = Ok st ->
  exists idx1 idx2 Y1 Y2,
    column_indices df numerical_columns = Ok idx1 /\
    column_indices df categorical_columns = Ok idx2 /\
    tr_fit_transform num_pipeline (select_rows idx1 df) = Ok (ColumnTransformer.st1 _ _ st, Y1) /\
    tr_fit_transform cat_pipeline (select_rows idx2 df) = Ok (ColumnTransformer.st2 _ _ st, Y2).
Proof.
  unfold fit, ColumnTransformer.fit, ColumnTransformer.fit_transform.
  destruct (column_indices df numerical_columns) as [idx1|] eqn:H1; cbn [rbind]; [|done].
  destruct (column_indices df categorical_columns) as [idx2|] eqn:H2; cbn [rbind]; [|done].
  destruct (tr_fit_transform num_pipeline _) as [[s1 Y1]|] eqn:H3; cbn [rbind]; [|done].
  destruct (tr_fit_transform cat_pipeline _) as [[s2 Y2]|] eqn:H4; cbn [rbind]; [|done].
  destruct (ColumnTransformer.sparse_output_of _ _ _ _) as [sp|]; cbn [rbind]; [|done].
  intros [= <-]. by exists idx1, idx2, Y1, Y2.
Qed.

Lemma num_fit_wf X stats sc Y :
  tr_fit_transform num_pipeline X = Ok ((stats, sc), Y) ->
  X <> [] /\ length stats = SimpleImputer.n_features X /\
  length (StandardScaler.mean_ sc) = length (SimpleImputer.valid_statistics stats) /\
  length (StandardScaler.scale_ sc) = length (SimpleImputer.valid_statistics stats).
Proof.
  intros (Y1 & Hf & Ht & Hd & _)%num_fit_transform_Ok.
  destruct (SimpleImputer.fit_median_shape _ _ Hf) as [HX Hl].
  assert (SimpleImputer.n_features Y1 = length (SimpleImputer.valid_statistics stats)) as HY1.
  { eapply SimpleImputer.n_features_mapM; [exact Ht| |exact HX].
    intros r y Hy. by apply SimpleImputer.transform_median_row_shape in Hy as [_ ->]. }
  split_and!; [done|done| |].
  - by rewrite (StandardScaler.fit_dense_mean_width _ _ Hd), (StandardScaler.fit_dense_width _ _ Hd).
  - by rewrite (StandardScaler.fit_dense_width _ _ Hd).
Qed.

(** The imputed row of a training row holds the mode at each kept column
    whose training entry was that mode. *)
Lemma most_frequent_row_mode mf r y k j m :
  SimpleImputer.transform_most_frequent_row mf r = Ok y ->
  SimpleImputer.valid_statistics mf !! k = Some (j, m) ->
  r !! j = Some (CStr m) -> y !! k = Some (CStr m).
Proof.
  unfold SimpleImputer.transform_most_frequent_row. intros H Hk Hr. inv_ok.
  erewrite SimpleImputer.impute_row_lookup.
  - by rewrite list_lookup_fmap, Hr.
  - by rewrite SimpleImputer.valid_statistics_fmap, list_lookup_fmap, Hk.
Qed.

Lemma cat_fit_wf X mf cats sc Y :
  tr_fit_transform cat_pipeline X = Ok (((mf, cats), sc), Y) ->
  X <> [] /\ length mf = SimpleImputer.n_features X /\
  Forall2 (fun '(_, m) cs => m ∈ cs) (SimpleImputer.valid_statistics mf) cats /\
  length (StandardScaler.scale_ sc) = sum_list (map length cats).
Proof.
  intros (Y1 & Y2 & Hf & Ht & He & Hte & Hs & _)%cat_fit_transform_Ok.
  destruct (SimpleImputer.fit_most_frequent_shape _ _ Hf) as [HX Hl].
  assert (Y1 <> []) as HY1ne.
  { apply mapM_Ok_length in Ht. destruct X, Y1; simpl in *; congruence. }
  assert (length cats = length (SimpleImputer.valid_statistics mf)) as Hcats.
  { rewrite (OneHotEncoder.fit_shape _ _ He).
    eapply SimpleImputer.n_features_mapM; [exact Ht| |exact HX].
    intros r y Hy. by apply SimpleImputer.transform_most_frequent_row_shape in Hy as [_ ->]. }
  split_and!; [done|done| |].
  - apply Forall2_same_length_lookup_2; [done|]. intros k [j m] cs Hk Hcs.
    assert (mf !! j = Some (Some m)) as Hj
      by (apply SimpleImputer.valid_statistics_elem; by eapply list_elem_of_lookup_2).
    destruct (SimpleImputer.fit_most_frequent_mode _ _ _ _ Hf Hj) as (r & Hr & Hrj).
    apply list_elem_of_lookup in Hr as [i Hi].
    destruct (mapM_Ok_lookup _ _ _ _ _ Ht Hi) as (y & Hyi & Hy).
    eapply (OneHotEncoder.fit_categories Y1 cats k cs y); [done|done| |].
    + by eapply list_elem_of_lookup_2.
    + by eapply most_frequent_row_mode.
  - rewrite (StandardScaler.fit_sparse_width _ _ Hs).
    eapply SimpleImputer.n_features_mapM; [exact Hte| |exact HY1ne].
    intros r y Hy. by apply OneHotEncoder.transform_row_length in Hy.
Qed.

Lemma select_rows_n_features idx df :
  select_rows idx df <> [] -> SimpleImputer.n_features (select_rows idx df) = length idx.
Proof.
  intros H. unfold SimpleImputer.n_features. apply n_features_select.
  intros Hr. apply H. unfold select_rows. by rewrite Hr.
Qed.

Lemma fit_wf df st : fit df = Ok st -> state_wf st.
Proof.
  intros (idx1 & idx2 & Y1 & Y2 & H1 & H2 & H3 & H4)%fit_Ok.
  unfold state_wf, num_stats, num_scaler, cat_stats, categories, cat_scaler.
  destruct (ColumnTransformer.st1 _ _ st) as [stats sc].
  destruct (ColumnTransformer.st2 _ _ st) as [[mf cats] sc2]. simpl.
  destruct (num_fit_wf _ _ _ _ H3) as (HX1 & Hl1 & Hm & Hs).
  destruct (cat_fit_wf _ _ _ _ _ H4) as (HX2 & Hl2 & Hmodes & Hs2).
  rewrite select_rows_n_features in Hl1, Hl2 by done.
  apply mapM_Ok_length in H1, H2. simpl in H1, H2.
  split_and!; first [exact Hmodes | congruence].
Qed.

(** ** Transforming rows the state knows *)

Lemma median_row_total stats r :
  length r = length stats -> Forall (fun c => numeric_ok c = true) r ->
  exists v, SimpleImputer.transform_median_row stats r = Ok v /\
            length v = length (SimpleImputer.valid_statistics stats).
Proof.
  intros Hl Hr. unfold SimpleImputer.transform_median_row, SimpleImputer.check_width.
  rewrite Hl, Nat.eqb_refl. cbn [rbind].
  destruct (mapM_Forall_Ok SimpleImputer.num_of_cell _ (fun _ => True) r Hr) as (vs & -> & _).
  { intros c Hc. unfold numeric_ok, is_ok in Hc. destruct (SimpleImputer.num_of_cell c); [eauto|done]. }
  eexists. split; [done|apply SimpleImputer.impute_row_length].
Qed.

Lemma dense_row_total sc y :
  length (StandardScaler.mean_ sc) = length (StandardScaler.scale_ sc) ->
  length y = length (StandardScaler.scale_ sc) ->
  exists v, StandardScaler.transform_dense_row sc y = Ok v /\ length v = length y.
Proof.
  intros Hm Hy. unfold StandardScaler.transform_dense_row, SimpleImputer.check_width.
  rewrite Hy, Nat.eqb_refl. eexists. split; [done|]. rewrite length_zip_with, length_zip. lia.
Qed.

Lemma sparse_row_total sc y :
  length y = length (StandardScaler.scale_ sc) ->
  exists v, StandardScaler.transform_sparse_row sc y = Ok v /\ length v = length y.
Proof.
  intros Hy. unfold StandardScaler.transform_sparse_row, SimpleImputer.check_width.
  rewrite Hy, Nat.eqb_refl. eexists. split; [done|]. rewrite length_zip_with. lia.
Qed.

(** The imputed categorical row of a known row holds, at each kept column,
    a category of that column's vocabulary. *)
Lemma most_frequent_row_known mf cats r :
  length r = length mf ->
  Forall2 (fun '(_, m) cs => m ∈ cs) (SimpleImputer.valid_statistics mf) cats ->
  (forall k j m cs, SimpleImputer.valid_statistics mf !! k = Some (j, m) ->
                    cats !! k = Some cs -> known_in cs (cell_at r j) = true) ->
  exists y, SimpleImputer.transform_most_frequent_row mf r = Ok y /\
            Forall2 (fun cs c => exists s, c = CStr s /\ s ∈ cs) cats y.
Proof.
  intros Hl Hmodes Hknown.
  unfold SimpleImputer.transform_most_frequent_row, SimpleImputer.check_width.
  rewrite Hl, Nat.eqb_refl. cbn [rbind]. eexists. split; [done|].
  pose proof (Forall2_length _ _ _ Hmodes) as Hlen.
  apply Forall2_same_length_lookup_2.
  { by rewrite SimpleImputer.impute_row_length, SimpleImputer.valid_statistics_fmap, length_map. }
  intros k cs c Hcs Hc.
  destruct (SimpleImputer.valid_statistics mf !! k) as [[j m]|] eqn:Hk;
    [|apply lookup_ge_None in Hk; apply lookup_lt_Some in Hcs; lia].
  erewrite SimpleImputer.impute_row_lookup in Hc
    by (by rewrite SimpleImputer.valid_statistics_fmap, list_lookup_fmap, Hk).
  injection Hc as <-.
  pose proof (Hknown k j m cs Hk Hcs) as Hkn.
  assert (j < length r) as Hj.
  { rewrite Hl. eapply lookup_lt_Some, SimpleImputer.valid_statistics_elem.
    by eapply list_elem_of_lookup_2. }
  apply lookup_lt_is_Some in Hj as [cj Hcj].
  unfold cell_at in Hkn. rewrite Hcj in Hkn. simpl in Hkn.
  rewrite list_lookup_fmap, Hcj. simpl.
  unfold known_in in Hkn. destruct (is_missing cj) eqn:Hmiss; simpl.
  - exists m. split; [done|]. eapply (Forall2_lookup_lr _ _ _ _ _ _ Hmodes Hk Hcs).
  - destruct cj as [|s| |]; simpl in Hkn; try done.
    exists s. split; [done|]. by apply bool_decide_eq_true in Hkn.
Qed.

Lemma num_batch_total st X :
  state_wf st -> X <> [] ->
  Forall (fun r => length r = length numerical_columns /\
                   Forall (fun c => numeric_ok c = true) r) X ->
  exists Y, tr_transform num_pipeline (ColumnTransformer.st1 _ _ st) X = Ok Y /\
            Forall (fun y => length y = length (SimpleImputer.valid_statistics (num_stats st))) Y.
Proof.
  intros (Hn & Hm & Hs & _) HXn HX. unfold num_stats, num_scaler in *.
  destruct (ColumnTransformer.st1 _ _ st) as [stats sc]. simpl in *.
  rewrite check_samples_Ok by done. cbn [rbind].
  destruct (mapM_Forall_Ok (SimpleImputer.transform_median_row stats) _
              (fun y => length y = length (SimpleImputer.valid_statistics stats)) X HX)
    as (Y1 & HY1e & HY1).
  { intros r [Hl Hr]. apply median_row_total; [congruence|done]. }
  rewrite HY1e. cbn [rbind].
  rewrite check_samples_Ok by (apply mapM_Ok_length in HY1e; by intros ->; destruct X).
  cbn [rbind].
  apply (mapM_Forall_Ok (StandardScaler.transform_dense_row sc) _ _ Y1 HY1).
  intros y Hy. destruct (dense_row_total sc y) as (v & ? & ?); [congruence..|]. eauto with lia.
Qed.

Lemma cat_batch_total st X :
  state_wf st -> X <> [] ->
  Forall (fun r => length r = length categorical_columns /\
     forall k j m cs, SimpleImputer.valid_statistics (cat_stats st) !! k = Some (j, m) ->
                      categories st !! k = Some cs -> known_in cs (cell_at r j) = true) X ->
  exists Y, tr_transform cat_pipeline (ColumnTransformer.st2 _ _ st) X = Ok Y /\
            Forall (fun y => length y = sum_list (map length (categories st))) Y.
Proof.
  intros (_ & _ & _ & Hc & Hmodes & Hs2) HXn HX. unfold cat_stats, categories, cat_scaler in *.
  destruct (ColumnTransformer.st2 _ _ st) as [[mf cats] sc]. simpl in *.
  rewrite check_samples_Ok by done. cbn [rbind].
  destruct (mapM_Forall_Ok (SimpleImputer.transform_most_frequent_row mf) _
              (Forall2 (fun cs c => exists s, c = CStr s /\ s ∈ cs) cats) X HX)
    as (Y1 & HY1e & HY1).
  { intros r [Hl Hr]. apply most_frequent_row_known; [congruence|done|done]. }
  rewrite HY1e. cbn [rbind].
  assert (Y1 <> []) as HY1n by (apply mapM_Ok_length in HY1e; by intros ->; destruct X).
  rewrite check_samples_Ok by done. cbn [rbind].
  destruct (mapM_Forall_Ok (OneHotEncoder.transform_row cats) _
              (fun y => length y = sum_list (map length cats)) Y1 HY1)
    as (Y2 & HY2e & HY2).
  { intros y Hy. destruct (OneHotEncoder.transform_row_known cats y Hy) as [v Hv].
    exists v. split; [done|]. by eapply OneHotEncoder.transform_row_length. }
  rewrite HY2e. cbn [rbind].
  rewrite check_samples_Ok by (apply mapM_Ok_length in HY2e; by intros ->; destruct Y1).
  cbn [rbind].
  apply (mapM_Forall_Ok (StandardScaler.transform_sparse_row sc) _ _ Y2 HY2).
  intros y Hy. destruct (sparse_row_total sc y) as (v & ? & ?); [congruence|]. eauto with lia.
Qed.

Lemma cell_at_map_cell_of cols r cs j c :
  cs !! j = Some c -> cell_at (map (cell_of cols r) cs) j = cell_of cols r c.
Proof. intros H. unfold cell_at. by rewrite list_lookup_fmap, H. Qed.

(** C4. [transform] with a well-formed state succeeds on every frame that has
    rows, has the configured columns and whose rows the state knows, and
    each output row has [out_width st] entries: numeric columns first, then
    the one-hot blocks. *)
Theorem transform_total st df :
  state_wf st ->
  (forall c, c ∈ numerical_columns ++ categorical_columns -> c ∈ columns df) ->
  rows df <> [] ->
  Forall (fun r => known_row st (columns df) r = true) (rows df) ->
  exists X, transform st df = Ok X /\ Forall (fun x => length x = out_width st) X.
Proof.
  intros Hwf Hcols Hne Hrows. pose proof Hwf as (Hn & _ & _ & Hc & _).
  destruct (column_indices_Ok df numerical_columns) as (idx1 & H1 & _);
    [intros; apply Hcols; set_solver|].
  destruct (column_indices_Ok df categorical_columns) as (idx2 & H2 & _);
    [intros; apply Hcols; set_solver|].
  unfold transform, ColumnTransformer.transform.
  rewrite (ColumnTransformer.column_indices_check _ _ _ idx1 idx2 H1 H2), H1, H2. cbn [rbind].
  assert (forall idx, select_rows idx df <> []) as Hsel
    by (intros idx; unfold select_rows; by destruct (rows df)).
  destruct (num_batch_total st (select_rows idx1 df) Hwf (Hsel idx1)) as (Y1 & -> & HY1).
  { apply Forall_forall. intros x Hx. unfold select_rows in Hx.
    apply list_elem_of_fmap in Hx as (r & -> & Hr).
    rewrite (take_cells_column_indices _ _ _ _ H1), length_map. split; [done|].
    apply Forall_map. rewrite Forall_forall in Hrows. by apply (known_row_true _ _ _ (Hrows r Hr)). }
  cbn [rbind].
  destruct (cat_batch_total st (select_rows idx2 df) Hwf (Hsel idx2)) as (Y2 & -> & HY2).
  { apply Forall_forall. intros x Hx. unfold select_rows in Hx.
    apply list_elem_of_fmap in Hx as (r & -> & Hr).
    rewrite (take_cells_column_indices _ _ _ _ H2), length_map. split; [done|].
    intros k j m cs Hk Hcs. rewrite Forall_forall in Hrows.
    destruct (known_row_true _ _ _ (Hrows r Hr)) as [_ Hknown].
    assert (j < length categorical_columns) as Hj.
    { rewrite <- Hc. eapply lookup_lt_Some, SimpleImputer.valid_statistics_elem.
      by eapply list_elem_of_lookup_2. }
    apply lookup_lt_is_Some in Hj as [c Hcj].
    rewrite (cell_at_map_cell_of _ _ _ _ _ Hcj). by eapply Hknown. }
  cbn [rbind]. eexists. split; [done|]. by apply ColumnTransformer.hstack_width.
Qed.

(** C11. A frame with the configured columns but no rows makes [transform]
    raise [ValueError]: the imputer's [check_array] requires at least one
    sample. *)
Theorem transform_empty_frame st df :
  (forall c, c ∈ numerical_columns ++ categorical_columns -> c ∈ columns df) ->
  rows df = [] ->
  transform st df =
  Err (ValueError "Found array with 0 sample(s) while a minimum of 1 is required").
Proof.
  intros Hc Hr. pose proof num_pipeline_laws. pose proof cat_pipeline_laws.
  apply ColumnTransformer.transform_no_rows; try tauto. unfold num_pipeline. auto with pyml.
Qed.

(** The imputed categorical row keeps a category that is not missing. *)
Lemma most_frequent_row_value mf x y k j m s :
  SimpleImputer.transform_most_frequent_row mf x = Ok y ->
  SimpleImputer.valid_statistics mf !! k = Some (j, m) ->
  x !! j = Some (CStr s) -> y !! k = Some (CStr s).
Proof.
  unfold SimpleImputer.transform_most_frequent_row. intros H Hk Hx. inv_ok.
  erewrite SimpleImputer.impute_row_lookup.
  - by rewrite list_lookup_fmap, Hx.
  - by rewrite SimpleImputer.valid_statistics_fmap, list_lookup_fmap, Hk.
Qed.

(** C9. A category that was not seen at [fit], in a kept categorical column of
    any row, makes [transform] raise ([handle_unknown="error"]): there is no
    ignore policy. *)
Theorem transform_unknown_category st df r k j m cs c s X :
  r ∈ rows df ->
  SimpleImputer.valid_statistics (cat_stats st) !! k = Some (j, m) ->
  categories st !! k = Some cs ->
  categorical_columns !! j = Some c ->
  cell_of (columns df) r c = CStr s -> s ∉ cs ->
  transform st df <> Ok X.
Proof.
  intros Hr Hk Hcs Hcj Hcell Hs H.
  unfold transform, ColumnTransformer.transform in H. inv_ok.
  unfold cat_stats, categories in *.
  destruct (ColumnTransformer.st2 _ _ st) as [[mf cats] sc]. simpl in *. inv_ok.
  apply list_elem_of_lookup in Hr as [i Hi].
  lazymatch goal with
  | Hidx : column_indices df categorical_columns = Ok ?idx,
    Hmf : mapM (SimpleImputer.transform_most_frequent_row mf) _ = Ok ?Y1,
    Henc : mapM (OneHotEncoder.transform_row cats) ?Y1 = Ok _ |- _ =>
      assert (select_rows idx df !! i = Some (take_cells idx r)) as Hx
        by (unfold select_rows; by rewrite list_lookup_fmap, Hi);
      destruct (mapM_Ok_lookup _ _ _ _ _ Hmf Hx) as (y & Hyi & Hy);
      destruct (mapM_Ok_lookup _ _ _ _ _ Henc Hyi) as (v & _ & Hv);
      assert (y !! k = Some (CStr s)) as Hyk
        by (eapply most_frequent_row_value; [exact Hy|exact Hk|];
            rewrite (take_cells_column_indices _ _ _ _ Hidx), list_lookup_fmap, Hcj;
            simpl; by rewrite Hcell)
  end.
  apply (OneHotEncoder.transform_row_unknown cats y k cs (CStr s) v Hcs Hyk); [|exact Hv].
  by intros ? [= <-].
Qed.

Lemma numerical_columns_NoDup : NoDup numerical_columns.
Proof. unfold numerical_columns. repeat constructor; set_solver. Qed.

(** C13. A missing numeric entry of an inference record is transformed exactly
    as the fitted median of its column would be. *)
Theorem transform_missing_numeric st cols r k c i m :
  numerical_columns !! k = Some c -> col_index c cols = Some i -> i < length r ->
  num_stats st !! k = Some (Some m) -> SimpleImputer.num_of_cell (CNum m) = Ok (Some m) ->
  transform st (mkFrame cols [<[i:=CNaN]> r]) = transform st (mkFrame cols [<[i:=CNum m]> r]).
Proof.
  intros Hk Hc Hi Hm Hfin.
  unfold transform, ColumnTransformer.transform, ColumnTransformer.check_columns,
    column_indices, select_rows. cbn [columns rows map].
  destruct (forallb _ _); cbn [rbind]; [|done].
  destruct (mapM _ numerical_columns) as [idx1|] eqn:H1; cbn [rbind]; [|done].
  destruct (mapM _ categorical_columns) as [idx2|] eqn:H2; cbn [rbind]; [|done].
  assert (idx1 !! k = Some i) as Hik.
  { apply mapM_Ok_Forall2 in H1.
    destruct (Forall2_lookup_l _ _ _ _ _ H1 Hk) as (i' & Hi' & Hci').
    by rewrite Hc in Hci'; injection Hci' as ->. }
  assert (i ∉ idx2) as Hnot.
  { intros Hin. apply list_elem_of_lookup in Hin as [k2 Hk2].
    destruct (column_indices_lookup (mkFrame cols []) categorical_columns idx2 k2 i H2 Hk2)
      as (c2 & Hc2 & Hci2). simpl in Hci2.
    apply col_index_lookup in Hc. rewrite Hc in Hci2. injection Hci2 as <-.
    assert (c ∈ numerical_columns) by (by eapply list_elem_of_lookup_2).
    assert (c ∈ categorical_columns) by (by eapply list_elem_of_lookup_2).
    unfold numerical_columns, categorical_columns in *. set_solver. }
  rewrite !(take_cells_insert_notin idx2 r i) by done.
  rewrite !(take_cells_insert idx1 r i k) by
    (done || (intros; eapply (column_indices_unique (mkFrame cols [])); eauto using numerical_columns_NoDup)).
  unfold num_stats in Hm. destruct (ColumnTransformer.st1 _ _ st) as [stats sc]. simpl in Hm |- *.
  by rewrite (SimpleImputer.transform_median_row_missing stats _ k m Hm Hfin).
Qed.

(** ** The generic theorems at the concrete preprocessor *)

(** C2. The training output of [fit_transform] is the persisted state's
    [transform] of the same frame. *)
Theorem preprocessor_fit_transform_replay df :
  fit_transform df = (let* st := fit df in let* X := transform st df in Ok (st, X)).
Proof.
  destruct num_pipeline_laws as (Hft1 & _ & _), cat_pipeline_laws as (Hft2 & _ & _).
  by apply ColumnTransformer.fit_transform_replay.
Qed.

(** C14. Transforming one record gives the row the batch transform gives it. *)
Theorem preprocessor_transform_one_row st df X i r :
  transform st df = Ok X -> rows df !! i = Some r ->
  exists x, X !! i = Some x /\ transform st (mkFrame (columns df) [r]) = Ok [x].
Proof.
  destruct num_pipeline_laws as (_ & Hrw1 & Hlp1), cat_pipeline_laws as (_ & Hrw2 & Hlp2).
  by apply ColumnTransformer.transform_row_lookup.
Qed.

(** ** Shape facts used by the end-to-end theorems *)

(** Every row a fitted state transforms has the state's output width. *)
Lemma transform_width st df X :
  state_wf st -> transform st df = Ok X -> Forall (fun x => length x = out_width st) X.
Proof.
  intros (_ & Hm & Hs & _ & _ & Hs2) H.
  unfold transform, ColumnTransformer.transform in H. inv_ok.
  unfold out_width. apply ColumnTransformer.hstack_width.
  - unfold num_scaler, num_stats in *. destruct (ColumnTransformer.st1 _ _ st) as [stats sc].
    cbn in Ha2. inv_ok. eapply mapM_Ok_Forall; [exact Ha2|]. intros r v Hv.
    cbn [fst snd] in Hm, Hs |- *. rewrite <- Hs.
    apply (StandardScaler.transform_dense_row_width sc r v); [congruence|exact Hv].
  - unfold cat_scaler, categories in *.
    destruct (ColumnTransformer.st2 _ _ st) as [[mf cats] sc].
    cbn in Ha3. inv_ok. eapply mapM_Ok_Forall; [exact Ha3|]. intros r v Hv.
    cbn [fst snd] in Hs2 |- *. rewrite <- Hs2. apply (StandardScaler.transform_sparse_row_width _ _ _ Hv).
Qed.

(** [fit] needs at least one row. *)
Lemma fit_rows_nonempty df st : fit df = Ok st -> rows df <> [].
Proof.
  intros (idx1 & _ & Y1 & _ & _ & _ & H3 & _)%fit_Ok.
  destruct (ColumnTransformer.st1 _ _ st) as [stats sc].
  destruct (num_fit_wf _ _ _ _ H3) as (HX & _).
  intros Hr. apply HX. unfold select_rows. by rewrite Hr.
Qed.

(** C3. [fit] freezes a well-formed state: one statistic per configured column,
    scalers as wide as the blocks they scale, each imputed mode inside its
    column's vocabulary; and every frame the frozen state transforms comes
    out [out_width] entries wide. *)
Theorem fit_state_wf df st :
  fit df = Ok st ->
  state_wf st /\
  forall df' X, transform st df' = Ok X -> Forall (fun x => length x = out_width st) X.
Proof.
  intros Hfit. pose proof (fit_wf _ _ Hfit) as Hwf.
  split; [done|]. intros df' X. by apply transform_width.
Qed.

(** C12. A frame without one of the configured columns is rejected before any
    estimator runs ([_check_n_features]/column check of
    [ColumnTransformer.transform]). *)
Theorem transform_missing_column st df c :
  c ∈ numerical_columns ++ categorical_columns -> c ∉ columns df ->
  transform st df = Err (ValueError "columns are missing").
Proof.
  intros Hc Hnot. unfold transform, ColumnTransformer.transform, ColumnTransformer.check_columns.
  destruct (forallb _ _) eqn:E; [|done].
  exfalso. apply Hnot. apply forallb_forall with (x := c) in E; [|by apply list_elem_of_In].
  by apply bool_decide_eq_true in E.
Qed.
