(* ===== verification/RowSpec.v ===== *)
(** * RowSpec: the fitted preprocessor on one record, in closed form

    What the fitted [preprocessor.transform] of
    src/src/components/data_transformation.py (lines 35-71, used at line
    113 and by predict_pipeline.py line 27) computes on a single record,
    stated without the result monad, the column selection or the chained
    estimators: each kept score, or its column's median when it is missing,
    centred and divided by the fitted scale; then, for each kept
    categorical column, one entry per category of its vocabulary, the
    inverse of that entry's fitted scale where the record's category (or
    the column's mode when it is missing) is that category and zero
    elsewhere.  The theorem of the file shows that [Preprocessor.transform]
    refines this description on every record the state knows. *)

From S2P Require Import Prelude Frame Imputer Encoder Scaler Pipeline ColumnTransformer Preprocessor.

Module RowSpec.

(** The number a score cell stands for once imputed: the cell's number, or
    the median [m] when the cell is missing. *)
Definition num_entry (m : float) (c : cell) : float :=
  match c with
  | CNum x => if PrimFloat.is_nan x then m else x
  | _ => m
  end.

(** The category a categorical cell stands for once imputed. *)
Definition cat_entry (m : string) (c : cell) : string :=
  match c with
  | CStr s => s
  | _ => m
  end.

(** The standardized scores of a selected numeric row [x], one per kept
    column. *)
Definition row_standardized (stats : list (option float)) (sc : StandardScaler.state)
  (x : list cell) : list float :=
  zip_with (fun '((j, m) : nat * float) '((mu, s) : float * float) =>
              ((num_entry m (cell_at x j) - mu) / s)%float)
    (SimpleImputer.valid_statistics stats)
    (zip (StandardScaler.mean_ sc) (StandardScaler.scale_ sc)).

Definition standardized (st : Preprocessor.state) (cols : list string) (r : list cell)
  : list float :=
  row_standardized (num_stats st) (num_scaler st) (map (cell_of cols r) numerical_columns).

(** For each kept column of a selected categorical row [x], which of its
    categories the row has. *)
Definition row_indicators (mf : list (option string)) (cats : list (list string))
  (x : list cell) : list bool :=
  concat (zip_with (fun '((j, m) : nat * string) (cs : list string) =>
                      map (fun c => String.eqb c (cat_entry m (cell_at x j))) cs)
            (SimpleImputer.valid_statistics mf) cats).

Definition indicators (st : Preprocessor.state) (cols : list string) (r : list cell)
  : list bool :=
  row_indicators (cat_stats st) (categories st) (map (cell_of cols r) categorical_columns).

(** The encoded categories: [1 / scale] where the indicator is set. *)
Definition encoded (st : Preprocessor.state) (cols : list string) (r : list cell)
  : list float :=
  zip_with (fun (b : bool) (s : float) => if b then 1 * (1 / s) else 0)%float
    (indicators st cols r) (StandardScaler.scale_ (cat_scaler st)).

Definition expected_row (st : Preprocessor.state) (cols : list string) (r : list cell)
  : list float :=
  standardized st cols r ++ encoded st cols r.

(** ** The numeric branch *)

Lemma num_of_cell_entry c v m :
  SimpleImputer.num_of_cell c = Ok v -> default m v = num_entry m c.
Proof.
  destruct c as [x| | |]; simpl; try done; [|by intros [= <-]].
  destruct (PrimFloat.is_nan x); [by intros [= <-]|].
  by destruct (PrimFloat.is_infinity x); [|intros [= <-]].
Qed.

Lemma impute_row_num_entry stats x vs :
  Forall2 (fun c v => SimpleImputer.num_of_cell c = Ok v) x vs ->
  SimpleImputer.impute_row stats vs =
  map (fun '(j, m) => num_entry m (cell_at x j)) (SimpleImputer.valid_statistics stats).
Proof.
  intros H. unfold SimpleImputer.impute_row. apply map_ext. intros [j m].
  unfold cell_at. destruct (x !! j) as [c|] eqn:Hc.
  - destruct (Forall2_lookup_l _ _ _ _ _ H Hc) as (v & -> & Hv).
    by apply num_of_cell_entry.
  - apply lookup_ge_None in Hc. rewrite (Forall2_length _ _ _ H) in Hc.
    by rewrite (lookup_ge_None_2 _ _ Hc).
Qed.

(** The median imputer followed by the dense scaler on one row. *)
Lemma num_row_spec stats sc x :
  length x = length stats -> Forall (fun c => numeric_ok c = true) x ->
  length (StandardScaler.mean_ sc) = length (SimpleImputer.valid_statistics stats) ->
  length (StandardScaler.scale_ sc) = length (SimpleImputer.valid_statistics stats) ->
  rbind (SimpleImputer.transform_median_row stats x) (StandardScaler.transform_dense_row sc) =
  Ok (row_standardized stats sc x).
Proof.
  intros Hl Hx Hm Hs.
  unfold SimpleImputer.transform_median_row, SimpleImputer.check_width.
  rewrite Hl, Nat.eqb_refl. cbn [rbind].
  destruct (mapM_Forall_Ok SimpleImputer.num_of_cell _ (fun _ => True) x Hx) as (vs & Hvs & _).
  { intros c Hc. unfold numeric_ok, is_ok in Hc. destruct (SimpleImputer.num_of_cell c); [eauto|done]. }
  rewrite Hvs. cbn [rbind]. apply mapM_Ok_Forall2 in Hvs.
  rewrite (impute_row_num_entry _ _ _ Hvs).
  unfold StandardScaler.transform_dense_row, SimpleImputer.check_width.
  rewrite length_map, Hs, Nat.eqb_refl. cbn [rbind]. f_equal. unfold row_standardized. rewrite zip_with_fmap_l. apply zip_with_ext; [|done..]. by intros [j m] [mu s].
Qed.

(** ** The categorical branch *)

Lemma impute_cat_entry cs m x j :
  known_in cs (cell_at x j) = true ->
  default (CStr m) (mjoin (map (fun c => if is_missing c then None else Some c) x !! j)) =
  CStr (cat_entry m (cell_at x j)).
Proof.
  unfold cell_at. rewrite list_lookup_fmap.
  destruct (x !! j) as [c|]; simpl; [|done].
  unfold known_in. destruct c as [y| | |]; simpl; try done.
  by destruct (PrimFloat.is_nan y).
Qed.

Lemma cat_entry_known cs m c : known_in cs c = true -> m ∈ cs -> cat_entry m c ∈ cs.
Proof.
  unfold known_in. destruct c as [y|s| |]; simpl; try done.
  intros Hs _. by apply bool_decide_eq_true in Hs.
Qed.

(** The most_frequent imputer on a row the state knows. *)
Lemma most_frequent_row_spec mf cats x :
  length x = length mf -> length cats = length (SimpleImputer.valid_statistics mf) ->
  (forall k j m cs, SimpleImputer.valid_statistics mf !! k = Some (j, m) ->
                    cats !! k = Some cs -> known_in cs (cell_at x j) = true) ->
  SimpleImputer.transform_most_frequent_row mf x =
  Ok (map CStr (map (fun '((j, m) : nat * string) => cat_entry m (cell_at x j))
                  (SimpleImputer.valid_statistics mf))).
Proof.
  intros Hl Hc Hk. unfold SimpleImputer.transform_most_frequent_row, SimpleImputer.check_width.
  rewrite Hl, Nat.eqb_refl. cbn [rbind]. f_equal.
  unfold SimpleImputer.impute_row. rewrite SimpleImputer.valid_statistics_fmap, !map_map.
  apply map_ext_in. intros [j m] Hin%list_elem_of_In.
  apply list_elem_of_lookup in Hin as [k Hjk].
  destruct (lookup_lt_is_Some_2 cats k) as [cs Hcs];
    [rewrite Hc; by eapply lookup_lt_Some|].
  eapply impute_cat_entry, Hk; eauto.
Qed.

(** The imputed categories are in their columns' vocabularies. *)
Lemma imputed_categories_known mf cats x :
  Forall2 (fun '((_, m) : nat * string) cs => m ∈ cs) (SimpleImputer.valid_statistics mf) cats ->
  (forall k j m cs, SimpleImputer.valid_statistics mf !! k = Some (j, m) ->
                    cats !! k = Some cs -> known_in cs (cell_at x j) = true) ->
  Forall2 (fun cs s => s ∈ cs) cats
    (map (fun '((j, m) : nat * string) => cat_entry m (cell_at x j)) (SimpleImputer.valid_statistics mf)).
Proof.
  intros Hmodes Hk. apply Forall2_same_length_lookup_2.
  { by rewrite length_map, (Forall2_length _ _ _ Hmodes). }
  intros k cs s Hcs Hs. rewrite list_lookup_fmap in Hs.
  destruct (SimpleImputer.valid_statistics mf !! k) as [[j m]|] eqn:Hjk; [|done].
  injection Hs as <-. apply cat_entry_known; [by eapply Hk|].
  exact (Forall2_lookup_lr _ _ _ _ _ _ Hmodes Hjk Hcs).
Qed.

(** One-hot blocks are indicator vectors read as floats. *)
Lemma onehot_indicators {A} (f : A -> string) l cats :
  concat (zip_with OneHotEncoder.onehot_block cats (map f l)) =
  map (fun b : bool => if b then 1%float else 0%float)
    (concat (zip_with (fun p cs => map (fun c => String.eqb c (f p)) cs) l cats)).
Proof.
  revert cats. induction l as [|p l IH]; intros [|cs cats]; simpl; try done.
  rewrite map_app, IH. unfold OneHotEncoder.onehot_block. by rewrite map_map.
Qed.

Lemma indicators_length {A} (g : A -> list string -> list bool) l cats :
  length l = length cats -> (forall p cs, length (g p cs) = length cs) ->
  length (concat (zip_with g l cats)) = sum_list (map length cats).
Proof.
  revert cats. induction l as [|p l IH]; intros [|cs cats] Hl Hg; simpl in *; try done.
  rewrite length_app, Hg, IH; auto.
Qed.

(** The imputer and the encoder on a row the state knows: the indicator
    vector read as floats. *)
Lemma cat_encode_spec mf cats x :
  length x = length mf ->
  Forall2 (fun '((_, m) : nat * string) cs => m ∈ cs) (SimpleImputer.valid_statistics mf) cats ->
  (forall k j m cs, SimpleImputer.valid_statistics mf !! k = Some (j, m) ->
                    cats !! k = Some cs -> known_in cs (cell_at x j) = true) ->
  rbind (SimpleImputer.transform_most_frequent_row mf x) (OneHotEncoder.transform_row cats) =
  Ok (map (fun b : bool => if b then 1%float else 0%float) (row_indicators mf cats x)).
Proof.
  intros Hl Hmodes Hk.
  pose proof (imputed_categories_known _ _ _ Hmodes Hk) as Hss.
  rewrite (most_frequent_row_spec mf cats) by (done || by rewrite (Forall2_length _ _ _ Hmodes)).
  cbn [rbind]. unfold OneHotEncoder.transform_row, SimpleImputer.check_width.
  rewrite length_map, (Forall2_length _ _ _ Hss), Nat.eqb_refl. cbn [rbind].
  rewrite OneHotEncoder.encode_zip_onehot by done. cbn [rbind].
  rewrite onehot_indicators. unfold row_indicators. do 3 f_equal.
  apply zip_with_ext; [|done..]. by intros [j m] cs.
Qed.

(** The sparse scaler on an indicator vector. *)
Lemma sparse_indicators sc (bs : list bool) :
  length bs = length (StandardScaler.scale_ sc) ->
  StandardScaler.transform_sparse_row sc (map (fun b : bool => if b then 1%float else 0%float) bs) =
  Ok (zip_with (fun (b : bool) (s : float) => if b then 1 * (1 / s) else 0)%float
        bs (StandardScaler.scale_ sc)).
Proof.
  intros Hl. unfold StandardScaler.transform_sparse_row, SimpleImputer.check_width.
  rewrite length_map, Hl, Nat.eqb_refl. cbn [rbind]. f_equal. rewrite zip_with_fmap_l. apply zip_with_ext; [|done..]. by intros [] s.
Qed.

Lemma row_indicators_length mf cats x :
  length (SimpleImputer.valid_statistics mf) = length cats ->
  length (row_indicators mf cats x) = sum_list (map length cats).
Proof.
  intros Hl. apply indicators_length; [done|]. intros [j m] cs. apply length_map.
Qed.

(** Every row of a frame selected by the labels [cs]. *)
Lemma select_rows_cell_of df cs idx :
  column_indices df cs = Ok idx ->
  select_rows idx df = map (fun r => map (cell_of (columns df) r) cs) (rows df).
Proof. intros H. apply map_ext. intros r. by eapply take_cells_column_indices. Qed.

(** The known-row conditions on the two selected rows. *)
Lemma known_row_selected st cols r :
  state_wf st -> known_row st cols r = true ->
  Forall (fun c => numeric_ok c = true) (map (cell_of cols r) numerical_columns) /\
  forall k j m cs, SimpleImputer.valid_statistics (cat_stats st) !! k = Some (j, m) ->
    categories st !! k = Some cs ->
    known_in cs (cell_at (map (cell_of cols r) categorical_columns) j) = true.
Proof.
  intros (_ & _ & _ & Hc & _) [Hnum Hknown]%known_row_true. split; [by apply Forall_map|].
  intros k j m cs Hk Hcs.
  assert (j < length categorical_columns) as Hj.
  { rewrite <- Hc. eapply lookup_lt_Some, SimpleImputer.valid_statistics_elem.
    by eapply list_elem_of_lookup_2. }
  apply lookup_lt_is_Some in Hj as [c Hcj].
  rewrite (cell_at_map_cell_of _ _ _ _ _ Hcj). by eapply Hknown.
Qed.

End RowSpec.

(** ** Refinement *)

Import RowSpec.

(** [transform] computes [expected_row] on every row the state knows. *)
Lemma transform_expected st df :
  state_wf st ->
  (forall c, c ∈ numerical_columns ++ categorical_columns -> c ∈ columns df) ->
  rows df <> [] ->
  Forall (fun r => known_row st (columns df) r = true) (rows df) ->
  Preprocessor.transform st df = Ok (map (expected_row st (columns df)) (rows df)).
Proof.
  intros Hwf Hcols Hne Hrows.
  destruct (column_indices_Ok df numerical_columns) as (idx1 & H1 & _);
    [intros; apply Hcols; set_solver|].
  destruct (column_indices_Ok df categorical_columns) as (idx2 & H2 & _);
    [intros; apply Hcols; set_solver|].
  unfold Preprocessor.transform, ColumnTransformer.transform.
  rewrite (ColumnTransformer.column_indices_check _ _ _ idx1 idx2 H1 H2), H1, H2. cbn [rbind].
  rewrite (select_rows_cell_of _ _ _ H1), (select_rows_cell_of _ _ _ H2).
  assert (forall r, r ∈ rows df -> _) as Hsel
    by (intros r Hr; exact (known_row_selected st _ r Hwf (proj1 (Forall_forall _ _) Hrows r Hr))).
  unfold expected_row, standardized, encoded, indicators.
  destruct Hwf as (Hn & Hm & Hs & Hc & Hmodes & Hs2).
  destruct st as [[stats sc] [[mf cats] sc2] sp].
  unfold num_stats, num_scaler, cat_stats, categories, cat_scaler in *.
  cbn [ColumnTransformer.st1 ColumnTransformer.st2 fst snd] in *.
  assert (forall A (g : list cell -> A), map g (rows df) <> []) as Hmap
    by (intros A g; by destruct (rows df)).
  unfold num_pipeline, cat_pipeline.
  rewrite !pipe_leaf_transform, !leaf_transform by (auto with pyml).
  rewrite (mapM_rbind_total _ (StandardScaler.transform_dense_row sc) (row_standardized stats sc)).
  2:{ intros x (r & -> & Hr)%list_elem_of_fmap. apply num_row_spec;
      [by rewrite length_map|apply (Hsel r Hr)|done|done]. }
  cbn [rbind].
  rewrite (mapM_rbind_total _ (OneHotEncoder.transform_row cats)
             (fun x => map (fun b : bool => if b then 1%float else 0%float) (row_indicators mf cats x))).
  2:{ intros x (r & -> & Hr)%list_elem_of_fmap. apply cat_encode_spec;
      [by rewrite length_map|done|apply (Hsel r Hr)]. }
  cbn [rbind]. rewrite map_map, mapM_fmap.
  rewrite (mapM_total _ (fun r => zip_with (fun (b : bool) (s : float) => if b then 1 * (1 / s) else 0)%float
             (row_indicators mf cats (map (cell_of (columns df) r) categorical_columns))
             (StandardScaler.scale_ sc2))).
  2:{ intros r _. apply sparse_indicators. rewrite Hs2. apply row_indicators_length.
      by rewrite (Forall2_length _ _ _ Hmodes). }
  cbn [rbind]. f_equal. unfold ColumnTransformer.hstack.
  by rewrite map_map, zip_with_fmap_l, zip_with_fmap_r, zip_with_diag.
Qed.

(** C5. [preprocessor.transform] with a well-formed state, on a frame with
    rows, with the configured columns, and whose rows the state knows, computes for each row
    exactly [expected_row]: each kept score (or its median when missing)
    centred and divided by its scale, then for each kept categorical column
    the indicator of the row's category (or the mode when missing) over the
    vocabulary, scaled by the inverse of each entry's scale. *)
Theorem transform_refines_spec st df :
  state_wf st ->
  (forall c, c ∈ numerical_columns ++ categorical_columns -> c ∈ columns df) ->
  rows df <> [] ->
  Forall (fun r => known_row st (columns df) r = true) (rows df) ->
  Preprocessor.transform st df = Ok (map (expected_row st (columns df)) (rows df)).
Proof. apply transform_expected. Qed.
