(* ===== verification/Store.v ===== *)
(** * Store: the artifacts directory and the file I/O of the pipeline

    The files the training run writes and the prediction service reads, as a
    finite map from paths to artifacts: CSV files ([df.to_csv],
    [pd.read_csv]) and pickled objects ([save_object], [load_object] of
    src/utils.py, a file that is not in the repository: modelled from the
    spec, section 6).  Code that touches files runs in [io], a state and
    error monad whose state is the store: a write made before an exception
    stays on disk, as it does in Python.  Paths are built by
    [os_path_join], POSIX [os.path.join].

    A fitted model is an opaque regressor (spec, section 3): the number of
    features it was fitted on and the function it computes on one
    transformed row. *)

From S2P Require Import Prelude Frame Preprocessor.

(** A fitted sklearn regressor: [n_features_in_], checked by [predict], and
    [predict] on one row (the regressors [ModelTrainer] selects from predict
    each row independently). *)
Record regressor : Type := Regressor {
  n_features_in_ : nat;
  predict_row : list float -> float
}.

(** What a pickle file holds. *)
Inductive pyobj : Type :=
  | OPreprocessor (st : Preprocessor.state)
  | OModel (m : regressor).

Inductive artifact : Type :=
  | ACsv (df : frame)
  | APickle (o : pyobj).

Notation store := (gmap string artifact).

(** ** The monad *)

Definition io (A : Type) : Type := store -> result A * store.

Definition io_ret {A} (a : A) : io A := fun s => (Ok a, s).

Definition io_bind {A B} (m : io A) (k : A -> io B) : io B :=
  fun s => match m s with
           | (Ok a, s') => k a s'
           | (Err e, s') => (Err e, s')
           end.

(** A pure step that may raise. *)
Definition io_lift {A} (r : result A) : io A := fun s => (r, s).

(** [try: ... except Exception as e: raise CustomException(e, sys)] around
    code with effects. *)
Definition io_try_custom {A} (m : io A) : io A :=
  fun s => let '(r, s') := m s in (try_custom r, s').

Declare Scope io_scope.
Delimit Scope io_scope with io.
Notation "'let!' x ':=' m 'in' k" := (io_bind m (fun x => k))
  (at level 10, x name, m at level 100, k at level 200,
   format "'[v' 'let!'  x  ':='  m  'in' '/' k ']'") : io_scope.
Notation "'let!' ' p ':=' m 'in' k" := (io_bind m (fun p => k))
  (at level 10, p pattern, m at level 100, k at level 200,
   format "'[v' 'let!'  ' p  ':='  m  'in' '/' k ']'") : io_scope.
Open Scope io_scope.

(** ** File operations *)

(** [os.path.join(a, b)] on POSIX ([posixpath.join]): an absolute [b]
    replaces [a], and a separator is inserted unless [a] is empty or
    already ends with one. *)
Definition os_path_join (a b : string) : string :=
  if String.prefix "/" b then b
  else if String.eqb a "" then b
  else if String.eqb (String.substring (String.length a - 1) 1 a) "/" then String.append a b
  else String.append a (String.append "/" b).

(** [df.to_csv(path, index=False, header=True)]: the model keeps the frame
    itself (a CSV written by pandas reads back as the same labels and
    values). *)
Definition to_csv (path : string) (df : frame) : io unit :=
  fun s => (Ok tt, <[path := ACsv df]> s).

(** [pd.read_csv(path)] *)
Definition read_csv (path : string) : io frame :=
  fun s => match s !! path with
           | Some (ACsv df) => (Ok df, s)
           | Some (APickle _) => (Err (ValueError "Error tokenizing data"), s)
           | None => (Err (FileNotFoundError path), s)
           end.

(** [save_object(file_path, obj)]: pickles [obj] to [file_path].  The
    spec states only that the artifact is persisted, so no exception
    handling of its own is assumed. *)
Definition save_object (path : string) (o : pyobj) : io unit :=
  fun s => (Ok tt, <[path := APickle o]> s).

(** [load_object(file_path)]: unpickles; a missing or non-pickle file
    raises, and the caller's [except] wraps it (spec: predict "fails with a
    wrapped error"). *)
Definition load_object (path : string) : io pyobj :=
  fun s => match s !! path with
           | Some (APickle o) => (Ok o, s)
           | Some (ACsv _) => (Err (ValueError "invalid load key"), s)
           | None => (Err (FileNotFoundError path), s)
           end.

(** An operation that never writes. *)
Definition read_only {A} (m : io A) : Prop := forall s, (m s).2 = s.

(** ** Lemmas *)

Lemma io_bind_Ok {A B} (m : io A) (k : A -> io B) s a s' :
  m s = (Ok a, s') -> io_bind m k s = k a s'.
Proof. intros H. unfold io_bind. by rewrite H. Qed.

Lemma io_bind_Err {A B} (m : io A) (k : A -> io B) s e s' :
  m s = (Err e, s') -> io_bind m k s = (Err e, s').
Proof. intros H. unfold io_bind. by rewrite H. Qed.

(** What [save_object] wrote, [load_object] reads back. *)
Lemma load_save_object path o s :
  io_bind (save_object path o) (fun _ => load_object path) s =
  (Ok o, <[path := APickle o]> s).
Proof.
  unfold io_bind, save_object, load_object, io_try_custom. simpl.
  by rewrite lookup_insert_eq.
Qed.

Lemma read_to_csv path df s :
  io_bind (to_csv path df) (fun _ => read_csv path) s = (Ok df, <[path := ACsv df]> s).
Proof. unfold io_bind, to_csv, read_csv. by rewrite lookup_insert_eq. Qed.

(** ** Operations that only read *)


Lemma io_ret_read_only {A} (a : A) : read_only (io_ret a).
Proof. done. Qed.

Lemma io_lift_read_only {A} (r : result A) : read_only (io_lift r).
Proof. done. Qed.

Lemma io_bind_read_only {A B} (m : io A) (k : A -> io B) :
  read_only m -> (forall a, read_only (k a)) -> read_only (io_bind m k).
Proof.
  intros Hm Hk s. unfold io_bind. specialize (Hm s).
  destruct (m s) as [[a|e] s']; simpl in *; subst; [apply Hk|done].
Qed.

Lemma io_try_custom_read_only {A} (m : io A) : read_only m -> read_only (io_try_custom m).
Proof. intros Hm s. unfold io_try_custom. specialize (Hm s). by destruct (m s). Qed.

Lemma read_csv_read_only path : read_only (read_csv path).
Proof. intros s. unfold read_csv. by repeat case_match. Qed.

Lemma load_object_read_only path : read_only (load_object path).
Proof. intros s. unfold load_object. by repeat case_match. Qed.

#[export] Hint Resolve io_ret_read_only io_lift_read_only io_bind_read_only
  io_try_custom_read_only read_csv_read_only load_object_read_only : pyml.
