(* ===== verification/DataTransformation.v ===== *)
(** * DataTransformation: [DataTransformation.initiate_data_transformation]

    src/src/components/data_transformation.py, lines 79-134: read the two
    partitions, split each into its input columns and its [math_score]
    target, fit the preprocessor on the training inputs only
    ([fit_transform]), replay it on the test inputs ([transform]), append the
    target as the last column ([np.c_]), and pickle the fitted preprocessor
    to [artifacts/preprocessor.pkl].  Any exception is wrapped once in
    [CustomException]. *)

From S2P Require Import Prelude Frame Imputer Encoder Scaler Pipeline.
From S2P Require Import ColumnTransformer Preprocessor Store.

(** [@dataclass DataTransformationConfig] (lines 19-21).  Its one line has
    no type annotation, so it is a class attribute, not a dataclass field:
    [DataTransformationConfig()] takes no argument and the instance reads
    the path from its class. *)
Module DataTransformationConfig.
Record t : Type := mk {}.

Definition preprocessor_obj_file_path : string := os_path_join "artifacts" "preprocessor.pkl".
End DataTransformationConfig.

(** [DataTransformation.__init__] (lines 25-27). *)
Definition data_transformation_config : DataTransformationConfig.t := DataTransformationConfig.mk.

(** [self.data_transformation_config.preprocessor_obj_file_path] (lines 123
    and 130): the attribute lookup falls back to the class. *)
Definition preprocessor_obj_file_path : string :=
  match data_transformation_config with
  | DataTransformationConfig.mk => DataTransformationConfig.preprocessor_obj_file_path
  end.

(** Line 96. *)
Definition target_column_name : string := "math_score".

(** An entry of [np.array(target_feature_df)]: numeric, NaN for a gap.  A
    string target is reported here (numpy would build a string array and
    the failure would surface in the model trainer). *)
Definition target_value (c : cell) : result float :=
  match c with
  | CNum x => Ok x
  | CNaN => Ok nan
  | CStr _ => Err (ValueError "could not convert string to float")
  | CNone => Err (TypeError "float() argument must be a string or a real number, not 'NoneType'")
  end.

Definition concat_error : exn :=
  ValueError "all the input array dimensions except for the concatenation axis must match exactly".

(** [np.c_[X, np.array(y)]]: the target becomes the last column.  A sparse
    [X] is wrapped by numpy as a single object and does not stack with the
    target column. *)
Definition np_c (X : list (list float)) (sparse : bool) (y : list cell)
  : result (list (list float)) :=
  if sparse then Err concat_error
  else
    let* ys := mapM target_value y in
    if Nat.eqb (length X) (length ys) then Ok (zip_with (fun r v => r ++ [v]) X ys)
    else Err concat_error.

(** Lines 101-117: everything between reading the files and pickling. *)
Definition transform_partitions (train_df test_df : frame)
  : result (Preprocessor.state * list (list float) * list (list float)) :=
  let* input_feature_train_df := drop_column train_df target_column_name in
  let* target_feature_train_df := get_column train_df target_column_name in
  let* input_feature_test_df := drop_column test_df target_column_name in
  let* target_feature_test_df := get_column test_df target_column_name in
  let* '(st, input_feature_train_arr) := Preprocessor.fit_transform input_feature_train_df in
  let* input_feature_test_arr := Preprocessor.transform st input_feature_test_df in
  let sparse := ColumnTransformer.sparse_output_ _ _ st in
  let* train_arr := np_c input_feature_train_arr sparse target_feature_train_df in
  let* test_arr := np_c input_feature_test_arr sparse target_feature_test_df in
  Ok (st, train_arr, test_arr).

(** Lines 79-134. *)
Definition initiate_data_transformation (train_path test_path : string)
  : io (list (list float) * list (list float) * string) :=
  io_try_custom (
    let! train_df := read_csv train_path in
    let! test_df := read_csv test_path in
    let! '(st, train_arr, test_arr) := io_lift (transform_partitions train_df test_df) in
    let! _ := save_object preprocessor_obj_file_path (OPreprocessor st) in
    io_ret (train_arr, test_arr, preprocessor_obj_file_path)).

(** ** Theorems *)

(** [Preprocessor.fit_transform] succeeds exactly when [fit] then
    [transform] on the same frame do, with the same results. *)
Lemma fit_transform_Ok df st X :
  Preprocessor.fit_transform df = Ok (st, X) <->
  Preprocessor.fit df = Ok st /\ Preprocessor.transform st df = Ok X.
Proof.
  destruct Preprocessor.num_pipeline_laws as (Hft1 & _ & _),
    Preprocessor.cat_pipeline_laws as (Hft2 & _ & _).
  unfold Preprocessor.fit_transform, Preprocessor.fit, Preprocessor.transform.
  rewrite (ColumnTransformer.fit_transform_replay _ _ _ _ _ _ Hft1 Hft2).
  destruct (ColumnTransformer.fit _ _ _ _ _ _ df) as [st'|]; cbn [rbind];
    [|split; [intros ?; discriminate|intros [? ?]; discriminate]].
  destruct (ColumnTransformer.transform _ _ _ _ st' df) as [X'|] eqn:E; cbn [rbind];
    [|split; [intros ?; discriminate|intros [[= <-] ?]; congruence]].
  split; [by intros [= <- <-]; split|].
  intros [[= <-] HX]. rewrite E in HX. by injection HX as <-.
Qed.

Lemma np_c_dense X y ys :
  mapM target_value y = Ok ys -> length X = length ys ->
  np_c X false y = Ok (zip_with (fun r v => r ++ [v]) X ys).
Proof. intros Hy Hl. unfold np_c. rewrite Hy. simpl. by rewrite Hl, Nat.eqb_refl. Qed.

Lemma np_c_Ok X sp y A :
  np_c X sp y = Ok A ->
  sp = false /\ exists ys, mapM target_value y = Ok ys /\ length X = length ys /\
                           A = zip_with (fun r v => r ++ [v]) X ys.
Proof.
  unfold np_c. destruct sp; [done|]. intros H. inv_ok. split; [done|].
  exists a. destruct (Nat.eqb_spec (length X) (length a)); [|done].
  injection H as <-. done.
Qed.

Lemma transform_partitions_Ok train_df test_df st A B :
  transform_partitions train_df test_df = Ok (st, A, B) ->
  exists ftr fte ytr yte Xtr Xte,
    drop_column train_df target_column_name = Ok ftr /\
    drop_column test_df target_column_name = Ok fte /\
    get_column train_df target_column_name = Ok ytr /\
    get_column test_df target_column_name = Ok yte /\
    Preprocessor.fit ftr = Ok st /\
    Preprocessor.transform st ftr = Ok Xtr /\
    Preprocessor.transform st fte = Ok Xte /\
    np_c Xtr false ytr = Ok A /\ np_c Xte false yte = Ok B.
Proof.
  unfold transform_partitions.
  destruct (drop_column train_df _) as [ftr|] eqn:E1; cbn [rbind]; [|done].
  destruct (get_column train_df _) as [ytr|] eqn:E2; cbn [rbind]; [|done].
  destruct (drop_column test_df _) as [fte|] eqn:E3; cbn [rbind]; [|done].
  destruct (get_column test_df _) as [yte|] eqn:E4; cbn [rbind]; [|done].
  destruct (Preprocessor.fit_transform ftr) as [[st' Xtr]|] eqn:E5; cbn [rbind]; [|done].
  apply fit_transform_Ok in E5 as [E5 E6].
  destruct (Preprocessor.transform st' fte) as [Xte|] eqn:E7; cbn [rbind]; [|done].
  destruct (np_c Xtr _ ytr) as [A'|] eqn:E8; cbn [rbind]; [|done].
  destruct (np_c Xte _ yte) as [B'|] eqn:E9; cbn [rbind]; [|done].
  intros [= <- <- <-].
  destruct (np_c_Ok _ _ _ _ E8) as [Hsp _]. rewrite Hsp in E8, E9.
  exists ftr, fte, ytr, yte, Xtr, Xte. done.
Qed.

(** A successful run fits the preprocessor on the training inputs alone,
    pickles exactly that fitted state, and returns the training and test
    inputs as that state transforms them, each row followed by its target. *)
Theorem initiate_data_transformation_Ok train_path test_path s A B p s' :
  initiate_data_transformation train_path test_path s = (Ok (A, B, p), s') ->
  exists train_df test_df ftr fte ytr yte st Xtr Xte,
    s !! train_path = Some (ACsv train_df) /\ s !! test_path = Some (ACsv test_df) /\
    drop_column train_df target_column_name = Ok ftr /\
    drop_column test_df target_column_name = Ok fte /\
    get_column train_df target_column_name = Ok ytr /\
    get_column test_df target_column_name = Ok yte /\
    Preprocessor.fit ftr = Ok st /\
    Preprocessor.transform st ftr = Ok Xtr /\
    Preprocessor.transform st fte = Ok Xte /\
    np_c Xtr false ytr = Ok A /\ np_c Xte false yte = Ok B /\
    p = preprocessor_obj_file_path /\
    s' = <[preprocessor_obj_file_path := APickle (OPreprocessor st)]> s.
Proof.
  unfold initiate_data_transformation, io_try_custom, io_bind, read_csv, io_lift,
    save_object, io_try_custom, io_ret.
  destruct (s !! train_path) as [[train_df|]|] eqn:Htr; try done.
  destruct (s !! test_path) as [[test_df|]|] eqn:Hte; try done.
  destruct (transform_partitions train_df test_df) as [[[st A'] B']|] eqn:Hp; [|done].
  simpl. intros [= <- <- <- <-].
  destruct (transform_partitions_Ok _ _ _ _ _ Hp)
    as (ftr & fte & ytr & yte & Xtr & Xte & ? & ? & ? & ? & ? & ? & ? & ? & ?).
  exists train_df, test_df, ftr, fte, ytr, yte, st, Xtr, Xte. done.
Qed.

(** C15. The pickled preprocessor, loaded back, replays the training output:
    its [transform] of the training inputs gives the returned training
    array without its target column. *)
Corollary saved_preprocessor_roundtrip train_path test_path s A B p s' :
  initiate_data_transformation train_path test_path s = (Ok (A, B, p), s') ->
  exists st train_df ftr X ys,
    s !! train_path = Some (ACsv train_df) /\
    drop_column train_df target_column_name = Ok ftr /\
    load_object p s' = (Ok (OPreprocessor st), s') /\
    Preprocessor.transform st ftr = Ok X /\
    length X = length ys /\ A = zip_with (fun r v => r ++ [v]) X ys.
Proof.
  intros (train_df & test_df & ftr & fte & ytr & yte & st & Xtr & Xte &
          Htr & _ & Hftr & _ & _ & _ & _ & HXtr & _ & HA & _ & -> & ->)%initiate_data_transformation_Ok.
  destruct (np_c_Ok _ _ _ _ HA) as (_ & ys & _ & Hl & ->).
  exists st, train_df, ftr, Xtr, ys. split_and!; try done.
  unfold load_object, io_try_custom. by rewrite lookup_insert_eq.
Qed.

(** C20. A training file without the [math_score] column makes the run raise the
    wrapped [KeyError], and nothing is written. *)
Theorem initiate_data_transformation_no_target train_path test_path s train_df test_df :
  s !! train_path = Some (ACsv train_df) -> s !! test_path = Some (ACsv test_df) ->
  target_column_name ∉ columns train_df ->
  initiate_data_transformation train_path test_path s =
  (Err (CustomException (KeyError target_column_name)), s).
Proof.
  intros Htr Hte Hnot.
  unfold initiate_data_transformation, io_try_custom, io_bind, read_csv, io_lift.
  rewrite Htr, Hte. unfold transform_partitions, drop_column.
  by rewrite (proj2 (col_index_None _ _) Hnot).
Qed.

(** C19. When the fitted preprocessor's output is sparse, [np.c_] cannot append
    the target and the run raises, before anything is pickled. *)
Theorem initiate_data_transformation_sparse train_path test_path s train_df test_df
    ftr fte ytr yte st Xtr Xte :
  s !! train_path = Some (ACsv train_df) -> s !! test_path = Some (ACsv test_df) ->
  drop_column train_df target_column_name = Ok ftr ->
  get_column train_df target_column_name = Ok ytr ->
  drop_column test_df target_column_name = Ok fte ->
  get_column test_df target_column_name = Ok yte ->
  Preprocessor.fit ftr = Ok st -> Preprocessor.transform st ftr = Ok Xtr ->
  Preprocessor.transform st fte = Ok Xte ->
  ColumnTransformer.sparse_output_ _ _ st = true ->
  initiate_data_transformation train_path test_path s = (Err (CustomException concat_error), s).
Proof.
  intros Htr Hte H1 H2 H3 H4 H5 H6 H7 Hsp.
  unfold initiate_data_transformation, io_try_custom, io_bind, read_csv, io_lift.
  rewrite Htr, Hte. unfold transform_partitions. rewrite H1, H2, H3, H4. cbn [rbind].
  rewrite (proj2 (fit_transform_Ok _ _ _) (conj H5 H6)). cbn [rbind].
  rewrite H7. cbn [rbind]. by rewrite Hsp.
Qed.

(** C8. The preprocessor is fitted on the training file alone: two successful
    runs over stores that hold the same training file return the same
    training array and pickle the same preprocessor, whatever the test
    file holds. *)
Theorem fit_ignores_test_file train_path test_path s1 s2 A1 B1 p1 s1' A2 B2 p2 s2' :
  s1 !! train_path = s2 !! train_path ->
  initiate_data_transformation train_path test_path s1 = (Ok (A1, B1, p1), s1') ->
  initiate_data_transformation train_path test_path s2 = (Ok (A2, B2, p2), s2') ->
  A1 = A2 /\
  s1' !! preprocessor_obj_file_path = s2' !! preprocessor_obj_file_path.
Proof.
  intros Heq
    (tr1 & _ & ftr1 & _ & ytr1 & _ & st1 & Xtr1 & _ & Htr1 & _ & Hf1 & _ & Hy1 & _ &
     Hfit1 & HX1 & _ & HA1 & _ & _ & ->)%initiate_data_transformation_Ok
    (tr2 & _ & ftr2 & _ & ytr2 & _ & st2 & Xtr2 & _ & Htr2 & _ & Hf2 & _ & Hy2 & _ &
     Hfit2 & HX2 & _ & HA2 & _ & _ & ->)%initiate_data_transformation_Ok.
  rewrite Heq, Htr2 in Htr1. simplify_eq.
  rewrite Hf2 in Hf1. simplify_eq. rewrite Hy2 in Hy1. simplify_eq.
  rewrite Hfit2 in Hfit1. simplify_eq. rewrite HX2 in HX1. simplify_eq.
  rewrite HA2 in HA1. simplify_eq. by rewrite !lookup_insert_eq.
Qed.

