(* ===== verification/DataIngestion.v ===== *)
(** * DataIngestion: [DataIngestion.initiate_data_ingestion]

    src/src/components/data_ingestion.py, lines 17-62: read
    [notebook/data/stud.csv], write a raw copy, split it with
    [train_test_split(df, test_size=0.2, random_state=42)] and write the two
    partitions.  The split is sklearn's [ShuffleSplit]: [n_test =
    ceil(0.2 * n)] (a float product), [n_train = n - n_test], an empty
    training set raises [ValueError], and the rows are taken in the order of
    a permutation of [0 .. n-1] drawn from [np.random.RandomState(42)].  The
    generator is a library the model does not reimplement: the split takes
    it as a parameter [perm] (seed, size) and the theorems assume only that
    it returns a permutation. *)

From S2P Require Import Prelude Frame Preprocessor Store.
From Stdlib Require Import ZArith.

(** [@dataclass DataIngestionConfig] (lines 18-22): three paths, each with
    its default. *)
Module DataIngestionConfig.
Record t : Type := mk {
  train_data_path : string;
  test_data_path : string;
  raw_data_path : string
}.

(** [DataIngestionConfig()]: the defaults of lines 20-22. *)
Definition default : t :=
  mk (os_path_join "artifacts" "train.csv") (os_path_join "artifacts" "test.csv")
     (os_path_join "artifacts" "data.csv").
End DataIngestionConfig.

(** [DataIngestion.__init__] (lines 26-28): [self.ingestion_config]. *)
Definition ingestion_config : DataIngestionConfig.t := DataIngestionConfig.default.

(** [self.ingestion_config.train_data_path] and the like, as the
    methods read them. *)
Definition train_data_path : string := DataIngestionConfig.train_data_path ingestion_config.
Definition test_data_path : string := DataIngestionConfig.test_data_path ingestion_config.
Definition raw_data_path : string := DataIngestionConfig.raw_data_path ingestion_config.
(** Line 35. *)
Definition source_data_path : string := "notebook/data/stud.csv".

(** [test_size=0.2] and [random_state=42] (line 46). *)
Definition test_size : float := 0x1.999999999999ap-3.
Definition random_state : Z := 42.

(** [rng.permutation(n)] of the generator seeded with the given state. *)
Definition rng : Type := Z -> nat -> list nat.

(** [math.ceil] on the non-negative floats, from the float's exact value
    [m * 2^e]. *)
Definition float_ceil (x : float) : nat :=
  match Prim2SF x with
  | S754_finite false m e =>
      if Z.leb 0 e then Z.to_nat (Z.pos m * 2 ^ e)
      else Z.to_nat (- (- Z.pos m / 2 ^ (- e)))
  | _ => 0
  end.

(** [_validate_shuffle_split(n_samples, test_size=0.2, train_size=None)] *)
Definition split_sizes (n : nat) : result (nat * nat) :=
  let n_test := float_ceil (test_size * float_of_nat n)%float in
  let n_train := n - n_test in
  if Nat.eqb n_train 0
  then Err (ValueError "the resulting train set will be empty")
  else Ok (n_train, n_test).

(** [df.iloc[idx]] *)
Definition pick_rows (df : frame) (idx : list nat) : frame :=
  mkFrame (columns df) (omap (fun i => rows df !! i) idx).

(** [train_test_split(df, test_size=0.2, random_state=42)]: the test rows are
    the first [n_test] positions of the permutation, the training rows the
    next [n_train]. *)
Definition train_test_split (perm : rng) (df : frame) : result (frame * frame) :=
  let n := length (rows df) in
  let* '(n_train, n_test) := split_sizes n in
  let p := perm random_state n in
  Ok (pick_rows df (take n_train (drop n_test p)), pick_rows df (take n_test p)).

(** Lines 31-62 ([os.makedirs] has no counterpart in the store). *)
Definition initiate_data_ingestion (perm : rng) : io (string * string) :=
  io_try_custom (
    let! df := read_csv source_data_path in
    let! _ := to_csv raw_data_path df in
    let! '(train_set, test_set) := io_lift (train_test_split perm df) in
    let! _ := to_csv train_data_path train_set in
    let! _ := to_csv test_data_path test_set in
    io_ret (train_data_path, test_data_path)).

(** ** The split sizes

    [float_ceil (0.2 * n)] is checked against [(n + 4) / 5] for every
    [n <= 5000] by evaluation (the data set has 1000 rows); the floats
    involved are exact enough there that the product never crosses an
    integer. *)

Definition n_test_bound : nat := 5000.

Lemma n_test_table :
  forallb (fun n => Nat.eqb (float_ceil (test_size * float_of_nat n)%float) ((n + 4) / 5))
    (seq 0 (S n_test_bound)) = true.
Proof. vm_compute. reflexivity. Qed.

Lemma float_ceil_test_size n :
  n <= n_test_bound -> float_ceil (test_size * float_of_nat n)%float = (n + 4) / 5.
Proof.
  intros Hn. apply Nat.eqb_eq.
  refine (proj1 (forallb_forall _ _) n_test_table n _).
  apply in_seq. split; [apply Nat.le_0_l|apply Nat.lt_succ_r, Hn].
Qed.

(** [ShuffleSplit] sizes: [ceil(0.2 n)] test rows and the rest for
    training; fewer than two rows leave the training set empty and raise. *)
Theorem split_sizes_spec n :
  n <= n_test_bound ->
  split_sizes n =
  if Nat.leb n 1 then Err (ValueError "the resulting train set will be empty")
  else Ok (n - (n + 4) / 5, (n + 4) / 5).
Proof.
  intros Hn. unfold split_sizes. cbv zeta. rewrite float_ceil_test_size by done.
  destruct (Nat.leb_spec n 1), (Nat.eqb_spec (n - (n + 4) / 5) 0); try done;
    pose proof (Nat.div_mod (n + 4) 5 ltac:(lia));
    pose proof (Nat.mod_upper_bound (n + 4) 5 ltac:(lia)); lia.
Qed.

Lemma split_sizes_Ok n n_train n_test :
  split_sizes n = Ok (n_train, n_test) -> n_train + n_test = n /\ n_train <> 0.
Proof.
  unfold split_sizes. cbv zeta. set (k := float_ceil _).
  destruct (Nat.eqb_spec (n - k) 0); [done|]. intros [= <- <-]. lia.
Qed.

(** ** The partition *)

Lemma pick_rows_length df idx :
  Forall (fun i => i < length (rows df)) idx ->
  length (rows (pick_rows df idx)) = length idx.
Proof.
  induction 1 as [|i idx Hi _ IH]; [done|]. simpl.
  destruct (lookup_lt_is_Some_2 _ _ Hi) as [r Hr]. rewrite Hr. simpl.
  f_equal. exact IH.
Qed.

Lemma pick_rows_app df idx1 idx2 :
  rows (pick_rows df idx1) ++ rows (pick_rows df idx2) = rows (pick_rows df (idx1 ++ idx2)).
Proof. simpl. by rewrite omap_app. Qed.

Lemma pick_rows_perm df p :
  p ≡ₚ seq 0 (length (rows df)) -> rows (pick_rows df p) ≡ₚ rows df.
Proof.
  intros Hp. simpl. rewrite Hp. by rewrite omap_lookup_seq.
Qed.

Lemma perm_bounded df p :
  p ≡ₚ seq 0 (length (rows df)) -> Forall (fun i => i < length (rows df)) p.
Proof.
  intros Hp. apply Forall_forall. intros i Hi.
  apply list_elem_of_In, (Permutation_in _ Hp), in_seq in Hi. lia.
Qed.

(** With a generator that returns a permutation of the row positions, the
    two partitions keep the frame's columns, the test rows followed by the
    training rows are a rearrangement of the frame's rows, and the sizes are
    [ShuffleSplit]'s. *)
Theorem train_test_split_partition perm df tr te :
  perm random_state (length (rows df)) ≡ₚ seq 0 (length (rows df)) ->
  train_test_split perm df = Ok (tr, te) ->
  columns tr = columns df /\ columns te = columns df /\
  rows te ++ rows tr ≡ₚ rows df /\
  exists n_train n_test, split_sizes (length (rows df)) = Ok (n_train, n_test) /\
    length (rows tr) = n_train /\ length (rows te) = n_test.
Proof.
  intros Hp. unfold train_test_split.
  set (n := length (rows df)) in *. set (p := perm random_state n) in *.
  destruct (split_sizes n) as [[n_train n_test]|] eqn:Hs; [simpl|done].
  intros [= <- <-]. split_and!; [done|done| |].
  - destruct (split_sizes_Ok _ _ _ Hs) as [Hsum _].
    assert (length p = n) as Hlen by (rewrite Hp, length_seq; done).
    rewrite pick_rows_app.
    rewrite (take_ge (drop n_test p)) by (rewrite length_drop; lia).
    rewrite take_drop. by apply pick_rows_perm.
  - exists n_train, n_test. split; [done|].
    destruct (split_sizes_Ok _ _ _ Hs) as [Hsum _].
    assert (length p = n) as Hlen by (rewrite Hp, length_seq; done).
    pose proof (perm_bounded df p Hp) as Hb.
    rewrite !pick_rows_length.
    + rewrite !length_take, !length_drop. split; lia.
    + by apply Forall_take.
    + by apply Forall_take, Forall_drop.
Qed.

(** ** The ingestion run *)

(** C21. A successful run on a source of [n] rows ([2 <= n <= 5000]): the raw
    copy and the two partitions are written, in that order, the partitions
    keep the source's columns, split its rows between them, and the test
    partition holds [ceil(0.2 n)] rows. *)
Theorem initiate_data_ingestion_Ok perm s df :
  s !! source_data_path = Some (ACsv df) ->
  perm random_state (length (rows df)) ≡ₚ seq 0 (length (rows df)) ->
  2 <= length (rows df) <= n_test_bound ->
  exists tr te,
    initiate_data_ingestion perm s =
      (Ok (train_data_path, test_data_path),
       <[test_data_path := ACsv te]> (<[train_data_path := ACsv tr]>
         (<[raw_data_path := ACsv df]> s))) /\
    columns tr = columns df /\ columns te = columns df /\
    rows te ++ rows tr ≡ₚ rows df /\
    length (rows te) = (length (rows df) + 4) / 5 /\
    length (rows tr) = length (rows df) - (length (rows df) + 4) / 5.
Proof.
  intros Hsrc Hp Hn.
  assert (split_sizes (length (rows df)) =
          Ok (length (rows df) - (length (rows df) + 4) / 5, (length (rows df) + 4) / 5))
    as Hs by (rewrite split_sizes_spec by lia; destruct (Nat.leb_spec (length (rows df)) 1); [lia|done]).
  destruct (train_test_split perm df) as [[tr te]|e] eqn:Hsplit.
  - destruct (train_test_split_partition _ _ _ _ Hp Hsplit)
      as (Hc1 & Hc2 & Hperm & n_train & n_test & Hs' & Hl1 & Hl2).
    rewrite Hs in Hs'. injection Hs' as <- <-.
    exists tr, te. split_and!; try done.
    unfold initiate_data_ingestion, io_try_custom, io_bind, read_csv, to_csv, io_lift, io_ret.
    by rewrite Hsrc, Hsplit.
  - unfold train_test_split in Hsplit. by rewrite Hs in Hsplit.
Qed.

(** C22. A source of fewer than two rows leaves the training set empty: the run
    raises the wrapped [ValueError] after the raw copy has been written. *)
Theorem initiate_data_ingestion_too_few_rows perm s df :
  s !! source_data_path = Some (ACsv df) -> length (rows df) <= 1 ->
  initiate_data_ingestion perm s =
  (Err (CustomException (ValueError "the resulting train set will be empty")),
   <[raw_data_path := ACsv df]> s).
Proof.
  intros Hsrc Hn.
  unfold initiate_data_ingestion, io_try_custom, io_bind, read_csv, to_csv, io_lift.
  rewrite Hsrc. unfold train_test_split.
  rewrite split_sizes_spec by (unfold n_test_bound; lia).
  by destruct (Nat.leb_spec (length (rows df)) 1); [|lia].
Qed.

(** C23. Without the source file the run raises the wrapped [FileNotFoundError]
    and writes nothing. *)
Theorem initiate_data_ingestion_no_source perm s :
  s !! source_data_path = None ->
  initiate_data_ingestion perm s =
  (Err (CustomException (FileNotFoundError source_data_path)), s).
Proof.
  intros Hsrc. unfold initiate_data_ingestion, io_try_custom, io_bind, read_csv.
  by rewrite Hsrc.
Qed.

