(* ===== verification/PredictPipeline.v ===== *)
(** * PredictPipeline: [PredictPipeline.predict] and [CustomData]

    src/src/pipeline/predict_pipeline.py.  [predict] (lines 14-36) loads the
    pickled model and preprocessor from their fixed paths, transforms the
    given frame with the preprocessor and runs the model on the result; any
    exception is wrapped once in [CustomException].  The loaded objects are used by duck typing: a
    pickle holding the other kind of object has no [transform] or no
    [predict] and raises [AttributeError].  [CustomData] (lines 39-77) holds
    the seven form fields and builds the one-row frame of
    [get_data_as_data_frame]; a field the form did not send is [None]. *)

From S2P Require Import Prelude Frame Preprocessor Store.



Module CustomData.

(** Lines 41-56: the attributes of a [CustomData]. *)
Record t : Type := mk {
  gender : option string;
  race_ethnicity : option string;
  parental_level_of_education : option string;
  lunch : option string;
  test_preparation_course : option string;
  reading_score : float;
  writing_score : float
}.

(** A string attribute in an object column; [None] stays [None]. *)
Definition str_cell (v : option string) : cell :=
  match v with
  | Some s => CStr s
  | None => CNone
  end.

(** Lines 59-77: [pd.DataFrame(custom_data_input_dict)]. *)
Definition get_data_as_data_frame (d : t) : result frame :=
  try_custom (frame_of_dict
    [("gender", [str_cell (gender d)]);
     ("race_ethnicity", [str_cell (race_ethnicity d)]);
     ("parental_level_of_education", [str_cell (parental_level_of_education d)]);
     ("lunch", [str_cell (lunch d)]);
     ("test_preparation_course", [str_cell (test_preparation_course d)]);
     ("reading_score", [CNum (reading_score d)]);
     ("writing_score", [CNum (writing_score d)])]).

(** The labels of that frame. *)
Definition labels : list string :=
  ["gender"; "race_ethnicity"; "parental_level_of_education"; "lunch";
   "test_preparation_course"; "reading_score"; "writing_score"].

(** Its single row. *)
Definition row (d : t) : list cell :=
  [str_cell (gender d); str_cell (race_ethnicity d);
   str_cell (parental_level_of_education d); str_cell (lunch d);
   str_cell (test_preparation_course d); CNum (reading_score d); CNum (writing_score d)].

End CustomData.

Module PredictPipeline.

(** Lines 17-18. *)
Definition model_path : string := os_path_join "artifacts" "model.pkl".
Definition preprocessor_path : string := os_path_join "artifacts" "preprocessor.pkl".

(** [preprocessor.transform(features)] on the unpickled object. *)
Definition obj_transform (o : pyobj) (features : frame) : result (list (list float)) :=
  match o with
  | OPreprocessor st => Preprocessor.transform st features
  | OModel _ => Err (AttributeError "object has no attribute 'transform'")
  end.

(** [model.predict(data_scaled)]: sklearn's [_check_n_features] first, then
    one prediction per row. *)
Definition obj_predict (o : pyobj) (X : list (list float)) : result (list float) :=
  match o with
  | OModel m =>
      if forallb (fun x => Nat.eqb (length x) (n_features_in_ m)) X
      then Ok (map (predict_row m) X)
      else Err (ValueError "X has a different number of features than the model was fitted on")
  | OPreprocessor _ => Err (AttributeError "'ColumnTransformer' object has no attribute 'predict'")
  end.

(** Lines 14-36. *)
Definition predict (features : frame) : io (list float) :=
  io_try_custom (
    let! model := load_object model_path in
    let! preprocessor := load_object preprocessor_path in
    let! data_scaled := io_lift (obj_transform preprocessor features) in
    io_lift (obj_predict model data_scaled)).

End PredictPipeline.

(** ** Theorems *)

Import PredictPipeline.

(** [predict] only reads the store. *)
Lemma predict_read_only features : read_only (PredictPipeline.predict features).
Proof. unfold PredictPipeline.predict. auto with pyml. Qed.

Lemma obj_predict_Ok m X :
  Forall (fun x => length x = n_features_in_ m) X ->
  obj_predict (OModel m) X = Ok (map (predict_row m) X).
Proof.
  intros HX. simpl. rewrite (proj2 (forallb_forall _ _)); [done|].
  intros x Hx%list_elem_of_In. apply Nat.eqb_eq. by eapply Forall_forall in HX.
Qed.

(** With the model and the preprocessor in place, a frame the preprocessor
    transforms into rows of the width the model was fitted on is predicted
    row by row, and the store is left as it was. *)
Theorem predict_Ok s m st features X :
  s !! model_path = Some (APickle (OModel m)) ->
  s !! preprocessor_path = Some (APickle (OPreprocessor st)) ->
  Preprocessor.transform st features = Ok X ->
  Forall (fun x => length x = n_features_in_ m) X ->
  predict features s = (Ok (map (predict_row m) X), s).
Proof.
  intros Hm Hp HX Hw.
  unfold PredictPipeline.predict, io_try_custom, io_bind, load_object, io_try_custom, io_lift.
  rewrite Hm, Hp. cbn -[obj_predict]. rewrite HX. cbn -[obj_predict]. by rewrite obj_predict_Ok.
Qed.

(** C24. A failing [transform] (a missing column, an unknown category, a
    non-numeric score) surfaces as that error wrapped in
    [CustomException]. *)
Theorem predict_transform_error s m st features e :
  s !! model_path = Some (APickle (OModel m)) ->
  s !! preprocessor_path = Some (APickle (OPreprocessor st)) ->
  Preprocessor.transform st features = Err e ->
  predict features s = (Err (CustomException e), s).
Proof.
  intros Hm Hp He.
  unfold PredictPipeline.predict, io_try_custom, io_bind, load_object, io_try_custom, io_lift.
  rewrite Hm, Hp. simpl. by rewrite He.
Qed.

(** C25. A missing artifact makes [predict] fail with a wrapped error
    (spec, Predict Pipeline): without the model file, or with the model but
    without the preprocessor file, [predict] raises [CustomException] around
    the [FileNotFoundError] of the missing path, and reads nothing more. *)
Theorem predict_missing_artifact s features p :
  (p = model_path /\ s !! model_path = None) \/
  (p = preprocessor_path /\ (exists o, s !! model_path = Some (APickle o)) /\
   s !! preprocessor_path = None) ->
  predict features s = (Err (CustomException (FileNotFoundError p)), s).
Proof.
  intros [[-> Hm]|(-> & [o Hm] & Hp)];
    unfold PredictPipeline.predict, io_try_custom, io_bind, load_object;
    rewrite Hm; [done|]. simpl. by rewrite Hp.
Qed.

(** [get_data_as_data_frame] never raises: it builds the one-row frame of
    the seven attributes under their labels. *)
Lemma get_data_as_data_frame_Ok d :
  CustomData.get_data_as_data_frame d = Ok (mkFrame CustomData.labels [CustomData.row d]).
Proof. reflexivity. Qed.
