(* ===== verification/Training.v ===== *)
(** * Training: the model trainer and the training script

    [ModelTrainer] (src/components/model_trainer.py, imported by
    data_ingestion.py line 14 but not in the repository; modelled from the
    spec, sections 2 and 3): splits each transformed array into its inputs
    (every column but the last) and its target (the last column), selects
    and fits a regressor on the training part (the search is a library call
    the spec excludes, the parameter [learn] here) and pickles it to
    [artifacts/model.pkl].  The score it returns and the script prints is
    not modelled: the trainer returns the fitted model.

    [main] is the script of src/src/components/data_ingestion.py, lines
    65-79: ingestion, transformation, training, in that order, each stage
    consuming what the previous one returned.  The last theorem of the file
    follows a successful run of [main] to the store it leaves and shows that
    [PredictPipeline.predict] on that store, given any training record as a
    one-row frame, returns the trained model's value on exactly the row the
    model was fitted on. *)

From S2P Require Import Prelude Frame Imputer Pipeline ColumnTransformer Preprocessor.
From S2P Require Import Store DataTransformation DataIngestion PredictPipeline.

Module ModelTrainer.

(** [ModelTrainerConfig.trained_model_file_path] *)
Definition trained_model_file_path : string := "artifacts/model.pkl".

(** The model selection: from the training inputs and targets, the
    function the selected regressor computes on one row. *)
Definition learner : Type := list (list float) -> list float -> list float -> float.

(** [array[:, :-1], array[:, -1]] *)
Definition split_xy (arr : list (list float)) : list (list float) * list float :=
  (map (@removelast float) arr, map (fun r => default 0%float (last r)) arr).

Definition initiate_model_trainer (learn : learner) (train_array test_array : list (list float))
  : io regressor :=
  io_try_custom (
    let '(X_train, y_train) := split_xy train_array in
    let model := Regressor (SimpleImputer.n_features X_train) (learn X_train y_train) in
    let! _ := save_object trained_model_file_path (OModel model) in
    io_ret model).

End ModelTrainer.

(** Lines 65-79 of data_ingestion.py. *)
Definition main (perm : rng) (learn : ModelTrainer.learner) : io regressor :=
  let! '(train_data, test_data) := initiate_data_ingestion perm in
  let! '(train_arr, test_arr, _) := initiate_data_transformation train_data test_data in
  ModelTrainer.initiate_model_trainer learn train_arr test_arr.

(** ** Lemmas *)

Lemma initiate_data_ingestion_paths perm s a b s' :
  initiate_data_ingestion perm s = (Ok (a, b), s') ->
  a = train_data_path /\ b = test_data_path.
Proof.
  unfold initiate_data_ingestion, io_try_custom, io_bind, read_csv, to_csv, io_lift, io_ret.
  destruct (s !! source_data_path) as [[df|]|]; simpl; try done.
  destruct (train_test_split perm df) as [[tr te]|]; simpl; [|done].
  by intros [= <- <-].
Qed.

(** Appending a target column and splitting it off again gives back the
    inputs and the targets. *)
Lemma split_xy_np_c X ys :
  length X = length ys ->
  ModelTrainer.split_xy (zip_with (fun r v => r ++ [v]) X ys) = (X, ys).
Proof.
  revert ys. induction X as [|x X IH]; intros [|y ys] Hl; simpl in *; try done.
  unfold ModelTrainer.split_xy in *. simpl.
  rewrite removelast_last, last_snoc. simpl.
  specialize (IH ys ltac:(lia)). injection IH as -> ->. done.
Qed.

Lemma initiate_model_trainer_Ok learn A B m s s' :
  ModelTrainer.initiate_model_trainer learn A B s = (Ok m, s') ->
  m = Regressor (SimpleImputer.n_features (ModelTrainer.split_xy A).1)
                (learn (ModelTrainer.split_xy A).1 (ModelTrainer.split_xy A).2) /\
  s' = <[ModelTrainer.trained_model_file_path := APickle (OModel m)]> s.
Proof.
  unfold ModelTrainer.initiate_model_trainer, io_try_custom, io_bind, save_object,
    io_try_custom, io_ret.
  destruct (ModelTrainer.split_xy A) as [X y]. simpl. by intros [= <- <-].
Qed.

(** ** The train/serve symmetry

    The spec's central contract (sections 1, 3 and 4.3): the transformation
    fitted once during training is replayed unmodified at inference. *)

(** The artifact paths are distinct. *)
Lemma paths_distinct :
  PredictPipeline.model_path <> PredictPipeline.preprocessor_path /\
  PredictPipeline.model_path <> train_data_path /\
  PredictPipeline.preprocessor_path <> train_data_path.
Proof. split_and!; done. Qed.

Lemma model_path_trainer : ModelTrainer.trained_model_file_path = PredictPipeline.model_path.
Proof. done. Qed.

Lemma preprocessor_path_transformation :
  preprocessor_obj_file_path = PredictPipeline.preprocessor_path.
Proof. done. Qed.

(** One row of a frame the fitted preprocessor transformed, alone in a
    frame of the same labels, transforms to the same row. *)
Lemma transform_single_row st df X i r x :
  Preprocessor.transform st df = Ok X -> rows df !! i = Some r -> X !! i = Some x ->
  Preprocessor.transform st (mkFrame (columns df) [r]) = Ok [x].
Proof.
  destruct Preprocessor.num_pipeline_laws as (_ & Hrw1 & Hlp1),
    Preprocessor.cat_pipeline_laws as (_ & Hrw2 & Hlp2).
  intros HX Hr Hx.
  destruct (ColumnTransformer.transform_row_lookup _ _ _ _ Hrw1 Hrw2 Hlp1 Hlp2 _ _ _ _ _ HX Hr)
    as (x' & Hx' & H1).
  by simplify_eq.
Qed.

(** C1. After a successful training run, the store holds the training frame,
    the fitted preprocessor and the model; the model computes what the
    learner made of the preprocessor's output on the training inputs and
    their targets; and serving any training record returns the model's
    value on the very row it was trained on. *)
Theorem train_serve_symmetry perm learn s m s' :
  main perm learn s = (Ok m, s') ->
  exists train_df ftr ytr ys st Xtr,
    s' !! train_data_path = Some (ACsv train_df) /\
    drop_column train_df target_column_name = Ok ftr /\
    get_column train_df target_column_name = Ok ytr /\
    mapM target_value ytr = Ok ys /\
    Preprocessor.fit ftr = Ok st /\
    Preprocessor.transform st ftr = Ok Xtr /\
    s' !! PredictPipeline.preprocessor_path = Some (APickle (OPreprocessor st)) /\
    s' !! PredictPipeline.model_path = Some (APickle (OModel m)) /\
    predict_row m = learn Xtr ys /\
    forall i r x, rows ftr !! i = Some r -> Xtr !! i = Some x ->
      PredictPipeline.predict (mkFrame (columns ftr) [r]) s' = (Ok [predict_row m x], s').
Proof.
  unfold main, io_bind.
  destruct (initiate_data_ingestion perm s) as [[[a b]|e] s1] eqn:Hi; [|done].
  destruct (initiate_data_ingestion_paths _ _ _ _ _ Hi) as [-> ->].
  destruct (initiate_data_transformation _ _ s1) as [[[[A B] p]|e] s2] eqn:Ht; [|done].
  intros (-> & ->)%initiate_model_trainer_Ok.
  destruct (initiate_data_transformation_Ok _ _ _ _ _ _ _ Ht)
    as (train_df & test_df & ftr & fte & ytr & yte & st & Xtr & Xte &
        Htr & _ & Hftr & _ & Hytr & _ & Hfit & HXtr & _ & HA & _ & -> & ->).
  destruct (np_c_Ok _ _ _ _ HA) as (_ & ys & Hys & Hl & ->).
  rewrite split_xy_np_c by done. cbn [fst snd].
  destruct paths_distinct as (Hmp & Hmt & Hpt).
  rewrite model_path_trainer, preprocessor_path_transformation.
  exists train_df, ftr, ytr, ys, st, Xtr. split_and!; try done.
  - by rewrite !lookup_insert_ne by done.
  - by rewrite lookup_insert_ne, lookup_insert_eq by done.
  - by rewrite lookup_insert_eq.
  - intros i r x Hr Hx.
    apply (PredictPipeline.predict_Ok _ _ st _ [x]);
      [by rewrite lookup_insert_eq|by rewrite lookup_insert_ne, lookup_insert_eq by done|
       by eapply transform_single_row|].
    pose proof (transform_width _ _ _ (fit_wf _ _ Hfit) HXtr) as Hw.
    constructor; [|done]. cbn [n_features_in_].
    destruct Xtr as [|x0 Xtr']; [done|]. unfold SimpleImputer.n_features.
    rewrite (proj1 (Forall_forall _ _) Hw x) by (by eapply list_elem_of_lookup_2).
    rewrite (proj1 (Forall_forall _ _) Hw x0) by (by left). done.
Qed.

(** ** Re-running the script *)

