(* ===== verification/PyFloat.v ===== *)
(** * PyFloat: Python's [float()] on a string

    [PyFloat.py_float] is CPython's [float()] on a string, as src/app.py
    lines 33-34 apply it to the two score fields of the form: surrounding
    whitespace is stripped, an optional sign, then [inf]/[infinity]/[nan]
    in any case, or a decimal literal with optional underscores between
    digits, optional fraction and optional exponent, rounded to the nearest
    binary64 (ties to even); anything else raises [ValueError].  Only ASCII
    whitespace is stripped. *)

From S2P Require Import Prelude.
From Stdlib Require Import ZArith Ascii.
From stdpp Require Import pretty.

Module PyFloat.

Local Open Scope Z_scope.

(** [str.isspace] on the ASCII characters. *)
Definition is_space (c : ascii) : bool :=
  let n := nat_of_ascii c in (Nat.eqb n 32 || (Nat.leb 9 n && Nat.leb n 13))%bool.

Fixpoint strip_left (l : list ascii) : list ascii :=
  match l with
  | c :: l' => if is_space c then strip_left l' else l
  | [] => []
  end.

Definition strip (l : list ascii) : list ascii := rev (strip_left (rev (strip_left l))).

Definition digit_val (c : ascii) : option Z :=
  let n := nat_of_ascii c in
  if (Nat.leb 48 n && Nat.leb n 57)%bool then Some (Z.of_nat n - 48) else None.

Definition lower (c : ascii) : ascii :=
  let n := nat_of_ascii c in
  if (Nat.leb 65 n && Nat.leb n 90)%bool then ascii_of_nat (n + 32) else c.

(** [digitpart ::= digit (["_"] digit)*] after its first digit: the value,
    the number of digits and the rest of the input. *)
Fixpoint digitpart_aux (acc : Z) (k : nat) (l : list ascii) : Z * nat * list ascii :=
  match l with
  | c :: l' =>
      match digit_val c with
      | Some d => digitpart_aux (10 * acc + d) (S k) l'
      | None =>
          if Ascii.eqb c "_" then
            match l' with
            | c2 :: l'' =>
                match digit_val c2 with
                | Some d => digitpart_aux (10 * acc + d) (S k) l''
                | None => (acc, k, l)
                end
            | [] => (acc, k, l)
            end
          else (acc, k, l)
      end
  | [] => (acc, k, [])
  end.

Definition digitpart (l : list ascii) : option (Z * nat * list ascii) :=
  match l with
  | c :: l' => match digit_val c with Some d => Some (digitpart_aux d 1 l') | None => None end
  | [] => None
  end.

(** [pointfloat | digitpart]: the digits as an integer, the number of
    fraction digits, the rest. *)
Definition mantissa (l : list ascii) : option (Z * nat * list ascii) :=
  match digitpart l with
  | Some (i, _, rest) =>
      match rest with
      | c :: rest' =>
          if Ascii.eqb c "." then
            match digitpart rest' with
            | Some (f, k, rest'') => Some (i * 10 ^ Z.of_nat k + f, k, rest'')
            | None => Some (i, 0%nat, rest')
            end
          else Some (i, 0%nat, rest)
      | [] => Some (i, 0%nat, [])
      end
  | None =>
      match l with
      | c :: rest' => if Ascii.eqb c "." then digitpart rest' else None
      | [] => None
      end
  end.

Definition sign (l : list ascii) : bool * list ascii :=
  match l with
  | c :: l' => if Ascii.eqb c "-" then (true, l') else if Ascii.eqb c "+" then (false, l') else (false, l)
  | [] => (false, [])
  end.

(** [exponent ::= ("e" | "E") ["+" | "-"] digitpart] *)
Definition exponent (l : list ascii) : option (Z * list ascii) :=
  match l with
  | c :: l' =>
      if Ascii.eqb (lower c) "e" then
        let '(neg, l'') := sign l' in
        match digitpart l'' with
        | Some (v, _, rest) => Some (if neg then - v else v, rest)
        | None => None
        end
      else None
  | [] => None
  end.

(** The binary64 nearest to [num / den] ([num, den > 0]), ties to even:
    the exponent [e] puts the quotient in [[2^52, 2^53)] or is the
    subnormal exponent [-1074]; a mantissa that rounds up to [2^53] moves
    to the next binade; past the largest finite float is infinity. *)
Definition round_ratio (num den : Z) : float :=
  let e0 := Z.log2 num - Z.log2 den - 52 in
  let quo e := if 0 <=? e then num / (den * 2 ^ e) else (num * 2 ^ (- e)) / den in
  let e1 := if quo e0 <? 2 ^ 52 then e0 - 1 else e0 in
  let e := Z.max e1 (-1074) in
  let '(n', d') := if 0 <=? e then (num, den * 2 ^ e) else (num * 2 ^ (- e), den) in
  let q := n' / d' in
  let r := n' mod d' in
  let m := if (2 * r >? d') || ((2 * r =? d') && Z.odd q) then q + 1 else q in
  let '(m, e) := if m =? 2 ^ 53 then (2 ^ 52, e + 1) else (m, e) in
  if 971 <? e then infinity
  else match m with
       | Zpos p => SF2Prim (S754_finite false p e)
       | _ => PrimFloat.zero
       end.

(** [m * 10^x] as a float ([m >= 0]).  Past [10^309] the value rounds to
    infinity and below [10^-325] to zero; the two tests keep the powers of
    ten computed in between small. *)
Definition decimal_value (m x : Z) : float :=
  if m =? 0 then PrimFloat.zero
  else if 309 <=? x then infinity
  else if x + Z.log2 m + 1 <? -324 then PrimFloat.zero
  else if 0 <=? x then round_ratio (m * 10 ^ x) 1
  else round_ratio m (10 ^ (- x)).

Definition special (l : list ascii) : option float :=
  let w := map lower l in
  if bool_decide (w = String.list_ascii_of_string "inf") || bool_decide (w = String.list_ascii_of_string "infinity")
  then Some infinity
  else if bool_decide (w = String.list_ascii_of_string "nan") then Some nan
  else None.

Definition py_float (s : string) : result float :=
  let '(neg, l) := sign (strip (String.list_ascii_of_string s)) in
  let apply_sign f := if neg then (- f)%float else f in
  match special l with
  | Some f => Ok (apply_sign f)
  | None =>
      match mantissa l with
      | Some (m, k, rest) =>
          let '(x, rest') := match exponent rest with Some p => p | None => (0, rest) end in
          match rest' with
          | [] => Ok (apply_sign (decimal_value m (x - Z.of_nat k)))
          | _ => Err (ValueError ("could not convert string to float: '" +:+ s +:+ "'"))
          end
      | None => Err (ValueError ("could not convert string to float: '" +:+ s +:+ "'"))
      end
  end.

End PyFloat.

(** ** A reference for the digit scanner

    The decimal digits [0]-[9] as characters, the integer a digit sequence
    denotes (most significant first), and the characters at which a digit
    sequence ends. *)
Definition digit_char (d : Z) : ascii := ascii_of_nat (Z.to_nat d + 48).

Definition digits_value (ds : list Z) : Z := fold_left (fun a d => 10 * a + d)%Z ds 0%Z.

Definition ends_digits (rest : list ascii) : bool :=
  match rest with
  | [] => true
  | c :: _ => bool_decide (PyFloat.digit_val c = None) && negb (Ascii.eqb c "_")
  end.

(** ** Theorems *)

(** *** The digit scanner *)

Lemma digit_val_char d : (0 <= d <= 9)%Z -> PyFloat.digit_val (digit_char d) = Some d.
Proof.
  intros Hd. assert (d = 0 \/ d = 1 \/ d = 2 \/ d = 3 \/ d = 4 \/ d = 5 \/ d = 6 \/
                     d = 7 \/ d = 8 \/ d = 9)%Z as Hc by lia.
  by repeat destruct Hc as [->|Hc]; [..|subst].
Qed.

Lemma digitpart_aux_digits acc k ds rest :
  Forall (fun d => 0 <= d <= 9)%Z ds -> ends_digits rest = true ->
  PyFloat.digitpart_aux acc k (map digit_char ds ++ rest) =
  (fold_left (fun a d => 10 * a + d)%Z ds acc, (k + length ds)%nat, rest).
Proof.
  intros Hds Hrest. revert acc k. induction Hds as [|d ds Hd _ IH]; intros acc k; simpl.
  - rewrite Nat.add_0_r. destruct rest as [|c rest]; [done|]. simpl in *.
    apply andb_prop in Hrest as [Hc Hu%negb_true_iff]. apply bool_decide_eq_true in Hc.
    by rewrite Hc, Hu.
  - rewrite digit_val_char by done. rewrite IH. do 2 f_equal. lia.
Qed.

(** The scanner of [digitpart] computes the integer a run of decimal
    digits denotes, counts them and stops where the run ends. *)
Lemma digitpart_digits ds rest :
  ds <> [] -> Forall (fun d => 0 <= d <= 9)%Z ds -> ends_digits rest = true ->
  PyFloat.digitpart (map digit_char ds ++ rest) = Some (digits_value ds, length ds, rest).
Proof.
  intros Hne Hds Hrest. destruct ds as [|d ds]; [done|].
  apply Forall_cons in Hds as [Hd Hds]. simpl. rewrite digit_val_char by done.
  by rewrite digitpart_aux_digits.
Qed.

(** *** Integers are read exactly

    The decimal printing of a natural number is a run of digits
    ([pretty_N_go_digits]); [float()] reads such a run as [decimal_value]
    of its value ([py_float_digits]); and below [2^53] the correctly
    rounded quotient [round_ratio n 1] is the binary64 value of [n], the
    same float as [float_of_nat n] ([round_ratio_of_uint63], through the
    [SpecFloat] description of [PrimFloat]). *)

Section IntegerExactness.
Local Open Scope Z_scope.

Lemma digit_cases d : (0 <= d <= 9)%Z ->
  d = 0%Z \/ d = 1%Z \/ d = 2%Z \/ d = 3%Z \/ d = 4%Z \/ d = 5%Z \/ d = 6%Z \/ d = 7%Z \/ d = 8%Z \/ d = 9%Z.
Proof. lia. Qed.

Lemma digit_char_props d : (0 <= d <= 9)%Z ->
  PyFloat.is_space (digit_char d) = false /\ PyFloat.lower (digit_char d) = digit_char d /\
  Ascii.eqb (digit_char d) "-" = false /\ Ascii.eqb (digit_char d) "+" = false /\
  digit_char d <> "i"%char /\ digit_char d <> "n"%char.
Proof.
  intros Hd. pose proof (digit_cases d Hd) as Hc.
  repeat destruct Hc as [->|Hc]; [..|subst]; split_and!; try reflexivity; vm_compute; discriminate.
Qed.

Lemma pretty_N_char_digit (d : N) : (d < 10)%N -> pretty_N_char d = digit_char (Z.of_N d).
Proof.
  intros Hd. assert (d = 0 \/ d = 1 \/ d = 2 \/ d = 3 \/ d = 4 \/ d = 5 \/ d = 6 \/ d = 7 \/
                     d = 8 \/ d = 9)%N as Hc by lia.
  by repeat destruct Hc as [->|Hc]; [..|subst].
Qed.

Lemma digits_value_snoc ds d : digits_value (ds ++ [d]) = (10 * digits_value ds + d)%Z.
Proof. unfold digits_value. by rewrite fold_left_app. Qed.

Lemma pretty_N_go_digits (x : N) (s : string) :
  exists ds, String.list_ascii_of_string (pretty_N_go x s) =
             map digit_char ds ++ String.list_ascii_of_string s /\
    Forall (fun d => 0 <= d <= 9)%Z ds /\ digits_value ds = Z.of_N x /\ (x <> 0%N -> ds <> []).
Proof.
  revert s. induction (N.lt_wf_0 x) as [x _ IH]; intros s.
  destruct (decide (x = 0%N)) as [->|Hx].
  { exists []. rewrite pretty_N_go_0. done. }
  assert (0 < x)%N as Hpos by lia.
  assert (x `div` 10 < x)%N as Hlt by (apply N.div_lt; [exact Hpos|reflexivity]).
  rewrite pretty_N_go_step by exact Hpos.
  destruct (IH (x `div` 10)%N Hlt
              (String (pretty_N_char (x `mod` 10)) s)) as (ds & Heq & Hds & Hv & _).
  exists (ds ++ [Z.of_N (x `mod` 10)]). split_and!.
  - rewrite Heq. simpl. rewrite map_app, <- app_assoc. simpl.
    by rewrite pretty_N_char_digit by (apply N.mod_lt; discriminate).
  - apply Forall_app. split; [done|]. constructor; [|done].
    assert (x `mod` 10 < 10)%N as Hm by (apply N.mod_lt; discriminate).
    apply N2Z.inj_lt in Hm. pose proof (N2Z.is_nonneg (x `mod` 10)). simpl in Hm. lia.
  - rewrite digits_value_snoc, Hv, N2Z.inj_div, N2Z.inj_mod. simpl.
    pose proof (Z.div_mod (Z.of_N x) 10 ltac:(lia)). lia.
  - intros _. destruct ds; discriminate.
Qed.

Lemma strip_left_no_space l :
  Forall (fun c => PyFloat.is_space c = false) l -> PyFloat.strip_left l = l.
Proof. destruct l as [|c l]; [done|]. intros [Hc _]%Forall_cons. simpl. by rewrite Hc. Qed.

Lemma strip_no_space l :
  Forall (fun c => PyFloat.is_space c = false) l -> PyFloat.strip l = l.
Proof.
  intros H. unfold PyFloat.strip. rewrite (strip_left_no_space l H).
  rewrite strip_left_no_space; [apply rev_involutive|]. by apply Forall_rev.
Qed.

(** [float()] on a run of decimal digits. *)
Lemma py_float_digits s ds :
  String.list_ascii_of_string s = map digit_char ds -> ds <> [] ->
  Forall (fun d => 0 <= d <= 9)%Z ds ->
  PyFloat.py_float s = Ok (PyFloat.decimal_value (digits_value ds) 0).
Proof.
  intros Hs Hne Hds. unfold PyFloat.py_float. rewrite Hs.
  rewrite strip_no_space.
  2:{ apply Forall_map. eapply Forall_impl; [exact Hds|]. intros d Hd.
      apply (digit_char_props d Hd). }
  destruct ds as [|d ds']; [done|]. pose proof Hds as [Hd _]%Forall_cons.
  destruct (digit_char_props d Hd) as (_ & Hlow & Hminus & Hplus & Hi & Hn).
  cbn [map PyFloat.sign]. rewrite Hminus, Hplus.
  assert (PyFloat.special (digit_char d :: map digit_char ds') = None) as ->.
  { unfold PyFloat.special. cbn [map]. rewrite Hlow.
    rewrite !bool_decide_eq_false_2; [done|intros [= Hh _]; contradiction..]. }
  unfold PyFloat.mantissa.
  rewrite <- (app_nil_r (digit_char d :: map digit_char ds')).
  change (digit_char d :: map digit_char ds') with (map digit_char (d :: ds')).
  rewrite (digitpart_digits (d :: ds') []) by done. done.
Qed.

Lemma log2_size q : Z.log2 (Zpos q) = Zpos (Pos.size q) - 1.
Proof. destruct q; simpl; try lia; rewrite Pos2Z.inj_succ; lia. Qed.

Lemma digits2_size q : SpecFloat.digits2_pos q = Pos.size q.
Proof. induction q; simpl; congruence. Qed.

Lemma size_of_bounds q : 2 ^ 52 <= Zpos q < 2 ^ 53 -> Pos.size q = 53%positive.
Proof.
  intros Hq. assert (Z.log2 (Zpos q) = 52) as H by (apply Z.log2_unique; lia).
  rewrite log2_size in H. lia.
Qed.

Lemma iter_xO q k : Zpos (Pos.iter xO q k) = Zpos q * 2 ^ Zpos k.
Proof.
  induction k as [|k IH] using Pos.peano_ind; [simpl; lia|].
  rewrite Pos.iter_succ, Pos2Z.inj_succ, Z.pow_succ_r by lia.
  change (Zpos (xO (Pos.iter xO q k))) with (2 * Zpos (Pos.iter xO q k)). rewrite IH. lia.
Qed.

(** A mantissa of 53 bits with an exponent in the normal range is
    already rounded. *)
Lemma round_aux_exact Mp e :
  2 ^ 52 <= Zpos Mp < 2 ^ 53 -> -1074 <= e <= 971 ->
  SpecFloat.binary_round_aux 53 1024 false (Zpos Mp) e SpecFloat.loc_Exact =
  S754_finite false Mp e.
Proof.
  intros HM He. unfold SpecFloat.binary_round_aux, SpecFloat.shr_fexp.
  assert (SpecFloat.fexp 53 1024 (SpecFloat.Zdigits2 (Zpos Mp) + e) - e = 0) as ->.
  { unfold SpecFloat.fexp, SpecFloat.emin, SpecFloat.Zdigits2.
    rewrite digits2_size, size_of_bounds by done. lia. }
  cbn -[Z.add Z.sub SpecFloat.fexp SpecFloat.Zdigits2].
  assert (SpecFloat.fexp 53 1024 (SpecFloat.Zdigits2 (Zpos Mp) + e) - e = 0) as ->.
  { unfold SpecFloat.fexp, SpecFloat.emin, SpecFloat.Zdigits2.
    rewrite digits2_size, size_of_bounds by done. lia. }
  cbn -[Z.add Z.sub]. destruct (Z.leb_spec e (1024 - 53)); [done|lia].
Qed.

Lemma shifted_bounds q :
  Zpos q < 2 ^ 53 ->
  1 <= Zpos (Pos.size q) <= 53 /\
  2 ^ 52 <= Zpos q * 2 ^ (53 - Zpos (Pos.size q)) < 2 ^ 53.
Proof.
  intros Hq. set (d := Zpos (Pos.size q)).
  assert (2 ^ (d - 1) <= Zpos q < 2 ^ d) as [Hlo Hhi].
  { pose proof (Z.log2_spec (Zpos q) ltac:(lia)) as Hs. rewrite log2_size in Hs.
    fold d in Hs. by replace (Z.succ (d - 1)) with d in Hs by lia. }
  assert (1 <= d) by (unfold d; lia).
  assert (d <= 53).
  { destruct (Z.le_gt_cases d 53) as [|Hd]; [done|].
    assert (2 ^ 53 <= 2 ^ (d - 1)) by (apply Z.pow_le_mono_r; lia). lia. }
  split; [lia|].
  assert (2 ^ (d - 1) * 2 ^ (53 - d) = 2 ^ 52) as H1
    by (rewrite <- Z.pow_add_r by lia; f_equal; lia).
  assert (2 ^ d * 2 ^ (53 - d) = 2 ^ 53) as H2
    by (rewrite <- Z.pow_add_r by lia; f_equal; lia).
  assert (0 < 2 ^ (53 - d)) by (apply Z.pow_pos_nonneg; lia).
  split.
  - rewrite <- H1. apply Z.mul_le_mono_nonneg_r; lia.
  - rewrite <- H2. apply Z.mul_lt_mono_pos_r; lia.
Qed.

Lemma normalize_small q :
  Zpos q < 2 ^ 53 ->
  exists Mp, Zpos Mp = Zpos q * 2 ^ (53 - Zpos (Pos.size q)) /\
    SpecFloat.binary_normalize 53 1024 (Zpos q) 0 false =
    S754_finite false Mp (Zpos (Pos.size q) - 53).
Proof.
  intros Hq. destruct (shifted_bounds q Hq) as [Hd HM].
  assert (SpecFloat.binary_normalize 53 1024 (Zpos q) 0 false =
          let '(mz, ez) := SpecFloat.shl_align q 0 (Zpos (Pos.size q) - 53) in
          SpecFloat.binary_round_aux 53 1024 false (Zpos mz) ez SpecFloat.loc_Exact) as ->.
  { unfold SpecFloat.binary_normalize, SpecFloat.binary_round. rewrite digits2_size.
    replace (SpecFloat.fexp 53 1024 (Zpos (Pos.size q) + 0)) with (Zpos (Pos.size q) - 53)
      by (unfold SpecFloat.fexp, SpecFloat.emin; lia).
    reflexivity. }
  unfold SpecFloat.shl_align.
  destruct (Zpos (Pos.size q) - 53) as [|p|p] eqn:E; [|lia|].
  - exists q. replace (53 - Zpos (Pos.size q)) with 0 in HM |- * by lia.
    split; [lia|]. apply round_aux_exact; lia.
  - exists (Pos.iter xO q p). rewrite iter_xO.
    replace (53 - Zpos (Pos.size q)) with (Zpos p) in HM |- * by lia.
    split; [done|]. cbn -[SpecFloat.binary_round_aux].
    apply round_aux_exact; [by rewrite iter_xO|lia].
Qed.

Lemma round_ratio_small q Mp :
  Zpos q < 2 ^ 53 -> Zpos Mp = Zpos q * 2 ^ (53 - Zpos (Pos.size q)) ->
  PyFloat.round_ratio (Zpos q) 1 = SF2Prim (S754_finite false Mp (Zpos (Pos.size q) - 53)).
Proof.
  intros Hq HMp. destruct (shifted_bounds q Hq) as [Hd HM]. rewrite <- HMp in HM.
  unfold PyFloat.round_ratio.
  replace (Z.log2 (Zpos q) - Z.log2 1 - 52) with (Zpos (Pos.size q) - 53)
    by (rewrite log2_size; change (Z.log2 1) with 0; lia).
  assert (forall e, e = Zpos (Pos.size q) - 53 ->
            (if 0 <=? e then Zpos q / (1 * 2 ^ e) else Zpos q * 2 ^ (- e) / 1) = Zpos Mp) as Hquo.
  { intros e ->. rewrite HMp. destruct (Z.leb_spec 0 (Zpos (Pos.size q) - 53)).
    - replace (Zpos (Pos.size q) - 53) with 0 by lia. replace (53 - Zpos (Pos.size q)) with 0 by lia.
      rewrite Z.pow_0_r, Z.mul_1_r, Z.div_1_r. lia.
    - rewrite Z.div_1_r. do 2 f_equal. lia. }
  cbv zeta. rewrite (Hquo _ eq_refl).
  assert ((if Zpos Mp <? 2 ^ 52 then Zpos (Pos.size q) - 53 - 1 else Zpos (Pos.size q) - 53)
          = Zpos (Pos.size q) - 53) as -> by (destruct (Z.ltb_spec (Zpos Mp) (2 ^ 52)); lia).
  rewrite Z.max_l by lia.
  assert ((if 0 <=? Zpos (Pos.size q) - 53
           then (Zpos q, 1 * 2 ^ (Zpos (Pos.size q) - 53))
           else (Zpos q * 2 ^ (- (Zpos (Pos.size q) - 53)), 1)) = (Zpos Mp, 1)) as ->.
  { rewrite HMp. destruct (Z.leb_spec 0 (Zpos (Pos.size q) - 53)).
    - replace (Zpos (Pos.size q) - 53) with 0 by lia. replace (53 - Zpos (Pos.size q)) with 0 by lia.
      by rewrite !Z.pow_0_r, !Z.mul_1_r.
    - do 3 f_equal. lia. }
  cbn [fst snd]. rewrite Z.mod_1_r, Z.div_1_r.
  change (2 * 0 >? 1) with false. change (2 * 0 =? 1) with false. cbn [orb andb].
  destruct (Z.eqb_spec (Zpos Mp) (2 ^ 53)); [lia|].
  destruct (Z.ltb_spec 971 (Zpos (Pos.size q) - 53)); [lia|]. done.
Qed.

Lemma valid_normal Mp e :
  2 ^ 52 <= Zpos Mp < 2 ^ 53 -> -1074 <= e <= 971 ->
  SpecFloat.valid_binary 53 1024 (S754_finite false Mp e) = true.
Proof.
  intros HM He. unfold SpecFloat.valid_binary, SpecFloat.bounded, SpecFloat.canonical_mantissa.
  rewrite digits2_size, size_of_bounds by done.
  apply andb_true_iff. split; [apply Z.eqb_eq|apply Z.leb_le];
    unfold SpecFloat.fexp, SpecFloat.emin; lia.
Qed.

(** Below [2^53], [round_ratio n 1] is the binary64 value of [n]. *)
Lemma round_ratio_of_uint63 q :
  Zpos q < 2 ^ 53 -> PyFloat.round_ratio (Zpos q) 1 = PrimFloat.of_uint63 (Uint63.of_Z (Zpos q)).
Proof.
  intros Hq. destruct (normalize_small q Hq) as (Mp & HMp & Hn).
  destruct (shifted_bounds q Hq) as [Hd HM]. rewrite <- HMp in HM.
  rewrite (round_ratio_small q Mp Hq HMp). apply Prim2SF_inj.
  rewrite Prim2SF_SF2Prim by (apply valid_normal; lia).
  rewrite of_uint63_spec, Uint63.of_Z_spec, Z.mod_small.
  - symmetry. exact Hn.
  - change Uint63.wB with (2 ^ 63). lia.
Qed.

End IntegerExactness.

(** C28. The decimal printing of every natural number below [2^53] (every
    integer binary64 holds exactly, so every score) is read by [float()] as
    that number's binary64 value. *)
Theorem py_float_integer n :
  (Z.of_nat n < 2 ^ 53)%Z -> PyFloat.py_float (pretty n) = Ok (float_of_nat n).
Proof.
  intros Hn. destruct (decide (n = 0)) as [->|Hn0]; [reflexivity|].
  unfold pretty, pretty_nat, pretty, pretty_N.
  rewrite decide_False by lia.
  destruct (pretty_N_go_digits (N.of_nat n) "") as (ds & Hs & Hds & Hv & Hne).
  rewrite app_nil_r in Hs.
  rewrite (py_float_digits _ ds Hs (Hne ltac:(lia)) Hds), Hv, nat_N_Z.
  f_equal. unfold float_of_nat.
  destruct (Z.of_nat n) as [|q|q] eqn:E; [lia| |lia].
  unfold PyFloat.decimal_value. cbn [Z.eqb].
  destruct (Z.leb_spec 309 0); [lia|].
  pose proof (Z.log2_nonneg (Zpos q)).
  destruct (Z.ltb_spec (0 + Z.log2 (Zpos q) + 1) (-324)); [lia|].
  rewrite Z.pow_0_r, Z.mul_1_r. cbn [Z.leb Z.compare].
  by apply round_ratio_of_uint63.
Qed.
