(* ===== verification/App.v ===== *)
(** * App: the Flask handlers of src/app.py

    [predict_datapoint] (lines 21-50): a GET renders the empty form; a POST
    reads the form fields with [request.form.get] ([None] for a field that
    was not sent), converts the two scores with [float(...)] (lines 33-34,
    where the form's [writing_score] becomes the record's [reading_score]
    and the other way round), builds the one-row frame of [CustomData],
    runs [PredictPipeline.predict] and renders its first prediction.  Every
    method other than GET takes the [else] branch (line 25); which methods
    reach the handler is Flask's routing, modelled in Server.v.  Templates
    are opaque: a page is its template name and the value passed as
    [results].  The scores go through [PyFloat.py_float] (PyFloat.v). *)

From S2P Require Import Prelude Frame Preprocessor RowSpec Store PredictPipeline PyFloat.


(** ** The handlers *)

(** [request.method]: the methods a client can send. *)
Inductive http_method : Type := GET | POST | HEAD | OPTIONS | PUT | DELETE | PATCH.

#[export] Instance http_method_eq_dec : EqDecision http_method.
Proof. solve_decision. Defined.

(** What a handler sees of the request: its method and its form. *)
Record request : Type := mkRequest {
  method : http_method;
  form : gmap string string
}.

(** [render_template(name, results=...)] *)
Inductive page : Type :=
  | Render (template : string) (results : option float).

(** [float(x)] on what [request.form.get] returned. *)
Definition float_arg (v : option string) : result float :=
  match v with
  | Some s => PyFloat.py_float s
  | None => Err (TypeError "float() argument must be a string or a real number, not 'NoneType'")
  end.

(** Lines 16-18. *)
Definition index : io page := io_ret (Render "index.html" None).

(** Lines 21-50. *)
Definition predict_datapoint (req : request) : io page :=
  match method req with
  | GET => io_ret (Render "home.html" None)
  | _ =>
      let f := form req in
      let! reading_score := io_lift (float_arg (f !! "writing_score")) in
      let! writing_score := io_lift (float_arg (f !! "reading_score")) in
      let data := CustomData.mk (f !! "gender") (f !! "ethnicity")
                    (f !! "parental_level_of_education") (f !! "lunch")
                    (f !! "test_preparation_course") reading_score writing_score in
      let! pred_df := io_lift (CustomData.get_data_as_data_frame data) in
      let! results := PredictPipeline.predict pred_df in
      match results with
      | r :: _ => io_ret (Render "home.html" (Some r))
      | [] => io_lift (Err (IndexError "index 0 is out of bounds for axis 0 with size 0"))
      end
  end.

(** ** Theorems *)

(** *** The handler *)

(** A GET renders the empty form and reads nothing. *)
Lemma predict_datapoint_get req s :
  method req = GET -> predict_datapoint req s = (Ok (Render "home.html" None), s).
Proof. intros Hm. unfold predict_datapoint. by rewrite Hm. Qed.

(** C10. The record a POST builds: the form's [writing_score] becomes its
    [reading_score] and the form's [reading_score] its [writing_score]
    (lines 33-34); the page shows the model's value on that record's
    transformed row. *)
Theorem predict_datapoint_swaps_scores req s m st ws rs w r x :
  method req = POST ->
  form req !! "writing_score" = Some ws -> PyFloat.py_float ws = Ok w ->
  form req !! "reading_score" = Some rs -> PyFloat.py_float rs = Ok r ->
  s !! PredictPipeline.model_path = Some (APickle (OModel m)) ->
  s !! PredictPipeline.preprocessor_path = Some (APickle (OPreprocessor st)) ->
  Preprocessor.transform st
    (mkFrame CustomData.labels
       [CustomData.row (CustomData.mk (form req !! "gender") (form req !! "ethnicity")
          (form req !! "parental_level_of_education") (form req !! "lunch")
          (form req !! "test_preparation_course") w r)]) = Ok [x] ->
  length x = n_features_in_ m ->
  predict_datapoint req s = (Ok (Render "home.html" (Some (predict_row m x))), s).
Proof.
  intros Hpost Hws Hw Hrs Hr Hm Hp HX Hx.
  unfold predict_datapoint. rewrite Hpost. cbn [form].
  unfold io_bind, io_lift, float_arg. rewrite Hws, Hw, Hrs, Hr.
  rewrite get_data_as_data_frame_Ok.
  rewrite (PredictPipeline.predict_Ok _ m st _ [x] Hm Hp HX); [done|].
  by constructor.
Qed.

(** C26. A POST without a [writing_score] field fails at [float(None)], outside
    any [try]: the error reaches Flask unwrapped, and nothing is read. *)
Theorem predict_datapoint_missing_score req s :
  method req = POST -> form req !! "writing_score" = None ->
  predict_datapoint req s =
  (Err (TypeError "float() argument must be a string or a real number, not 'NoneType'"), s).
Proof.
  intros Hpost Hws. unfold predict_datapoint. rewrite Hpost. cbn [form].
  unfold io_bind, io_lift, float_arg. by rewrite Hws.
Qed.

(** C27. A score [float()] rejects makes the POST raise that [ValueError]. *)
Theorem predict_datapoint_bad_score req s ws e :
  method req = POST -> form req !! "writing_score" = Some ws ->
  PyFloat.py_float ws = Err e ->
  predict_datapoint req s = (Err e, s).
Proof.
  intros Hpost Hws He. unfold predict_datapoint. rewrite Hpost. cbn [form].
  unfold io_bind, io_lift, float_arg. by rewrite Hws, He.
Qed.

(** The answer to a valid submission (the proof of C11, shared with the
    server's theorem). *)
Lemma predict_datapoint_answer req s m st ws rs w r :
  let d := CustomData.mk (form req !! "gender") (form req !! "ethnicity")
             (form req !! "parental_level_of_education") (form req !! "lunch")
             (form req !! "test_preparation_course") w r in
  method req = POST ->
  form req !! "writing_score" = Some ws -> PyFloat.py_float ws = Ok w ->
  form req !! "reading_score" = Some rs -> PyFloat.py_float rs = Ok r ->
  s !! PredictPipeline.model_path = Some (APickle (OModel m)) ->
  s !! PredictPipeline.preprocessor_path = Some (APickle (OPreprocessor st)) ->
  state_wf st -> n_features_in_ m = out_width st ->
  known_row st CustomData.labels (CustomData.row d) = true ->
  predict_datapoint req s =
  (Ok (Render "home.html"
         (Some (predict_row m (RowSpec.expected_row st CustomData.labels (CustomData.row d))))), s).
Proof.
  intros d Hpost Hws Hw Hrs Hr Hm Hp Hwf Hn Hk.
  assert (Preprocessor.transform st (mkFrame CustomData.labels [CustomData.row d]) =
          Ok [RowSpec.expected_row st CustomData.labels (CustomData.row d)]) as HX.
  { apply (RowSpec.transform_expected st (mkFrame _ [_])); [done| |done|by constructor].
    intros c Hc. cbn [columns]. unfold CustomData.labels. set_solver. }
  subst d. unfold predict_datapoint. rewrite Hpost. cbn [form].
  unfold io_bind, io_lift, float_arg. rewrite Hws, Hw, Hrs, Hr.
  rewrite get_data_as_data_frame_Ok.
  rewrite (PredictPipeline.predict_Ok _ m st _ _ Hm Hp HX); [done|].
  rewrite Hn. exact (transform_width _ _ _ Hwf HX).
Qed.

(** C7. A valid submission is answered: when both scores parse, the fitted
    artifacts are in place and the record the handler builds has known
    categories, the page shows the model's value on the closed-form row
    of that record (RowSpec.v). *)
Theorem predict_datapoint_expected req s m st ws rs w r :
  let d := CustomData.mk (form req !! "gender") (form req !! "ethnicity")
             (form req !! "parental_level_of_education") (form req !! "lunch")
             (form req !! "test_preparation_course") w r in
  method req = POST ->
  form req !! "writing_score" = Some ws -> PyFloat.py_float ws = Ok w ->
  form req !! "reading_score" = Some rs -> PyFloat.py_float rs = Ok r ->
  s !! PredictPipeline.model_path = Some (APickle (OModel m)) ->
  s !! PredictPipeline.preprocessor_path = Some (APickle (OPreprocessor st)) ->
  state_wf st -> n_features_in_ m = out_width st ->
  known_row st CustomData.labels (CustomData.row d) = true ->
  predict_datapoint req s =
  (Ok (Render "home.html"
         (Some (predict_row m (RowSpec.expected_row st CustomData.labels (CustomData.row d))))), s).
Proof. exact (predict_datapoint_answer req s m st ws rs w r). Qed.

