(* ===== verification/Server.v ===== *)
(** * Server: Flask's routing of src/app.py and the request loop of [app.run]

    The two [@app.route] decorators (lines 16 and 21) register the rules
    ["/"] (methods GET, with HEAD and OPTIONS added by Flask) and
    ["/predictdata"] (GET and POST, with HEAD and OPTIONS added).
    [dispatch] is Flask's [full_dispatch_request] on one request: no rule
    gives 404, a method outside the rule gives 405, OPTIONS is answered by
    Flask without calling the view, any other method calls the view, and an
    exception escaping the view becomes a 500 response
    ([handle_exception] outside debug mode).

    [app.run] (line 54) serves requests with Werkzeug's threaded server: the
    requests that have arrived are handled in any order.  [step] is that
    loop: it takes any pending request, runs [dispatch] on the artifact store
    and records the response under the request's identifier.  The handlers
    do not interleave within one request here; since they only read the
    store (the theorems below), a finer interleaving computes the same
    responses.  The last theorem composes the loop, the url map and the
    handler: once every request is served, each valid submission has been
    answered with the prediction of the fitted artifacts. *)

From S2P Require Import Prelude Frame Preprocessor RowSpec Store PredictPipeline PyFloat App.

(** A request as the server receives it: the URL path and what the view
    sees. *)
Record http_request : Type := mkHttp {
  path : string;
  payload : request
}.

(** What the server sends back. *)
Inductive response : Type :=
  | Page200 (p : page)
  | Options200 (allow : list http_method)
  | Error404
  | Error405 (allow : list http_method)
  | Error500.

(** The url map of lines 16 and 21: the methods each rule accepts. *)
Definition rule_methods (p : string) : option (list http_method) :=
  if String.eqb p "/" then Some [GET; HEAD; OPTIONS]
  else if String.eqb p "/predictdata" then Some [GET; POST; HEAD; OPTIONS]
  else None.

(** The view function of each rule. *)
Definition view (p : string) (r : request) : io page :=
  if String.eqb p "/" then index else predict_datapoint r.

(** [full_dispatch_request] with [handle_exception]. *)
Definition dispatch (h : http_request) : io response :=
  match rule_methods (path h) with
  | None => io_ret Error404
  | Some ms =>
      if bool_decide (method (payload h) ∈ ms) then
        match method (payload h) with
        | OPTIONS => io_ret (Options200 ms)
        | _ => fun s =>
                 match view (path h) (payload h) s with
                 | (Ok pg, s') => (Ok (Page200 pg), s')
                 | (Err _, s') => (Ok Error500, s')
                 end
        end
      else io_ret (Error405 ms)
  end.

(** The response the server gives to [h] on the store [s]. *)
Definition respond (s : store) (h : http_request) : response :=
  match (dispatch h s).1 with
  | Ok r => r
  | Err _ => Error500
  end.

(** ** The request loop of [app.run] *)

Record server : Type := mkServer {
  artifacts : store;
  pending : list (nat * http_request);
  served : list (nat * response)
}.

Inductive step : server -> server -> Prop :=
  | step_serve s q1 q2 i h out r s' :
      dispatch h s = (Ok r, s') ->
      step (mkServer s (q1 ++ (i, h) :: q2) out) (mkServer s' (q1 ++ q2) (out ++ [(i, r)])).

(** The loop as a function: the requests served in arrival order. *)
Fixpoint serve_fifo (s : store) (q : list (nat * http_request)) : list (nat * response) :=
  match q with
  | [] => []
  | (i, h) :: q' => (i, respond s h) :: serve_fifo s q'
  end.

(** ** The handlers only read the store *)

Lemma predict_datapoint_read_only r : read_only (predict_datapoint r).
Proof.
  unfold predict_datapoint. destruct (method r);
    repeat (apply io_bind_read_only; [auto using predict_read_only with pyml|intros ?]);
    try case_match; auto with pyml.
Qed.

Lemma view_read_only p r : read_only (view p r).
Proof.
  unfold view. destruct (String.eqb p "/"); [done|apply predict_datapoint_read_only].
Qed.

(** [dispatch] always answers, and leaves the store as it was. *)
Lemma dispatch_respond h s : dispatch h s = (Ok (respond s h), s).
Proof.
  unfold respond, dispatch.
  destruct (rule_methods (path h)) as [ms|]; [|done].
  case_bool_decide; [|done].
  pose proof (view_read_only (path h) (payload h) s) as Hv.
  destruct (method (payload h)); try done;
    destruct (view (path h) (payload h) s) as [[pg|e] s']; simpl in *; by subst.
Qed.

(** The invariant of the loop: the store is the initial one, and what has
    been served is the response to each request taken so far. *)
Definition loop_inv (s0 : store) (q0 : list (nat * http_request)) (st : server) : Prop :=
  artifacts st = s0 /\
  exists taken, taken ++ pending st ≡ₚ q0 /\
    served st = map (fun '(i, h) => (i, respond s0 h)) taken.

Lemma step_loop_inv s0 q0 st st' : step st st' -> loop_inv s0 q0 st -> loop_inv s0 q0 st'.
Proof.
  intros [s q1 q2 i h out r s' Hd] (Hs & taken & Hperm & Hout). simpl in *.
  rewrite dispatch_respond in Hd. injection Hd as <- <-. subst.
  split; [done|]. exists (taken ++ [(i, h)]). split.
  - rewrite <- Hperm. solve_Permutation.
  - by rewrite map_app.
Qed.

Lemma rtc_loop_inv s0 q0 st st' :
  rtc step st st' -> loop_inv s0 q0 st -> loop_inv s0 q0 st'.
Proof. induction 1; eauto using step_loop_inv. Qed.

Lemma step_pending_length st st' : step st st' -> length (pending st') < length (pending st).
Proof. intros [s q1 q2 i h out r s' _]. simpl. rewrite !length_app. simpl. lia. Qed.

Lemma serve_fifo_rtc s q out :
  rtc step (mkServer s q out) (mkServer s [] (out ++ serve_fifo s q)).
Proof.
  revert out. induction q as [|[i h] q IH]; intros out; simpl.
  - by rewrite app_nil_r.
  - eapply rtc_l; [apply (step_serve s [] q i h out (respond s h) s), dispatch_respond|].
    specialize (IH (out ++ [(i, respond s h)])). rewrite <- app_assoc in IH. exact IH.
Qed.

Lemma serve_fifo_map s q : serve_fifo s q = map (fun '(i, h) => (i, respond s h)) q.
Proof. induction q as [|[i h] q IH]; simpl; by f_equal. Qed.

(** ** Routing *)

(** The url map answers the two rules; any other path is a 404, and a
    method outside a rule is a 405. *)
Lemma dispatch_routes s f :
  respond s (mkHttp "/" (mkRequest GET f)) = Page200 (Render "index.html" None) /\
  respond s (mkHttp "/" (mkRequest POST f)) = Error405 [GET; HEAD; OPTIONS] /\
  respond s (mkHttp "/predictdata" (mkRequest GET f)) = Page200 (Render "home.html" None) /\
  respond s (mkHttp "/predictdata" (mkRequest PUT f)) = Error405 [GET; POST; HEAD; OPTIONS] /\
  respond s (mkHttp "/predictdata" (mkRequest OPTIONS f)) = Options200 [GET; POST; HEAD; OPTIONS] /\
  forall p r, p <> "/" -> p <> "/predictdata" -> respond s (mkHttp p r) = Error404.
Proof.
  split_and!; try reflexivity.
  intros p r H1 H2. unfold respond, dispatch, rule_methods. simpl.
  by rewrite (proj2 (String.eqb_neq p "/") H1), (proj2 (String.eqb_neq p "/predictdata") H2).
Qed.

(** A HEAD request to [/predictdata] reaches the view, whose [else]
    branch (line 25) runs the POST code on it; a HEAD request carries no
    form, so [float(None)] raises and the server answers 500. *)
Lemma dispatch_head_as_post s f :
  dispatch (mkHttp "/predictdata" (mkRequest HEAD f)) s =
  dispatch (mkHttp "/predictdata" (mkRequest POST f)) s /\
  respond s (mkHttp "/predictdata" (mkRequest HEAD ∅)) = Error500.
Proof. split; reflexivity. Qed.

(** ** The loop *)

(** Whatever order the loop takes the requests in, it never changes the
    artifacts, and it has answered each request it took with the response
    that request gets on the initial store. *)
Lemma serve_invariant s0 q0 st :
  rtc step (mkServer s0 q0 []) st -> loop_inv s0 q0 st.
Proof.
  intros H. apply (rtc_loop_inv s0 q0 _ _ H). split; [done|].
  exists []. split; [done|]. done.
Qed.

(** Every run of the loop is finite: each step serves one pending
    request. *)
Lemma step_terminates : well_founded (fun st' st => step st st').
Proof.
  apply (well_founded_lt_compat _ (fun st => length (pending st))).
  intros st' st. apply step_pending_length.
Qed.

(** While requests are pending the loop can take one, and a run that has
    served them all has served each exactly once, with the response it
    gets on the initial store, in some order. *)
Lemma serve_complete s0 q0 st :
  rtc step (mkServer s0 q0 []) st ->
  (pending st <> [] -> exists st', step st st') /\
  (pending st = [] -> served st ≡ₚ serve_fifo s0 q0).
Proof.
  intros H. destruct (serve_invariant _ _ _ H) as (Hs & taken & Hperm & Hout). split.
  - destruct st as [s [|[i h] q] out]; simpl in *; [done|]. intros _.
    exists (mkServer s q (out ++ [(i, respond s h)])).
    apply (step_serve s [] q i h out), dispatch_respond.
  - intros Hp. rewrite Hout, serve_fifo_map, <- Hperm, Hp, app_nil_r. done.
Qed.

(** ** End to end *)

(** A POST to [/predictdata] is answered with the page the view renders. *)
Lemma respond_predictdata_post s req pg s' :
  method req = POST -> predict_datapoint req s = (Ok pg, s') ->
  respond s (mkHttp "/predictdata" req) = Page200 pg.
Proof.
  intros Hpost H. unfold respond, dispatch. simpl. rewrite Hpost. simpl.
  unfold view. simpl. by rewrite H.
Qed.

(** Once a run has served every request, each request of the initial queue
    has its response on the initial store among those served. *)
Lemma served_request s0 q0 st i h :
  rtc step (mkServer s0 q0 []) st -> pending st = [] -> (i, h) ∈ q0 ->
  (i, respond s0 h) ∈ served st.
Proof.
  intros Hrun Hp Hin. destruct (serve_invariant _ _ _ Hrun) as (_ & taken & Hperm & ->).
  rewrite Hp, app_nil_r in Hperm. rewrite <- Hperm in Hin.
  apply list_elem_of_fmap. by exists (i, h).
Qed.

(** C6. Serving after training: on a store holding a model and a
    well-formed fitted preprocessor whose output width the model expects,
    every run of the request loop that has served all arrived requests
    has answered each valid POST to [/predictdata] (both scores parse, the
    record's categories are known) with a 200 page showing the model's
    value on the closed-form row of the record the handler builds, its two
    scores swapped as in app.py lines 33-34. *)
Theorem serve_predictions s0 q0 st0 m st i req ws rs w r :
  let d := CustomData.mk (form req !! "gender") (form req !! "ethnicity")
             (form req !! "parental_level_of_education") (form req !! "lunch")
             (form req !! "test_preparation_course") w r in
  rtc step (mkServer s0 q0 []) st0 -> pending st0 = [] ->
  s0 !! PredictPipeline.model_path = Some (APickle (OModel m)) ->
  s0 !! PredictPipeline.preprocessor_path = Some (APickle (OPreprocessor st)) ->
  state_wf st -> n_features_in_ m = out_width st ->
  (i, mkHttp "/predictdata" req) ∈ q0 -> method req = POST ->
  form req !! "writing_score" = Some ws -> PyFloat.py_float ws = Ok w ->
  form req !! "reading_score" = Some rs -> PyFloat.py_float rs = Ok r ->
  known_row st CustomData.labels (CustomData.row d) = true ->
  (i, Page200 (Render "home.html"
        (Some (predict_row m (RowSpec.expected_row st CustomData.labels (CustomData.row d))))))
    ∈ served st0.
Proof.
  intros d Hrun Hp Hm Hpre Hwf Hn Hin Hpost Hws Hw Hrs Hr Hk.
  erewrite <- respond_predictdata_post; [exact (served_request _ _ _ _ _ Hrun Hp Hin)|done|].
  exact (predict_datapoint_answer req s0 m st ws rs w r Hpost Hws Hw Hrs Hr Hm Hpre Hwf Hn Hk).
Qed.

