(* ===== verification/Examples.v ===== *)
(** * Examples: concrete runs of the program

    Small inputs shaped like the repository's data ([notebook/data/stud.csv]:
    five categorical columns, three scores), the artifacts a run of the
    training script leaves on them, and the instances of the theorems at
    these inputs.  Everything here is evaluated by [vm_compute].

    The permutation [ex_perm] stands for numpy's [RandomState(42)]: the
    identity, a permutation of every size, which is all the theorems about
    the split assume.  The learner [ex_learn] returns the first feature of
    a row, so a prediction shows the scaled [writing_score] it was given. *)

From stdpp Require Import pretty.
From S2P Require Import Prelude Frame Imputer Encoder Scaler Pipeline ColumnTransformer.
From S2P Require Import Preprocessor Store DataTransformation DataIngestion PredictPipeline.
From S2P Require Import Training PyFloat App.
From S2P Require Import RowSpec Server.

(** ** Fixtures *)

Definition ex_columns : list string :=
  ["gender"; "race_ethnicity"; "parental_level_of_education"; "lunch";
   "test_preparation_course"; "math_score"; "reading_score"; "writing_score"].

Definition ex_student (g r p l t : string) (math reading writing : float) : list cell :=
  [CStr g; CStr r; CStr p; CStr l; CStr t; CNum math; CNum reading; CNum writing].

(** Five students; the first (the test row of the identity split) has
    only categories the four others share. *)
Definition ex_source : frame :=
  mkFrame ex_columns
    [ex_student "female" "group B" "some college" "standard" "none" 72 72 74;
     ex_student "female" "group C" "some college" "standard" "completed" 69 90 88;
     ex_student "female" "group B" "master's degree" "standard" "none" 90 95 93;
     ex_student "male" "group A" "associate's degree" "free/reduced" "none" 47 57 44;
     ex_student "male" "group C" "some college" "standard" "none" 76 78 75].

Definition ex_perm : rng := fun _ n => seq 0 n.

Definition ex_learn : ModelTrainer.learner := fun _ _ x => default 0%float (head x).

Definition ex_store : store := <[source_data_path := ACsv ex_source]> ∅.

(** The training inputs as the transformation stage sees them. *)
Definition ex_train_inputs : frame :=
  mkFrame ["gender"; "race_ethnicity"; "parental_level_of_education"; "lunch";
           "test_preparation_course"; "reading_score"; "writing_score"]
    [[CStr "female"; CStr "group C"; CStr "some college"; CStr "standard"; CStr "completed"; CNum 90; CNum 88];
     [CStr "female"; CStr "group B"; CStr "master's degree"; CStr "standard"; CStr "none"; CNum 95; CNum 93];
     [CStr "male"; CStr "group A"; CStr "associate's degree"; CStr "free/reduced"; CStr "none"; CNum 57; CNum 44];
     [CStr "male"; CStr "group C"; CStr "some college"; CStr "standard"; CStr "none"; CNum 78; CNum 75]].

Definition empty_state : Preprocessor.state :=
  ColumnTransformer.mkState Preprocessor.num_pipeline Preprocessor.cat_pipeline
    ([], StandardScaler.mkState [] [] [])
    (([], []), StandardScaler.mkState [] [] []) false.

Definition ex_state : Preprocessor.state :=
  match Preprocessor.fit ex_train_inputs with Ok st => st | Err _ => empty_state end.

Definition ex_model : regressor := Regressor 14 (ex_learn [] []).

Definition ex_serving_store : store :=
  <[PredictPipeline.model_path := APickle (OModel ex_model)]>
    (<[PredictPipeline.preprocessor_path := APickle (OPreprocessor ex_state)]> ∅).

(** The spec's example submission (section 8). *)
Definition ex_form : gmap string string :=
  <["gender" := "female"]> (<["ethnicity" := "group B"]>
  (<["parental_level_of_education" := "some college"]> (<["lunch" := "standard"]>
  (<["test_preparation_course" := "none"]> (<["reading_score" := "72"]>
  (<["writing_score" := "74"]> ∅)))))).

Definition ex_request : request := mkRequest POST ex_form.

Definition ok_or {A} (d : A) (r : result A) : A :=
  match r with Ok a => a | Err _ => d end.

(** What a training run leaves: the store after ingestion, the arrays and
    the store after transformation, the model and the store after
    training. *)
Definition ex_ingested : store := (initiate_data_ingestion ex_perm ex_store).2.

Definition ex_transformed : (list (list float) * list (list float) * string) * store :=
  let '(r, s) := initiate_data_transformation train_data_path test_data_path ex_ingested in
  (ok_or ([], [], preprocessor_obj_file_path) r, s).

(** The same run with the test file replaced by the whole source frame. *)
Definition ex_other_test : store := <[test_data_path := ACsv ex_source]> ex_ingested.

Definition ex_transformed_other : (list (list float) * list (list float) * string) * store :=
  let '(r, s) := initiate_data_transformation train_data_path test_data_path ex_other_test in
  (ok_or ([], [], preprocessor_obj_file_path) r, s).

Definition ex_trained : regressor * store :=
  let '(r, s) := main ex_perm ex_learn ex_store in (ok_or ex_model r, s).

(** Two requests: the home page, and a HEAD on the prediction route. *)
Definition ex_home : http_request := mkHttp "/" (mkRequest GET ∅).
Definition ex_head : http_request := mkHttp "/predictdata" (mkRequest HEAD ∅).
Definition ex_queue : list (nat * http_request) := [(1, ex_home); (2, ex_head)].

(** A record whose gender was not seen at [fit]. *)
Definition ex_unseen : frame :=
  mkFrame CustomData.labels
    [CustomData.row (CustomData.mk (Some "non-binary") (Some "group B") (Some "some college")
       (Some "standard") (Some "none") 72 74)].

(** The record the spec's example submission describes. *)
Definition ex_record : list cell :=
  CustomData.row (CustomData.mk (Some "female") (Some "group B") (Some "some college")
    (Some "standard") (Some "none") 72 74).

(** Five training rows whose five categorical columns never repeat a
    value: 25 one-hot columns, 7 stored entries per row out of 27, a
    density under [sparse_threshold]. *)
Definition ex_wide_row (i : nat) : list cell :=
  let t := pretty i in
  [CStr ("g" +:+ t); CStr ("r" +:+ t); CStr ("p" +:+ t); CStr ("l" +:+ t); CStr ("t" +:+ t);
   CNum (float_of_nat (50 + i)); CNum (float_of_nat (60 + i)); CNum (float_of_nat (70 + i))].

Definition ex_wide : frame := mkFrame ex_columns (map ex_wide_row (seq 0 5)).

Definition ex_wide_store : store :=
  <[train_data_path := ACsv ex_wide]>
    (<[test_data_path := ACsv (mkFrame ex_columns [ex_wide_row 0])]> ∅).

Definition ex_wide_inputs : frame := ok_or (mkFrame [] []) (drop_column ex_wide target_column_name).

Definition ex_wide_state : Preprocessor.state :=
  ok_or empty_state (Preprocessor.fit ex_wide_inputs).

(** ** The example submission *)

(** On the spec's example submission (reading 72, writing 74), the page
    shows a prediction other than the one the pipeline makes for the record
    the form describes: the two scores reach the preprocessor swapped. *)
Example served_score_swapped :
  exists v w,
    predict_datapoint ex_request ex_serving_store =
      (Ok (Render "home.html" (Some v)), ex_serving_store) /\
    PredictPipeline.predict (mkFrame CustomData.labels [ex_record]) ex_serving_store =
      (Ok [w], ex_serving_store) /\
    v <> w.
Proof.
  eexists _, _. split; [vm_compute; reflexivity|]. split; [vm_compute; reflexivity|].
  match goal with
  | |- ?v <> ?w => intros Heq; apply (f_equal (fun f => PrimFloat.eqb f w)) in Heq
  end.
  vm_compute in Heq. discriminate Heq.
Qed.

(** ** Instances of the theorems *)

Lemma train_serve_symmetry_witness :
  main ex_perm ex_learn ex_store = (Ok ex_trained.1, ex_trained.2) /\
  exists train_df ftr ytr ys st Xtr,
    ex_trained.2 !! train_data_path = Some (ACsv train_df) /\
    drop_column train_df target_column_name = Ok ftr /\
    get_column train_df target_column_name = Ok ytr /\
    mapM target_value ytr = Ok ys /\
    Preprocessor.fit ftr = Ok st /\
    Preprocessor.transform st ftr = Ok Xtr /\
    ex_trained.2 !! PredictPipeline.preprocessor_path = Some (APickle (OPreprocessor st)) /\
    ex_trained.2 !! PredictPipeline.model_path = Some (APickle (OModel ex_trained.1)) /\
    predict_row ex_trained.1 = ex_learn Xtr ys /\
    forall i r x, rows ftr !! i = Some r -> Xtr !! i = Some x ->
      PredictPipeline.predict (mkFrame (columns ftr) [r]) ex_trained.2 =
      (Ok [predict_row ex_trained.1 x], ex_trained.2).
Proof.
  assert (H : main ex_perm ex_learn ex_store = (Ok ex_trained.1, ex_trained.2))
    by (vm_compute; reflexivity).
  split; [exact H|]. exact (train_serve_symmetry _ _ _ _ _ H).
Defined.

Lemma fit_state_wf_witness :
  state_wf ex_state /\
  forall df' X, Preprocessor.transform ex_state df' = Ok X ->
    Forall (fun x => length x = out_width ex_state) X.
Proof.
  apply (fit_state_wf ex_train_inputs ex_state). vm_compute. reflexivity.
Defined.

Lemma transform_total_witness :
  exists X, Preprocessor.transform ex_state ex_train_inputs = Ok X /\
            Forall (fun x => length x = out_width ex_state) X.
Proof.
  apply transform_total.
  - vm_compute. split_and!; try reflexivity; repeat constructor.
  - apply Forall_forall.
    apply (bool_decide_eq_true_1 (Forall (fun c => c ∈ columns ex_train_inputs)
                                    (numerical_columns ++ categorical_columns))).
    vm_compute. reflexivity.
  - vm_compute. intros H. discriminate H.
  - apply (bool_decide_eq_true_1
             (Forall (fun r => known_row ex_state (columns ex_train_inputs) r = true)
                (rows ex_train_inputs))).
    vm_compute. reflexivity.
Defined.

Lemma transform_unknown_category_witness :
  Preprocessor.transform ex_state ex_unseen <> Ok [].
Proof.
  apply (transform_unknown_category ex_state ex_unseen
           (CustomData.row (CustomData.mk (Some "non-binary") (Some "group B")
              (Some "some college") (Some "standard") (Some "none") 72 74))
           0 0 "female" ["female"; "male"] "gender" "non-binary").
  - apply list_elem_of_In. left. reflexivity.
  - vm_compute. reflexivity.
  - vm_compute. reflexivity.
  - reflexivity.
  - reflexivity.
  - apply (bool_decide_eq_true_1 ("non-binary" ∉ ["female"; "male"])). vm_compute. reflexivity.
Defined.

Lemma transform_missing_numeric_witness :
  Preprocessor.transform ex_state (mkFrame CustomData.labels [<[6:=CNaN]> ex_record]) =
  Preprocessor.transform ex_state (mkFrame CustomData.labels [<[6:=CNum 81.5]> ex_record]).
Proof.
  apply (transform_missing_numeric ex_state CustomData.labels ex_record 0 "writing_score").
  - reflexivity.
  - reflexivity.
  - vm_compute. lia.
  - vm_compute. reflexivity.
  - vm_compute. reflexivity.
Defined.

Lemma preprocessor_transform_one_row_witness :
  exists x, ok_or [] (Preprocessor.transform ex_state ex_train_inputs) !! 0 = Some x /\
    Preprocessor.transform ex_state
      (mkFrame (columns ex_train_inputs)
         [[CStr "female"; CStr "group C"; CStr "some college"; CStr "standard"; CStr "completed";
           CNum 90; CNum 88]]) = Ok [x].
Proof.
  apply (preprocessor_transform_one_row ex_state ex_train_inputs); vm_compute; reflexivity.
Defined.

Lemma saved_preprocessor_roundtrip_witness :
  exists st train_df ftr X ys,
    ex_ingested !! train_data_path = Some (ACsv train_df) /\
    drop_column train_df target_column_name = Ok ftr /\
    load_object ex_transformed.1.2 ex_transformed.2 =
      (Ok (OPreprocessor st), ex_transformed.2) /\
    Preprocessor.transform st ftr = Ok X /\
    length X = length ys /\ ex_transformed.1.1.1 = zip_with (fun r v => r ++ [v]) X ys.
Proof.
  apply (saved_preprocessor_roundtrip train_data_path test_data_path ex_ingested
           ex_transformed.1.1.1 ex_transformed.1.1.2).
  vm_compute. reflexivity.
Defined.

Lemma initiate_data_transformation_sparse_witness :
  initiate_data_transformation train_data_path test_data_path ex_wide_store =
  (Err (CustomException concat_error), ex_wide_store).
Proof.
  apply (initiate_data_transformation_sparse _ _ _ ex_wide (mkFrame ex_columns [ex_wide_row 0])
           ex_wide_inputs
           (ok_or (mkFrame [] []) (drop_column (mkFrame ex_columns [ex_wide_row 0]) target_column_name))
           (ok_or [] (get_column ex_wide target_column_name))
           (ok_or [] (get_column (mkFrame ex_columns [ex_wide_row 0]) target_column_name))
           ex_wide_state
           (ok_or [] (Preprocessor.transform ex_wide_state ex_wide_inputs))
           (ok_or [] (Preprocessor.transform ex_wide_state
                        (ok_or (mkFrame [] [])
                           (drop_column (mkFrame ex_columns [ex_wide_row 0]) target_column_name)))));
    vm_compute; reflexivity.
Defined.

Lemma initiate_data_transformation_no_target_witness :
  initiate_data_transformation train_data_path test_data_path
    (<[train_data_path := ACsv ex_train_inputs]> (<[test_data_path := ACsv ex_train_inputs]> ∅)) =
  (Err (CustomException (KeyError target_column_name)),
   <[train_data_path := ACsv ex_train_inputs]> (<[test_data_path := ACsv ex_train_inputs]> ∅)).
Proof.
  apply (initiate_data_transformation_no_target _ _ _ ex_train_inputs ex_train_inputs).
  - vm_compute. reflexivity.
  - vm_compute. reflexivity.
  - apply (bool_decide_eq_true_1 (target_column_name ∉ columns ex_train_inputs)).
    vm_compute. reflexivity.
Defined.

Lemma initiate_data_ingestion_Ok_witness :
  exists tr te,
    initiate_data_ingestion ex_perm ex_store =
      (Ok (train_data_path, test_data_path),
       <[test_data_path := ACsv te]> (<[train_data_path := ACsv tr]>
         (<[raw_data_path := ACsv ex_source]> ex_store))) /\
    columns tr = columns ex_source /\ columns te = columns ex_source /\
    rows te ++ rows tr ≡ₚ rows ex_source /\
    length (rows te) = (length (rows ex_source) + 4) / 5 /\
    length (rows tr) = length (rows ex_source) - (length (rows ex_source) + 4) / 5.
Proof.
  apply initiate_data_ingestion_Ok.
  - vm_compute. reflexivity.
  - vm_compute. reflexivity.
  - vm_compute. lia.
Defined.

Lemma initiate_data_ingestion_too_few_rows_witness :
  initiate_data_ingestion ex_perm
    (<[source_data_path := ACsv (mkFrame ex_columns (take 1 (rows ex_source)))]> ∅) =
  (Err (CustomException (ValueError "the resulting train set will be empty")),
   <[raw_data_path := ACsv (mkFrame ex_columns (take 1 (rows ex_source)))]>
     (<[source_data_path := ACsv (mkFrame ex_columns (take 1 (rows ex_source)))]> ∅)).
Proof.
  apply initiate_data_ingestion_too_few_rows.
  - vm_compute. reflexivity.
  - vm_compute. lia.
Defined.

Lemma initiate_data_ingestion_no_source_witness :
  initiate_data_ingestion ex_perm ∅ =
  (Err (CustomException (FileNotFoundError source_data_path)), ∅).
Proof. apply initiate_data_ingestion_no_source. vm_compute. reflexivity. Defined.

Lemma predict_datapoint_swaps_scores_witness :
  exists x,
    Preprocessor.transform ex_state
      (mkFrame CustomData.labels
         [CustomData.row (CustomData.mk (Some "female") (Some "group B") (Some "some college")
            (Some "standard") (Some "none") 74 72)]) = Ok [x] /\
    predict_datapoint ex_request ex_serving_store =
      (Ok (Render "home.html" (Some (predict_row ex_model x))), ex_serving_store).
Proof.
  eexists. split; [vm_compute; reflexivity|].
  apply (predict_datapoint_swaps_scores ex_request ex_serving_store ex_model ex_state "74" "72" 74 72);
    vm_compute; reflexivity.
Defined.

Lemma predict_transform_error_witness :
  PredictPipeline.predict ex_unseen ex_serving_store =
  (Err (CustomException (ValueError "Found unknown categories during transform")),
   ex_serving_store).
Proof.
  apply (PredictPipeline.predict_transform_error _ ex_model ex_state); vm_compute; reflexivity.
Defined.

Lemma predict_missing_artifact_witness :
  PredictPipeline.predict ex_unseen (delete PredictPipeline.preprocessor_path ex_serving_store) =
  (Err (CustomException (FileNotFoundError PredictPipeline.preprocessor_path)),
   delete PredictPipeline.preprocessor_path ex_serving_store).
Proof.
  apply PredictPipeline.predict_missing_artifact. right. split; [reflexivity|].
  split; [eexists; reflexivity|vm_compute; reflexivity].
Defined.

Lemma predict_datapoint_missing_score_witness :
  predict_datapoint (mkRequest POST (delete "writing_score" ex_form)) ex_serving_store =
  (Err (TypeError "float() argument must be a string or a real number, not 'NoneType'"),
   ex_serving_store).
Proof. apply predict_datapoint_missing_score; vm_compute; reflexivity. Defined.

Lemma predict_datapoint_bad_score_witness :
  predict_datapoint (mkRequest POST (<["writing_score" := "seventy"]> ex_form)) ex_serving_store =
  (Err (ValueError "could not convert string to float: 'seventy'"), ex_serving_store).
Proof. apply (predict_datapoint_bad_score _ _ "seventy"); vm_compute; reflexivity. Defined.

Lemma py_float_integer_witness : PyFloat.py_float "72" = Ok (float_of_nat 72).
Proof. apply (py_float_integer 72). lia. Defined.

Lemma transform_row_onehot_witness :
  exists v, OneHotEncoder.transform_row [["female"; "male"]; ["group A"; "group B"; "group C"]]
              (map CStr ["male"; "group C"]) = Ok v /\
    length v = sum_list (map length [["female"; "male"]; ["group A"; "group B"; "group C"]]) /\
    forall j cs s i c,
      [["female"; "male"]; ["group A"; "group B"; "group C"]] !! j = Some cs ->
      ["male"; "group C"] !! j = Some s -> cs !! i = Some c ->
      v !! (sum_list (map length (take j [["female"; "male"]; ["group A"; "group B"; "group C"]])) + i) =
      Some (if String.eqb c s then 1%float else 0%float).
Proof.
  apply OneHotEncoder.transform_row_onehot.
  apply (bool_decide_eq_true_1
           (Forall2 (fun cs s => s ∈ cs) [["female"; "male"]; ["group A"; "group B"; "group C"]]
              ["male"; "group C"])).
  vm_compute. reflexivity.
Defined.

Lemma fit_most_frequent_stats_witness :
  let M := [[Some "standard"]; [Some "free/reduced"]; [None]; [Some "free/reduced"]] in
  ([Some "free/reduced"] !! 0 = Some None <-> SimpleImputer.observed 0 M = []) /\
  forall m, [Some "free/reduced"] !! 0 = Some (Some m) ->
    m ∈ SimpleImputer.observed 0 M /\
    (forall v, v ∈ SimpleImputer.observed 0 M ->
       SimpleImputer.count_of (SimpleImputer.observed 0 M) v <=
       SimpleImputer.count_of (SimpleImputer.observed 0 M) m) /\
    (forall v, v ∈ SimpleImputer.observed 0 M ->
       SimpleImputer.count_of (SimpleImputer.observed 0 M) v =
       SimpleImputer.count_of (SimpleImputer.observed 0 M) m -> String.leb m v = true).
Proof.
  intros M.
  apply (SimpleImputer.fit_most_frequent_stats
           [[CStr "standard"]; [CStr "free/reduced"]; [CNaN]; [CStr "free/reduced"]]
           [Some "free/reduced"] M 0);
    vm_compute; [reflexivity|reflexivity|lia].
Defined.

Lemma transform_refines_spec_witness :
  Preprocessor.transform ex_state ex_train_inputs =
  Ok (map (RowSpec.expected_row ex_state (columns ex_train_inputs)) (rows ex_train_inputs)).
Proof.
  apply transform_refines_spec.
  - vm_compute. split_and!; try reflexivity; repeat constructor.
  - apply Forall_forall.
    apply (bool_decide_eq_true_1 (Forall (fun c => c ∈ columns ex_train_inputs)
                                    (numerical_columns ++ categorical_columns))).
    vm_compute. reflexivity.
  - vm_compute. intros H. discriminate H.
  - apply (bool_decide_eq_true_1
             (Forall (fun r => known_row ex_state (columns ex_train_inputs) r = true)
                (rows ex_train_inputs))).
    vm_compute. reflexivity.
Defined.

(** ** The server *)



Lemma fit_ignores_test_file_witness :
  ex_transformed.1.1.1 = ex_transformed_other.1.1.1 /\
  ex_transformed.2 !! preprocessor_obj_file_path =
  ex_transformed_other.2 !! preprocessor_obj_file_path.
Proof.
  apply (fit_ignores_test_file train_data_path test_data_path ex_ingested ex_other_test
           _ ex_transformed.1.1.2 ex_transformed.1.2 _
           _ ex_transformed_other.1.1.2 ex_transformed_other.1.2 _);
    vm_compute; reflexivity.
Defined.

Lemma predict_datapoint_expected_witness :
  predict_datapoint ex_request ex_serving_store =
  (Ok (Render "home.html"
         (Some (predict_row ex_model
                  (RowSpec.expected_row ex_state CustomData.labels
                     (CustomData.row (CustomData.mk (Some "female") (Some "group B")
                        (Some "some college") (Some "standard") (Some "none") 74 72)))))),
   ex_serving_store).
Proof.
  apply (predict_datapoint_expected ex_request ex_serving_store ex_model ex_state "74" "72" 74 72);
    try (vm_compute; reflexivity).
  vm_compute. split_and!; try reflexivity; repeat constructor.
Defined.

Lemma transform_missing_column_witness :
  Preprocessor.transform ex_state (mkFrame ["gender"; "reading_score"] [[CStr "female"; CNum 72]]) =
  Err (ValueError "columns are missing").
Proof.
  apply (transform_missing_column _ _ "lunch").
  - apply (bool_decide_eq_true_1 ("lunch" ∈ numerical_columns ++ categorical_columns)).
    vm_compute. reflexivity.
  - apply (bool_decide_eq_true_1 ("lunch" ∉ ["gender"; "reading_score"])).
    vm_compute. reflexivity.
Defined.

Lemma fit_vocabulary_witness :
  OneHotEncoder.fit [[CStr "male"]; [CStr "female"]; [CStr "male"]] = Ok [["female"; "male"]] /\
  [["female"; "male"]] !! 0 = Some ["female"; "male"] /\
  (StronglySorted String.le ["female"; "male"] /\ NoDup ["female"; "male"] /\
   forall s, s ∈ ["female"; "male"] <->
     exists r, r ∈ [[CStr "male"]; [CStr "female"]; [CStr "male"]] /\ r !! 0 = Some (CStr s)).
Proof.
  assert (OneHotEncoder.fit [[CStr "male"]; [CStr "female"]; [CStr "male"]] =
          Ok [["female"; "male"]]) as H by (vm_compute; reflexivity).
  split; [exact H|]. split; [reflexivity|].
  exact (OneHotEncoder.fit_vocabulary _ _ 0 _ H eq_refl).
Defined.

Lemma transform_empty_frame_witness :
  Preprocessor.transform ex_state (mkFrame (columns ex_train_inputs) []) =
  Err (ValueError "Found array with 0 sample(s) while a minimum of 1 is required").
Proof.
  apply transform_empty_frame; [|reflexivity].
  apply Forall_forall.
  apply (bool_decide_eq_true_1 (Forall (fun c => c ∈ columns ex_train_inputs)
                                  (numerical_columns ++ categorical_columns))).
  vm_compute. reflexivity.
Defined.

(** The spec's example submission queued behind the home page and a HEAD
    request, served in arrival order. *)
Definition ex_post_queue : list (nat * http_request) :=
  ex_queue ++ [(3, mkHttp "/predictdata" ex_request)].

Lemma serve_predictions_witness :
  (3, Page200 (Render "home.html"
        (Some (predict_row ex_model
                 (RowSpec.expected_row ex_state CustomData.labels
                    (CustomData.row (CustomData.mk (Some "female") (Some "group B")
                       (Some "some college") (Some "standard") (Some "none") 74 72)))))))
    ∈ served (mkServer ex_serving_store [] (serve_fifo ex_serving_store ex_post_queue)).
Proof.
  apply (serve_predictions ex_serving_store ex_post_queue _ ex_model ex_state 3 ex_request
           "74" "72" 74 72);
    [exact (serve_fifo_rtc ex_serving_store ex_post_queue [])|reflexivity|..];
    try (vm_compute; reflexivity).
  - vm_compute. split_and!; try reflexivity; repeat constructor.
  - apply list_elem_of_In. right. right. left. reflexivity.
Defined.

